(** * picokit: ICSP engine and host protocol of a PIC18 programmer

    A shallow embedding of [src/icsp.c], [src/protocol.c], [src/target.c]
    and [src/main.c].  C integers are [Z] with the conversions of the
    RP2040 ABI written out (8, 16 and 32 bit wrap-around), arrays are
    lists indexed with stdpp's lookup and insert, and the calls into the
    Pico SDK (GPIO, SPI, sleeping, stdio) are recorded as a trace of
    events by a small state-and-trace monad. *)

From Stdlib Require Import ZArith List Lia Bool String Ascii.
From stdpp Require Import base tactics list.
From Equations Require Import Equations.
Import ListNotations.

Local Open Scope Z_scope.

(** ** Integer conversions *)

(** Conversion to [uint8_t], [uint16_t], [uint32_t] and [size_t]
    (32 bit on the RP2040). *)
Definition to_u8 (x : Z) : Z := x mod 2 ^ 8.
Definition to_u16 (x : Z) : Z := x mod 2 ^ 16.
Definition to_u32 (x : Z) : Z := x mod 2 ^ 32.
Definition to_size_t (x : Z) : Z := x mod 2 ^ 32.

(** Conversion to [int]: two's complement, 32 bit. *)
Definition to_int (x : Z) : Z := (x + 2 ^ 31) mod 2 ^ 32 - 2 ^ 31.

Definition is_u8 (x : Z) : Prop := 0 <= x < 256.
Definition is_u16 (x : Z) : Prop := 0 <= x < 65536.

(** ** icsp.h *)

Definition ICSP_COMMAND_LOAD_PC : Z := 0x80.
Definition ICSP_COMMAND_BULK_ERASE : Z := 0x18.
Definition ICSP_COMMAND_PAGE_ERASE : Z := 0xF0.
Definition ICSP_COMMAND_READ_DATA : Z := 0xFC.
Definition ICSP_COMMAND_READ_DATA_INCPC : Z := 0xFE.
Definition ICSP_COMMAND_INCREMENT_ADDRESS : Z := 0xF8.
Definition ICSP_COMMAND_LOAD_DATA : Z := 0x00.
Definition ICSP_COMMAND_LOAD_DATA_INCPC : Z := 0x02.
Definition ICSP_COMMAND_BEGIN_PROG_INT : Z := 0xE0.
Definition ICSP_COMMAND_BEGIN_PROG_EXT : Z := 0xC0.
Definition ICSP_COMMAND_END_PROG_EXT : Z := 0x82.

Definition ICSP_ERASE_REGION_EEPROM : Z := Z.shiftl 1 0.
Definition ICSP_ERASE_REGION_FLASH : Z := Z.shiftl 1 1.
Definition ICSP_ERASE_REGION_USER_ID : Z := Z.shiftl 1 2.
Definition ICSP_ERASE_REGION_CONFIG : Z := Z.shiftl 1 3.

(** ** protocol.h *)

Definition CMD_DIAG : Z := 0x01.
Definition CMD_ERASE : Z := 0x02.
Definition CMD_WRITE_PAGE : Z := 0x03.
Definition CMD_WRITE_CONFIG : Z := 0x04.
Definition CMD_WRITE_EEPROM : Z := 0x05.
Definition CMD_READ : Z := 0x06.
Definition CMD_RESET_TARGET : Z := 0x07.
Definition CMD_TEST_EEPROM : Z := 0x08.
Definition CMD_VERSION : Z := 0x09.

Definition STATUS_OK : Z := 0x00.
Definition STATUS_ERR_CMD : Z := 0x01.
Definition STATUS_ERR_CRC : Z := 0x02.
Definition STATUS_ERR_TARGET : Z := 0x03.
Definition STATUS_ERR_VERIFY : Z := 0x04.
Definition STATUS_ERR_PAYLOAD : Z := 0x05.

Definition PROTO_MAX_PAYLOAD : Z := 256.

(** [proto_request_t]; [payload] is the 256 byte array of the struct. *)
Record proto_request_t := mk_request {
  cmd : Z;
  len : Z;
  payload : list Z
}.

(** ** The machine the firmware runs on *)

Inductive gpio_function := GPIO_FUNC_SPI | GPIO_FUNC_SIO | GPIO_FUNC_NULL.
Inductive spi_cpol_t := SPI_CPOL_0 | SPI_CPOL_1.
Inductive spi_cpha_t := SPI_CPHA_0 | SPI_CPHA_1.
Inductive spi_order_t := SPI_LSB_FIRST | SPI_MSB_FIRST.

Definition GPIO_OUT : bool := true.
Definition GPIO_IN : bool := false.

(** One event for each call of the SDK that acts on the outside world. *)
Inductive event :=
| Ev_gpio_init (pin : Z)
| Ev_gpio_set_dir (pin : Z) (out : bool)
| Ev_gpio_put (pin : Z) (value : bool)
| Ev_gpio_set_function (pin : Z) (fn : gpio_function)
| Ev_spi_init (baudrate : Z)
| Ev_spi_set_slave (slave : bool)
| Ev_spi_set_format (data_bits : Z) (cpol : spi_cpol_t) (cpha : spi_cpha_t)
    (order : spi_order_t)
| Ev_stdio_init_all
| Ev_stdio_set_translate_crlf (translate : bool)
| Ev_sleep_ms (ms : Z)
| Ev_sleep_us (us : Z)
| Ev_spi_write (src : list Z)
| Ev_spi_read (repeated_tx_data : Z) (dst : list Z)
| Ev_putchar (c : Z)
| Ev_stdio_flush.

(** The file-scope variables of [icsp.c] and the two byte sources.  The
    firmware uses one SPI block, [spi0], so that [spi_inst] is left out.
    [stdin] lists what the coming calls of [getchar] return, one entry a
    call (a byte, or a negative error code); when it is used up
    [getchar] blocks for ever.  [spi_rx k] is the byte the target drives
    on the data line for the [k]-th byte the firmware clocks in, and
    [spi_rx_pos] counts the bytes clocked in so far. *)
Record World := mk_world {
  lvp_active : bool;
  dataOutPin : Z;
  dataInPin : Z;
  clockPin : Z;
  mclrPin : Z;
  stdin : list Z;
  spi_rx : nat -> Z;
  spi_rx_pos : nat
}.

Definition set_lvp_active (b : bool) (w : World) : World :=
  mk_world b (dataOutPin w) (dataInPin w) (clockPin w) (mclrPin w)
           (stdin w) (spi_rx w) (spi_rx_pos w).

Definition set_stdin (l : list Z) (w : World) : World :=
  mk_world (lvp_active w) (dataOutPin w) (dataInPin w) (clockPin w)
           (mclrPin w) l (spi_rx w) (spi_rx_pos w).

Definition set_pins (dat_out dat_in clk mclr : Z) (w : World) : World :=
  mk_world (lvp_active w) dat_out dat_in clk mclr (stdin w) (spi_rx w)
           (spi_rx_pos w).

Definition set_spi_rx_pos (n : nat) (w : World) : World :=
  mk_world (lvp_active w) (dataOutPin w) (dataInPin w) (clockPin w)
           (mclrPin w) (stdin w) (spi_rx w) n.

(** A computation either returns a value, the new world and the events
    it caused, oldest first, or ([None]) never returns because it waits
    in [getchar] for input that does not come. *)
Definition M (A : Type) : Type := World -> option (A * World * list event).

Definition ret {A} (a : A) : M A := fun w => Some (a, w, []).

Definition bind {A B} (m : M A) (f : A -> M B) : M B := fun w =>
  match m w with
  | None => None
  | Some (a, w1, t1) =>
      match f a w1 with
      | None => None
      | Some (b, w2, t2) => Some (b, w2, t1 ++ t2)
      end
  end.

Notation "x <- m ;; k" := (bind m (fun x => k))
  (at level 100, m at next level, right associativity).
Notation "m ;; k" := (bind m (fun _ => k))
  (at level 100, right associativity).

Definition emit (e : event) : M unit := fun w => Some (tt, w, [e]).
Definition read {A} (f : World -> A) : M A := fun w => Some (f w, w, []).
Definition modify (f : World -> World) : M unit := fun w => Some (tt, f w, []).

(** [for (i = start; ...; i++) body(i)] with [n] iterations. *)
Fixpoint for_loop (n : nat) (i : Z) (body : Z -> M unit) : M unit :=
  match n with
  | O => ret tt
  | S k => body i ;; for_loop k (i + 1) body
  end.

(** The same loop when the body updates a local [s] (an array). *)
Fixpoint for_fold {S : Type} (n : nat) (i : Z) (body : Z -> S -> M S)
    (s : S) : M S :=
  match n with
  | O => ret s
  | S k => s1 <- body i s ;; for_fold k (i + 1) body s1
  end.

(** *** SDK calls *)

Definition gpio_init (pin : Z) : M unit := emit (Ev_gpio_init pin).
Definition gpio_set_dir (pin : Z) (out : bool) : M unit :=
  emit (Ev_gpio_set_dir pin out).
Definition gpio_put (pin : Z) (value : bool) : M unit :=
  emit (Ev_gpio_put pin value).
Definition gpio_set_function (pin : Z) (fn : gpio_function) : M unit :=
  emit (Ev_gpio_set_function pin fn).
Definition sleep_ms (ms : Z) : M unit := emit (Ev_sleep_ms ms).
Definition sleep_us (us : Z) : M unit := emit (Ev_sleep_us us).
Definition spi_init (baudrate : Z) : M unit := emit (Ev_spi_init baudrate).
Definition spi_set_slave (slave : bool) : M unit :=
  emit (Ev_spi_set_slave slave).
Definition spi_set_format (data_bits : Z) (cpol : spi_cpol_t)
    (cpha : spi_cpha_t) (order : spi_order_t) : M unit :=
  emit (Ev_spi_set_format data_bits cpol cpha order).
Definition spi_write_blocking (src : list Z) : M unit :=
  emit (Ev_spi_write src).

(** The next [n] bytes the target presents. *)
Definition spi_next (w : World) (n : nat) : list Z :=
  (fun k => to_u8 (spi_rx w (spi_rx_pos w + k)%nat)) <$> seq 0 n.

(** Clocks in [n] bytes while sending [tx] each time. *)
Definition spi_read_blocking (tx : Z) (n : nat) : M (list Z) := fun w =>
  let dst := spi_next w n in
  Some (dst, set_spi_rx_pos (spi_rx_pos w + n)%nat w, [Ev_spi_read tx dst]).

Definition getchar : M Z := fun w =>
  match stdin w with
  | [] => None
  | c :: rest => Some (c, set_stdin rest w, [])
  end.

Definition putchar (c : Z) : M unit := emit (Ev_putchar c).
Definition stdio_flush : M unit := emit Ev_stdio_flush.
Definition stdio_init_all : M unit := emit Ev_stdio_init_all.
Definition stdio_set_translate_crlf (translate : bool) : M unit :=
  emit (Ev_stdio_set_translate_crlf translate).

(** ** icsp.c *)

Definition icsp_init (pin_mclr pin_dat pin_clk pin_dat_in : Z) : M unit :=
  gpio_init pin_mclr ;;
  gpio_init pin_dat ;;
  gpio_init pin_clk ;;
  gpio_set_function pin_mclr GPIO_FUNC_SIO ;;
  gpio_set_function pin_dat GPIO_FUNC_SPI ;;
  gpio_set_function pin_clk GPIO_FUNC_SPI ;;
  gpio_set_dir pin_mclr GPIO_OUT ;;
  gpio_set_dir pin_dat GPIO_OUT ;;
  gpio_set_dir pin_clk GPIO_OUT ;;
  (if negb (pin_dat_in =? -1) then
     gpio_init pin_dat_in ;;
     gpio_set_function pin_dat_in GPIO_FUNC_NULL ;;
     gpio_set_dir pin_dat_in GPIO_IN
   else ret tt) ;;
  gpio_put pin_mclr true ;;
  spi_init 5000000 ;;
  spi_set_slave false ;;
  spi_set_format 8 SPI_CPOL_0 SPI_CPHA_1 SPI_MSB_FIRST ;;
  modify (set_pins pin_dat pin_dat_in pin_clk pin_mclr).

Definition icsp_enter_lvp : M unit :=
  active <- read lvp_active ;;
  if active then ret tt
  else
    mclr <- read mclrPin ;;
    gpio_put mclr false ;;
    sleep_ms 50 ;;
    spi_write_blocking [0x4D; 0x43; 0x48; 0x50] ;; (* "MCHP" *)
    sleep_ms 5 ;;
    modify (set_lvp_active true).

Definition icsp_exit_lvp : M unit :=
  active <- read lvp_active ;;
  if negb active then ret tt
  else
    mclr <- read mclrPin ;;
    gpio_put mclr true ;;
    sleep_ms 5 ;;
    modify (set_lvp_active false).

(** The three payload bytes [icsp_send_command] puts after the opcode. *)
Definition payload_bytes (payload : Z) : list Z :=
  [to_u8 (Z.land (Z.shiftr payload 15) 0xFF);
   to_u8 (Z.land (Z.shiftr payload 7) 0xFF);
   to_u8 (Z.land (Z.shiftl payload 1) 0xFF)].

(** [cmd] is a [uint8_t], [payload] an [int]. *)
Definition icsp_send_command (cmd payload : Z) : M unit :=
  if 0 <=? payload then spi_write_blocking (to_u8 cmd :: payload_bytes payload)
  else spi_write_blocking [to_u8 cmd].

Definition icsp_cmd_loadpc (pc : Z) : M unit :=
  icsp_send_command ICSP_COMMAND_LOAD_PC pc.

Definition icsp_cmd_erase (regions : Z) : M unit :=
  (if negb (Z.land regions ICSP_ERASE_REGION_CONFIG =? 0) then
     icsp_cmd_loadpc 0x300000 ;;
     icsp_send_command ICSP_COMMAND_BULK_ERASE (-1) ;;
     sleep_ms 26
   else ret tt) ;;
  (if negb (Z.land regions ICSP_ERASE_REGION_FLASH =? 0) then
     icsp_cmd_loadpc 0x000000 ;;
     icsp_send_command ICSP_COMMAND_BULK_ERASE (-1) ;;
     sleep_ms 26
   else ret tt) ;;
  (if negb (Z.land regions ICSP_ERASE_REGION_EEPROM =? 0) then
     icsp_cmd_loadpc 0x310000 ;;
     icsp_send_command ICSP_COMMAND_BULK_ERASE (-1) ;;
     sleep_ms 26
   else ret tt) ;;
  (if negb (Z.land regions ICSP_ERASE_REGION_USER_ID =? 0) then
     icsp_cmd_loadpc 0x200000 ;;
     icsp_send_command ICSP_COMMAND_BULK_ERASE (-1) ;;
     sleep_ms 26
   else ret tt).

Definition icsp_cmd_erase_page : M unit :=
  icsp_send_command ICSP_COMMAND_PAGE_ERASE (-1) ;;
  sleep_ms 11.

(** The value [icsp_cmd_read_data] returns for the bytes [data] it
    clocked in; the [int] expression is converted to [uint16_t]. *)
Definition data_word (data : list Z) : Z :=
  to_u16 (Z.lor (Z.lor (Z.shiftl (data !!! 0%nat) 15)
                       (Z.shiftl (data !!! 1%nat) 7))
                (Z.shiftr (data !!! 2%nat) 1)).

Definition icsp_cmd_read_data (increment_pc : bool) : M Z :=
  din <- read dataInPin ;;
  if din =? -1 then ret 0xFFFF
  else
    let cmd := if increment_pc then ICSP_COMMAND_READ_DATA_INCPC
               else ICSP_COMMAND_READ_DATA in
    dout <- read dataOutPin ;;
    spi_write_blocking [cmd] ;;
    gpio_set_function dout GPIO_FUNC_NULL ;;
    gpio_set_function din GPIO_FUNC_SPI ;;
    data <- spi_read_blocking 0 3 ;;
    gpio_set_function din GPIO_FUNC_NULL ;;
    gpio_set_function dout GPIO_FUNC_SPI ;;
    ret (data_word data).

Definition icsp_cmd_increment_pc : M unit :=
  icsp_send_command ICSP_COMMAND_INCREMENT_ADDRESS (-1).

(** [value] is a [uint16_t]. *)
Definition icsp_cmd_write_data (value : Z) (increment_pc : bool) : M unit :=
  icsp_send_command (if increment_pc then ICSP_COMMAND_LOAD_DATA_INCPC
                     else ICSP_COMMAND_LOAD_DATA) (to_u16 value) ;;
  icsp_send_command ICSP_COMMAND_BEGIN_PROG_INT (-1) ;;
  sleep_us 75.

Definition icsp_get_device_id : M Z :=
  icsp_cmd_loadpc 0x3FFFFE ;;
  sleep_us 1 ;;
  icsp_cmd_read_data false.

Definition icsp_get_revision_id : M Z :=
  icsp_cmd_loadpc 0x3FFFFC ;;
  sleep_us 1 ;;
  icsp_cmd_read_data false.

(** [data] is the caller's array; the function returns it filled in. *)
Definition icsp_read_data_8bit (addr : Z) (data : list Z) (size : Z)
    : M (list Z) :=
  icsp_cmd_loadpc addr ;;
  for_fold (Z.to_nat size) 0
    (fun i data =>
       w <- icsp_cmd_read_data true ;;
       ret (<[Z.to_nat i := to_u8 (Z.land w 0xFF)]> data))
    data.

(** [data] holds [uint16_t] words; [size - 1] is computed in [size_t]. *)
Definition icsp_program_page (addr : Z) (data : list Z) (size : Z)
    (erase : bool) : M Z :=
  icsp_cmd_loadpc addr ;;
  (if erase then icsp_cmd_erase_page else ret tt) ;;
  for_loop (Z.to_nat (to_size_t (size - 1))) 0
    (fun i => icsp_send_command ICSP_COMMAND_LOAD_DATA_INCPC
                (data !!! Z.to_nat i)) ;;
  icsp_send_command ICSP_COMMAND_LOAD_DATA
    (data !!! Z.to_nat (to_size_t (size - 1))) ;;
  icsp_send_command ICSP_COMMAND_BEGIN_PROG_INT (-1) ;;
  sleep_ms 3 ;;
  ret size.

Definition icsp_program_page_8bit (addr : Z) (data : list Z) (size : Z)
    (erase : bool) : M Z :=
  icsp_cmd_loadpc addr ;;
  (if erase then icsp_cmd_erase_page else ret tt) ;;
  for_loop (Z.to_nat size) 0
    (fun i => icsp_cmd_write_data (data !!! Z.to_nat i) true ;;
              sleep_ms 11) ;;
  ret size.

(** The first loop of [icsp_program_config]:
    [for (size_t i = 0; i + 1 < byte_count; i += 2)]. *)
Equations? program_config_loop (addr : Z) (data : list Z) (byte_count : Z)
    (i : Z) : M unit by wf (Z.to_nat (byte_count - i)) lt :=
program_config_loop addr data byte_count i with Z_lt_dec (i + 1) byte_count := {
  | left _ =>
      let word := to_u16 (Z.lor (data !!! Z.to_nat i)
                                (Z.shiftl (data !!! Z.to_nat (i + 1)) 8)) in
      icsp_cmd_loadpc (to_int (addr + to_int i)) ;;
      icsp_send_command ICSP_COMMAND_LOAD_DATA word ;;
      icsp_send_command ICSP_COMMAND_BEGIN_PROG_INT (-1) ;;
      sleep_ms 11 ;;
      program_config_loop addr data byte_count (i + 2)
  | right _ => ret tt }.
Proof. lia. Qed.

Definition icsp_program_config (addr : Z) (data : list Z) (byte_count : Z)
    : M unit :=
  program_config_loop addr data byte_count 0 ;;
  if negb (Z.land byte_count 1 =? 0) then
    let word := to_u16 (Z.lor (data !!! Z.to_nat (byte_count - 1)) 0xFF00) in
    icsp_cmd_loadpc (to_int (addr + to_int (byte_count - 1))) ;;
    icsp_send_command ICSP_COMMAND_LOAD_DATA word ;;
    icsp_send_command ICSP_COMMAND_BEGIN_PROG_INT (-1) ;;
    sleep_ms 11
  else ret tt.

(** ** target.c *)

Record target_info_t := mk_target {
  id : Z;
  mask : Z;
  name : string;
  flash_size : Z
}.

Definition targets : list target_info_t :=
  [ mk_target 0x6C20 0xFF00 "PIC18F27K42" 131072;
    mk_target 0x6C40 0xFF00 "PIC18F27K42" 131072;
    mk_target 0x6C00 0xFF00 "PIC18F26K42" 65536;
    mk_target 0x6CE0 0xFF00 "PIC18F25K42" 32768;
    mk_target 0x6CC0 0xFF00 "PIC18F24K42" 16384;
    mk_target 0x6CA0 0xFF00 "PIC18F47K42" 131072;
    mk_target 0x6C80 0xFF00 "PIC18F46K42" 65536;
    mk_target 0x6C60 0xFF00 "PIC18F45K42" 32768;
    mk_target 0x74E0 0xFFE0 "PIC18F15Q41" 32768;
    mk_target 0x7500 0xFFE0 "PIC18F05Q41" 16384;
    mk_target 0x7520 0xFFE0 "PIC18F14Q41" 16384;
    mk_target 0x7540 0xFFE0 "PIC18F04Q41" 8192;
    mk_target 0x7560 0xFFE0 "PIC18F16Q41" 65536;
    mk_target 0x7580 0xFFE0 "PIC18F06Q41" 32768;
    mk_target 0x75A0 0xFFE0 "PIC16F16Q40" 16384;
    mk_target 0x75C0 0xFFE0 "PIC18F06Q40" 32768;
    mk_target 0x75E0 0xFFE0 "PIC18F15Q40" 32768;
    mk_target 0x7600 0xFFE0 "PIC18F05Q40" 16384;
    mk_target 0x7620 0xFFE0 "PIC18F14Q40" 16384;
    mk_target 0x7640 0xFFE0 "PIC18F04Q40" 8192 ].

Fixpoint target_lookup (device_id : Z) (table : list target_info_t)
    : option target_info_t :=
  match table with
  | [] => None
  | t :: rest =>
      if Z.land device_id (mask t) =? Z.land (id t) (mask t) then Some t
      else target_lookup device_id rest
  end.

Definition target_identify (device_id : Z) : string :=
  match target_lookup device_id targets with
  | Some t => name t
  | None => "Unknown"
  end.

Definition target_flash_size (device_id : Z) : Z :=
  match target_lookup device_id targets with
  | Some t => flash_size t
  | None => 0
  end.

(** The bytes of a C string, without the terminating zero. *)
Definition string_bytes (s : string) : list Z :=
  (fun a => Z.of_N (N_of_ascii a)) <$> list_ascii_of_string s.

(** ** protocol.c and main.c *)

Section Firmware.

(** Constants of the Pico SDK and of the board: the error code of a
    timed out read, which the SDK defines as a negative number, and the
    pin of the on-board LED. *)
Variable PICO_ERROR_TIMEOUT : Z.
Hypothesis PICO_ERROR_TIMEOUT_negative : PICO_ERROR_TIMEOUT < 0.
Variable PICO_DEFAULT_LED_PIN : Z.

(** What an automatic array holds before the program writes to it. *)
Variable indeterminate : nat -> Z.

Definition uninitialized (n : nat) : list Z :=
  (fun k => to_u8 (indeterminate k)) <$> seq 0 n.

Definition crc8_shift (crc : Z) : Z :=
  if negb (Z.land crc 0x80 =? 0) then to_u8 (Z.lxor (Z.shiftl crc 1) 0x07)
  else to_u8 (Z.shiftl crc 1).

Fixpoint crc8_loop (n : nat) (i : nat) (data : list Z) (crc : Z) : Z :=
  match n with
  | O => crc
  | S k =>
      let crc := to_u8 (Z.lxor crc (data !!! i)) in
      crc8_loop k (S i) data (Nat.iter 8 crc8_shift crc)
  end.

Definition proto_crc8 (data : list Z) (len : Z) : Z :=
  crc8_loop (Z.to_nat len) 0 data 0x00.

(** [payload] is [None] for a null pointer; [len] is a [uint16_t].  The
    frame has room for [PROTO_MAX_PAYLOAD] payload bytes; the C code
    writes past its end for a longer [len], which this definition does
    not describe. *)
Definition proto_send_response (status : Z) (payload : option (list Z))
    (len : Z) : M unit :=
  let frame := uninitialized (Z.to_nat (4 + PROTO_MAX_PAYLOAD)) in
  let frame := <[0%nat := to_u8 status]> frame in
  let frame := <[1%nat := to_u8 (Z.land len 0xFF)]> frame in
  let frame := <[2%nat := to_u8 (Z.shiftr len 8)]> frame in
  let frame :=
    match payload with
    | Some p =>
        if 0 <? len then list_inserts 3 (take (Z.to_nat len) p) frame
        else frame
    | None => frame
    end in
  let frame := <[Z.to_nat (3 + len) := proto_crc8 frame (3 + len)]> frame in
  let total := to_u16 (4 + len) in
  for_loop (Z.to_nat total) 0 (fun i => putchar (frame !!! Z.to_nat i)) ;;
  stdio_flush.

Definition proto_send_ok : M unit := proto_send_response STATUS_OK None 0.

Definition proto_send_error (status : Z) : M unit :=
  proto_send_response status None 0.

Definition set_cmd (c : Z) (req : proto_request_t) : proto_request_t :=
  mk_request c (len req) (payload req).
Definition set_len (n : Z) (req : proto_request_t) : proto_request_t :=
  mk_request (cmd req) n (payload req).
Definition set_payload (p : list Z) (req : proto_request_t)
    : proto_request_t :=
  mk_request (cmd req) (len req) p.

(** [for (uint16_t i = 0; i < req->len + 1; i++) getchar();] on the
    input that is left: [bound] is the [int] [req->len + 1], the counter
    is a [uint16_t] and wraps, and every turn takes one result of
    [getchar] and drops it.  [None]: the loop is still waiting for input
    when the input ends. *)
Fixpoint drain_loop (input : list Z) (i bound : Z) : option (list Z) :=
  if i <? bound then
    match input with
    | [] => None
    | _ :: rest => drain_loop rest (to_u16 (i + 1)) bound
    end
  else Some input.

(** The loop from the counter value [i] on, as a computation. *)
Definition drain (i bound : Z) : M unit := fun w =>
  match drain_loop (stdin w) i bound with
  | None => None
  | Some rest => Some (tt, set_stdin rest w, [])
  end.

(** The payload loop of [proto_read_request], [n] turns from index [i];
    the boolean is [false] when the loop left the function with
    [return false]. *)
Fixpoint read_payload_loop (n : nat) (i : Z) (req : proto_request_t)
    : M (bool * proto_request_t) :=
  match n with
  | O => ret (true, req)
  | S k =>
      c <- getchar ;;
      if c <? 0 then ret (false, req)
      else read_payload_loop k (i + 1)
             (set_payload (<[Z.to_nat i := to_u8 c]> (payload req)) req)
  end.

(** [req] is the struct the caller passes by pointer; the function
    returns it as it leaves it, with the result of the call. *)
Definition proto_read_request (req : proto_request_t)
    : M (bool * proto_request_t) :=
  c <- getchar ;;
  if (c =? PICO_ERROR_TIMEOUT) || (c <? 0) then ret (false, req)
  else
    let req := set_cmd (to_u8 c) req in
    lo <- getchar ;;
    hi <- getchar ;;
    if (lo <? 0) || (hi <? 0) then ret (false, req)
    else
      let req :=
        set_len (to_u16 (Z.lor (to_u16 lo) (Z.shiftl (to_u16 hi) 8))) req in
      if PROTO_MAX_PAYLOAD <? len req then
        drain 0 (len req + 1) ;;
        ret (false, set_len 0 req)
      else
        r <- read_payload_loop (Z.to_nat (len req)) 0 req ;;
        let req := snd r in
        if negb (fst r) then ret (false, req)
        else
          c <- getchar ;;
          if c <? 0 then ret (false, req)
          else
            let received_crc := to_u8 c in
            let frame := uninitialized (Z.to_nat (3 + PROTO_MAX_PAYLOAD)) in
            let frame := <[0%nat := cmd req]> frame in
            let frame := <[1%nat := to_u8 (Z.land (len req) 0xFF)]> frame in
            let frame := <[2%nat := to_u8 (Z.shiftr (len req) 8)]> frame in
            let frame :=
              list_inserts 3 (take (Z.to_nat (len req)) (payload req)) frame in
            let expected_crc := proto_crc8 frame (3 + len req) in
            if negb (received_crc =? expected_crc) then
              proto_send_error STATUS_ERR_CRC ;;
              ret (false, req)
            else ret (true, req).

Definition proto_get_u32 (p : list Z) : Z :=
  to_u32 (Z.lor (Z.lor (Z.lor (p !!! 0%nat) (Z.shiftl (p !!! 1%nat) 8))
                       (Z.shiftl (p !!! 2%nat) 16))
                (to_u32 (Z.shiftl (p !!! 3%nat) 24))).

Definition proto_get_u16 (p : list Z) : Z :=
  to_u16 (Z.lor (p !!! 0%nat) (Z.shiftl (p !!! 1%nat) 8)).

Definition VERSION_STRING : string := "picokit 1.0".
Definition FLASH_ROW_WORDS : Z := 64.
Definition FLASH_ROW_BYTES : Z := 128.

Definition target_check : M bool :=
  icsp_enter_lvp ;;
  id <- icsp_get_device_id ;;
  if (id =? 0xFFFF) || (id =? 0) then
    icsp_exit_lvp ;;
    ret false
  else ret true.

Definition handle_diag (req : proto_request_t) : M unit :=
  icsp_enter_lvp ;;
  dev_id <- icsp_get_device_id ;;
  rev_id <- icsp_get_revision_id ;;
  icsp_exit_lvp ;;
  if (dev_id =? 0xFFFF) || (dev_id =? 0) then
    proto_send_error STATUS_ERR_TARGET
  else
    let name := string_bytes (target_identify dev_id) in
    let name_len := Z.of_nat (length name) in
    let resp := uninitialized (4 + 64) in
    let resp := <[0%nat := to_u8 (Z.land dev_id 0xFF)]> resp in
    let resp := <[1%nat := to_u8 (Z.land (Z.shiftr dev_id 8) 0xFF)]> resp in
    let resp := <[2%nat := to_u8 (Z.land rev_id 0xFF)]> resp in
    let resp := <[3%nat := to_u8 (Z.land (Z.shiftr rev_id 8) 0xFF)]> resp in
    let resp := list_inserts 4 name resp in
    proto_send_response STATUS_OK (Some resp) (to_u16 (4 + name_len)).

Definition handle_erase (req : proto_request_t) : M unit :=
  ok <- target_check ;;
  if negb ok then proto_send_error STATUS_ERR_TARGET
  else
    icsp_cmd_erase
      (Z.lor (Z.lor (Z.lor ICSP_ERASE_REGION_FLASH ICSP_ERASE_REGION_EEPROM)
                    ICSP_ERASE_REGION_CONFIG)
             ICSP_ERASE_REGION_USER_ID) ;;
    icsp_exit_lvp ;;
    proto_send_ok.

Definition handle_write_page (req : proto_request_t) : M unit :=
  if len req <? 4 + FLASH_ROW_BYTES then proto_send_error STATUS_ERR_PAYLOAD
  else
    let addr := proto_get_u32 (payload req) in
    let data := drop 4 (payload req) in
    let words :=
      (fun i => to_u16 (Z.lor (data !!! (i * 2)%nat)
                              (Z.shiftl (data !!! (i * 2 + 1)%nat) 8)))
        <$> seq 0 (Z.to_nat FLASH_ROW_WORDS) in
    icsp_enter_lvp ;;
    icsp_program_page (to_int addr) words FLASH_ROW_WORDS true ;;
    proto_send_ok.

Definition handle_write_config (req : proto_request_t) : M unit :=
  if len req <? 6 then proto_send_error STATUS_ERR_PAYLOAD
  else
    let addr := proto_get_u32 (payload req) in
    let data_len := proto_get_u16 (drop 4 (payload req)) in
    if len req <? 6 + data_len then proto_send_error STATUS_ERR_PAYLOAD
    else
      icsp_enter_lvp ;;
      icsp_program_config (to_int addr) (drop 6 (payload req)) data_len ;;
      proto_send_ok.

Definition handle_write_eeprom (req : proto_request_t) : M unit :=
  if len req <? 6 then proto_send_error STATUS_ERR_PAYLOAD
  else
    let addr := proto_get_u32 (payload req) in
    let data_len := proto_get_u16 (drop 4 (payload req)) in
    if len req <? 6 + data_len then proto_send_error STATUS_ERR_PAYLOAD
    else
      icsp_enter_lvp ;;
      icsp_program_page_8bit (to_int addr) (drop 6 (payload req)) data_len
        false ;;
      proto_send_ok.

(** One turn of the word loop of [handle_read]. *)
Definition read_word_into (read_len : Z) (i : Z) (buf : list Z)
    : M (list Z) :=
  w <- icsp_cmd_read_data true ;;
  let buf := <[Z.to_nat (i * 2) := to_u8 (Z.land w 0xFF)]> buf in
  if i * 2 + 1 <? read_len then
    ret (<[Z.to_nat (i * 2 + 1) := to_u8 (Z.land (Z.shiftr w 8) 0xFF)]> buf)
  else ret buf.

Definition handle_read (req : proto_request_t) : M unit :=
  if len req <? 6 then proto_send_error STATUS_ERR_PAYLOAD
  else
    let addr := proto_get_u32 (payload req) in
    let read_len := proto_get_u16 (drop 4 (payload req)) in
    if PROTO_MAX_PAYLOAD <? read_len then proto_send_error STATUS_ERR_PAYLOAD
    else
      icsp_enter_lvp ;;
      let buf := uninitialized (Z.to_nat PROTO_MAX_PAYLOAD) in
      buf <-
        (if 0x310000 <=? addr then
           icsp_read_data_8bit (to_int addr) buf read_len
         else
           icsp_cmd_loadpc (to_int addr) ;;
           let num_words := to_u16 ((read_len + 1) / 2) in
           for_fold (Z.to_nat num_words) 0 (read_word_into read_len) buf) ;;
      proto_send_response STATUS_OK (Some buf) read_len.

Definition handle_reset_target (req : proto_request_t) : M unit :=
  icsp_exit_lvp ;;
  sleep_ms 10 ;;
  proto_send_ok.

Definition handle_test_eeprom (req : proto_request_t) : M unit :=
  icsp_enter_lvp ;;
  id <- icsp_get_device_id ;;
  if (id =? 0xFFFF) || (id =? 0) then
    icsp_exit_lvp ;;
    proto_send_error STATUS_ERR_TARGET
  else
    let test_addr := 0x310000 in
    let test_data := [0xBB; 0xCC; 0xDD; 0xEE] in
    let read_data := [0; 0; 0; 0] in
    icsp_cmd_erase ICSP_ERASE_REGION_EEPROM ;;
    icsp_exit_lvp ;;
    sleep_ms 10 ;;
    icsp_enter_lvp ;;
    icsp_cmd_loadpc test_addr ;;
    for_loop 4 0
      (fun i => icsp_cmd_write_data (test_data !!! Z.to_nat i) false ;;
                sleep_ms 11 ;;
                icsp_cmd_increment_pc) ;;
    icsp_exit_lvp ;;
    sleep_ms 10 ;;
    icsp_enter_lvp ;;
    icsp_cmd_loadpc test_addr ;;
    read_data <-
      for_fold 4 0
        (fun i read_data =>
           w <- icsp_cmd_read_data true ;;
           ret (<[Z.to_nat i := to_u8 (Z.land w 0xFF)]> read_data))
        read_data ;;
    icsp_exit_lvp ;;
    let result :=
      if forallb (fun i => (test_data !!! i) =? (read_data !!! i)) (seq 0 4)
      then 1 else 0 in
    proto_send_response STATUS_OK (Some [result]) 1.

Definition handle_version (req : proto_request_t) : M unit :=
  let ver := string_bytes VERSION_STRING in
  proto_send_response STATUS_OK (Some ver) (to_u16 (Z.of_nat (length ver))).

(** The [switch] of [main]. *)
Definition dispatch (req : proto_request_t) : M unit :=
  if cmd req =? CMD_DIAG then handle_diag req
  else if cmd req =? CMD_ERASE then handle_erase req
  else if cmd req =? CMD_WRITE_PAGE then handle_write_page req
  else if cmd req =? CMD_WRITE_CONFIG then handle_write_config req
  else if cmd req =? CMD_WRITE_EEPROM then handle_write_eeprom req
  else if cmd req =? CMD_READ then handle_read req
  else if cmd req =? CMD_RESET_TARGET then handle_reset_target req
  else if cmd req =? CMD_TEST_EEPROM then handle_test_eeprom req
  else if cmd req =? CMD_VERSION then handle_version req
  else proto_send_error STATUS_ERR_CMD.

(** [main] before its loop. *)
Definition main_setup : M unit :=
  gpio_init PICO_DEFAULT_LED_PIN ;;
  gpio_set_dir PICO_DEFAULT_LED_PIN true ;;
  stdio_init_all ;;
  stdio_set_translate_crlf false ;;
  icsp_init 29 7 6 4.

(** One turn of the [while (true)] of [main]; [req] lives outside the
    loop and keeps its contents from one turn to the next. *)
Definition main_iteration (req : proto_request_t) : M proto_request_t :=
  r <- proto_read_request req ;;
  let req := snd r in
  if negb (fst r) then ret req
  else
    gpio_put PICO_DEFAULT_LED_PIN true ;;
    dispatch req ;;
    gpio_put PICO_DEFAULT_LED_PIN false ;;
    ret req.

(** The first [n] turns of the loop. *)
Fixpoint main_loop (n : nat) (req : proto_request_t) : M proto_request_t :=
  match n with
  | O => ret req
  | S k => req <- main_iteration req ;; main_loop k req
  end.

(** ** Vocabulary of the specification *)

(** *** Computations and events *)

(** [m] returns [a] and causes the events [t] in every world, and
    leaves the world as it is. *)
Definition emits {A} (m : M A) (a : A) (t : list event) : Prop :=
  forall w, m w = Some (a, w, t).

(** The result of a computation that runs after the events [t]. *)
Definition prepend {B} (t : list event)
    (r : option (B * World * list event)) : option (B * World * list event) :=
  match r with
  | Some (b, w2, t2) => Some (b, w2, t ++ t2)
  | None => None
  end.

(** The [n] integers from [i] on: the values a loop counter takes. *)
Fixpoint zseq (i : Z) (n : nat) : list Z :=
  match n with
  | O => []
  | S k => i :: zseq (i + 1) k
  end.

(** What [icsp_send_command] puts on the bus. *)
Definition sent (opcode payload : Z) : event :=
  if 0 <=? payload then Ev_spi_write (opcode :: payload_bytes payload)
  else Ev_spi_write [opcode].

(** A load-PC of an address, a load-data of a word, a bare opcode. *)
Definition load_pc (addr : Z) : event :=
  Ev_spi_write (ICSP_COMMAND_LOAD_PC :: payload_bytes addr).
Definition load_data (opcode word : Z) : event :=
  Ev_spi_write (opcode :: payload_bytes word).
Definition opcode_only (opcode : Z) : event := Ev_spi_write [opcode].

(** *** The LVP session and word reads *)

(** The events of entering and leaving LVP from a given state. *)
Definition enter_lvp_events (w : World) : list event :=
  if lvp_active w then []
  else [Ev_gpio_put (mclrPin w) false; Ev_sleep_ms 50;
        Ev_spi_write [0x4D; 0x43; 0x48; 0x50]; Ev_sleep_ms 5].

Definition exit_lvp_events (w : World) : list event :=
  if lvp_active w then [Ev_gpio_put (mclrPin w) true; Ev_sleep_ms 5]
  else [].

(** What [icsp_cmd_read_data] does in a world. *)
Definition read_data_events (increment_pc : bool) (w : World) : list event :=
  if dataInPin w =? -1 then []
  else [opcode_only (if increment_pc then ICSP_COMMAND_READ_DATA_INCPC
                     else ICSP_COMMAND_READ_DATA);
        Ev_gpio_set_function (dataOutPin w) GPIO_FUNC_NULL;
        Ev_gpio_set_function (dataInPin w) GPIO_FUNC_SPI;
        Ev_spi_read 0 (spi_next w 3);
        Ev_gpio_set_function (dataInPin w) GPIO_FUNC_NULL;
        Ev_gpio_set_function (dataOutPin w) GPIO_FUNC_SPI].

Definition read_data_value (w : World) : Z :=
  if dataInPin w =? -1 then 0xFFFF else data_word (spi_next w 3).

Definition read_data_world (w : World) : World :=
  if dataInPin w =? -1 then w else set_spi_rx_pos (spi_rx_pos w + 3)%nat w.

(** [n] word reads with PC increment, one after the other, and the
    words they return. *)
Fixpoint read_words (n : nat) : M (list Z) :=
  match n with
  | O => ret []
  | S k =>
      x <- icsp_cmd_read_data true ;;
      xs <- read_words k ;;
      ret (x :: xs)
  end.

(** What a loop makes of a local [s] when turn [i], [i + 1], ... gets the
    words [ws] one by one. *)
Fixpoint fold_words {S : Type} (f : Z -> Z -> S -> S) (i : Z) (ws : list Z)
    (s : S) : S :=
  match ws with
  | [] => s
  | x :: ws => fold_words f (i + 1) ws (f i x s)
  end.

(** *** Bulk erase *)

(** The regions of the erase bitmask, their bit and their base address. *)
Inductive region := CONFIG | FLASH | EEPROM | USER_ID.

Definition region_bit (r : region) : Z :=
  match r with EEPROM => 0 | FLASH => 1 | USER_ID => 2 | CONFIG => 3 end.

Definition region_base (r : region) : Z :=
  match r with
  | CONFIG => 0x300000
  | FLASH => 0x000000
  | EEPROM => 0x310000
  | USER_ID => 0x200000
  end.

Definition erase_order : list region := [CONFIG; FLASH; EEPROM; USER_ID].

Definition selected (regions : Z) (r : region) : bool :=
  Z.testbit regions (region_bit r).

Definition erase_region (r : region) : list event :=
  [load_pc (region_base r); opcode_only ICSP_COMMAND_BULK_ERASE;
   Ev_sleep_ms 26].

(** *** Configuration words *)

(** The word writes of [icsp_program_config]: a load-PC, a load-data, the
    begin-programming opcode and the wait, for each 16 bit word; the
    words pair the bytes little-endian and an odd last byte gets [0xFF]
    as its high byte. *)
Definition word_write (pc word : Z) : list event :=
  [sent ICSP_COMMAND_LOAD_PC pc; load_data ICSP_COMMAND_LOAD_DATA word;
   opcode_only ICSP_COMMAND_BEGIN_PROG_INT; Ev_sleep_ms 11].

Fixpoint config_words (bytes : list Z) : list Z :=
  match bytes with
  | lo :: hi :: rest => (lo + 256 * hi) :: config_words rest
  | [lo] => [lo + 256 * 0xFF]
  | [] => []
  end.

Fixpoint config_writes (pc : Z) (words : list Z) : list event :=
  match words with
  | [] => []
  | word :: rest => word_write pc word ++ config_writes (pc + 2) rest
  end.

(** The events of the turn of the loop at index [j]. *)
Definition config_turn (addr : Z) (data : list Z) (j : Z) : list event :=
  word_write (to_int (addr + to_int j))
    (to_u16 (Z.lor (data !!! Z.to_nat j)
                   (Z.shiftl (data !!! Z.to_nat (j + 1)) 8))).

(** The [k] even indices from [i] on. *)
Fixpoint evens (i : Z) (k : nat) : list Z :=
  match k with O => [] | S k => i :: evens (i + 2) k end.

(** All the events of [icsp_program_config], by index. *)
Definition program_config_events (addr : Z) (data : list Z)
    (byte_count : Z) : list event :=
  flat_map (config_turn addr data) (evens 0 (Z.to_nat (byte_count / 2)))
    ++ (if Z.odd byte_count then
          word_write (to_int (addr + to_int (byte_count - 1)))
            (to_u16 (Z.lor (data !!! Z.to_nat (byte_count - 1)) 0xFF00))
        else []).

(** *** EEPROM bytes *)

(** Writing one byte to the EEPROM: [icsp_cmd_write_data] and the wait. *)
Definition byte_write (b : Z) : list event :=
  [load_data ICSP_COMMAND_LOAD_DATA_INCPC b;
   opcode_only ICSP_COMMAND_BEGIN_PROG_INT; Ev_sleep_us 75; Ev_sleep_ms 11].

(** *** The checksum *)

(** One byte of [proto_crc8], and the checksum of a list of bytes. *)
Definition crc8_update (crc byte : Z) : Z :=
  Nat.iter 8 crc8_shift (to_u8 (Z.lxor crc byte)).

Definition crc8_bytes (bytes : list Z) : Z := fold_left crc8_update bytes 0.

(** CRC-8 as the specification words it: polynomial [0x07], initial
    value [0x00], the bits of each byte taken most significant first, no
    reflection.  The register is shifted left by one for every message
    bit, and the polynomial is added when the bit shifted out differs
    from the message bit. *)
Definition byte_bits_msb_first (b : Z) : list bool :=
  (fun k => Z.testbit b (7 - Z.of_nat k)) <$> seq 0 8.

Definition crc8_feed (reg : Z) (bit : bool) : Z :=
  let shifted := (2 * reg) mod 256 in
  if xorb (Z.testbit reg 7) bit then Z.lxor shifted 0x07 else shifted.

Definition crc8_reference (bytes : list Z) : Z :=
  fold_left crc8_feed (flat_map byte_bits_msb_first bytes) 0x00.

(** Polynomials over GF(2) as integers: bit [k] is the coefficient of
    [x^k], the sum is [Z.lxor] and the product with [x] is a shift by
    one.  [clmul q g] is the product of [g] with the polynomial whose
    coefficients are [q], lowest first. *)
Fixpoint clmul (q : list bool) (g : Z) : Z :=
  match q with
  | [] => 0
  | b :: q' => Z.lxor (if b then g else 0) (Z.shiftl (clmul q' g) 1)
  end.

Definition gf2_multiple (g z : Z) : Prop := exists q, z = clmul q g.

Fixpoint xor_bits (q1 q2 : list bool) : list bool :=
  match q1, q2 with
  | [], _ => q2
  | _, [] => q1
  | a :: q1', b :: q2' => xorb a b :: xor_bits q1' q2'
  end.

(** The polynomial [0x07] of CRC-8 with its leading term:
    [x^8 + x^2 + x + 1]. *)
Definition CRC8_POLY : Z := 0x107.

(** A message as a polynomial: the first byte holds the highest
    coefficients, and in each byte the most significant bit comes
    first. *)
Definition message_value (bytes : list Z) : Z :=
  fold_left (fun acc b => acc * 256 + b) bytes 0.

(** The bytes 0 to 255, to check a fact about one byte on all of them. *)
Definition all_bytes : list Z := Z.of_nat <$> seq 0 256.

(** Doubling a byte modulo 256 is a shift that drops bit 7. *)
Definition double_agrees (c : Z) : bool :=
  (2 * c) mod 256
    =? Z.lxor (Z.shiftl c 1) (if Z.testbit c 7 then 0x100 else 0).

Definition crc8_shift_agrees (c : Z) : bool :=
  Z.lxor (Z.shiftl c 1) (crc8_shift c)
    =? (if Z.testbit c 7 then CRC8_POLY else 0).

(** *** Frames *)

(** A frame on the wire: the tag (a command or a status), the length of
    the payload in two bytes, low byte first, the payload, and the
    checksum of all the bytes before it. *)
Definition frame_body (tag : Z) (payload : list Z) : list Z :=
  [tag; Z.of_nat (length payload) mod 256; Z.of_nat (length payload) / 256]
    ++ payload.

Definition frame (tag : Z) (payload : list Z) : list Z :=
  frame_body tag payload
    ++ [proto_crc8 (frame_body tag payload)
          (Z.of_nat (length (frame_body tag payload)))].

(** Writing a frame to the host. *)
Definition response_events (status : Z) (payload : list Z) : list event :=
  (Ev_putchar <$> frame status payload) ++ [Ev_stdio_flush].

(** *** Answers to READ *)

(** The low and the high byte of a 16 bit word. *)
Definition low_byte (x : Z) : Z := x mod 256.
Definition high_byte (x : Z) : Z := (x / 256) mod 256.
Definition unpack_word (x : Z) : list Z := [low_byte x; high_byte x].

(** The number of word reads of a READ request and the payload of its
    answer, from the words read. *)
Definition read_count (addr read_len : Z) : Z :=
  if 0x310000 <=? addr then read_len else (read_len + 1) / 2.

Definition read_response (addr read_len : Z) (ws : list Z) : list Z :=
  if 0x310000 <=? addr then low_byte <$> ws
  else take (Z.to_nat read_len) (flat_map unpack_word ws).

(** What the loops of [icsp_read_data_8bit] and [handle_read] do to the
    buffer with one word. *)
Definition store_low (i x : Z) (buf : list Z) : list Z :=
  <[Z.to_nat i := to_u8 (Z.land x 0xFF)]> buf.

Definition store_word (read_len : Z) (i x : Z) (buf : list Z) : list Z :=
  if i * 2 + 1 <? read_len then
    <[Z.to_nat (i * 2 + 1) := to_u8 (Z.land (Z.shiftr x 8) 0xFF)]>
      (<[Z.to_nat (i * 2) := to_u8 (Z.land x 0xFF)]> buf)
  else <[Z.to_nat (i * 2) := to_u8 (Z.land x 0xFF)]> buf.

(** *** Concrete machines *)

(** The programmer as [main] sets it up with [icsp_init(spi0, 29, 7, 6, 4)]:
    reset line on pin 29, data out on 7, clock on 6, data in on 4, no
    session, no input from the host, and a target that answers with the
    bytes [answer] and then leaves the data line high. *)
Definition pico_world (answer : list Z) : World :=
  mk_world false 7 4 6 29 [] (fun k => nth k answer 0xFF) 0.

(** The request struct of [main] before the first request. *)
Definition idle_request : proto_request_t := mk_request 0 0 (repeat 0 256).

(** *** Requests as the parser leaves them *)

(** The request struct after a frame with tag [tag] and payload [pl] has
    been read into it: the bytes of the buffer behind the payload keep
    what they held. *)
Definition request_of (tag : Z) (pl : list Z) (req : proto_request_t)
    : proto_request_t :=
  mk_request tag (Z.of_nat (length pl)) (pl ++ drop (length pl) (payload req)).

(** What [getchar] can return: a byte or a negative error code. *)
Definition getchar_result (c : Z) : Prop := c < 256.

(** *** Probing the target *)

(** The test of [target_check], [handle_diag] and [handle_test_eeprom]
    on the device ID. *)
Definition target_absent (id : Z) : bool := (id =? 0xFFFF) || (id =? 0).

(** Reading the word at [pc]: [icsp_get_device_id] and
    [icsp_get_revision_id]. *)
Definition id_read_events (pc : Z) (w : World) : list event :=
  load_pc pc :: Ev_sleep_us 1 :: read_data_events false w.

(** Leaving a session that is active. *)
Definition leave_events (w : World) : list event :=
  [Ev_gpio_put (mclrPin w) true; Ev_sleep_ms 5].

(** Entering a session from the inactive state. *)
Definition key_events (w : World) : list event :=
  [Ev_gpio_put (mclrPin w) false; Ev_sleep_ms 50;
   Ev_spi_write [0x4D; 0x43; 0x48; 0x50]; Ev_sleep_ms 5].

(** *** The two sides of a trace *)

(** Events that write to the host; all the others act on the board and
    the target. *)
Definition is_host_output (e : event) : bool :=
  match e with
  | Ev_putchar _ | Ev_stdio_flush => true
  | _ => false
  end.

Definition target_only (t : list event) : Prop :=
  Forall (fun e => is_host_output e = false) t.

Definition host_output (t : list event) : list event :=
  List.filter is_host_output t.


(** The input that holds the frames of the requests [rs], one after the
    other, and the frames of the answers [answers]. *)
Definition request_frames (rs : list (Z * list Z)) : list Z :=
  flat_map (fun r => frame (fst r) (snd r)) rs.

Definition answer_events (answers : list (Z * list Z)) : list event :=
  flat_map (fun a => response_events (fst a) (snd a)) answers.

Definition well_formed (r : Z * list Z) : Prop :=
  is_u8 (fst r) /\ Forall is_u8 (snd r)
  /\ Z.of_nat (length (snd r)) <= PROTO_MAX_PAYLOAD.

(** *** The EEPROM self test *)

Definition test_pattern : list Z := [0xBB; 0xCC; 0xDD; 0xEE].

(** Writing one byte of the pattern: [icsp_cmd_write_data] without
    increment, the wait, and the increment of the PC. *)
Definition pattern_write (b : Z) : list event :=
  [load_data ICSP_COMMAND_LOAD_DATA b;
   opcode_only ICSP_COMMAND_BEGIN_PROG_INT; Ev_sleep_us 75; Ev_sleep_ms 11;
   opcode_only ICSP_COMMAND_INCREMENT_ADDRESS].

(** *** Commands and their answer *)

(** [m] returns in the world [w] after it has acted on the target and
    then written one response frame, and leaves the input alone. *)
Definition answers_once (m : M unit) (w : World) : Prop :=
  exists w' t status answer,
    m w = Some (tt, w', t ++ response_events status answer)
    /\ target_only t
    /\ stdin w' = stdin w
    /\ is_u8 status
    /\ Forall is_u8 answer
    /\ Z.of_nat (length answer) <= PROTO_MAX_PAYLOAD.

(** *** What the commands answer *)

(** The payload of the answer to DIAG. *)
Definition diag_answer (dev_id rev_id : Z) : list Z :=
  [low_byte dev_id; high_byte dev_id; low_byte rev_id; high_byte rev_id]
    ++ string_bytes (target_identify dev_id).

(** The events of [icsp_program_page] for the words [ws] of a row: all
    but the last word go out with the increment of the PC. *)
Definition row_write_events (addr : Z) (ws : list Z) (erase : bool)
    : list event :=
  sent ICSP_COMMAND_LOAD_PC addr
    :: (if erase then [opcode_only ICSP_COMMAND_PAGE_ERASE; Ev_sleep_ms 11]
        else [])
    ++ (load_data ICSP_COMMAND_LOAD_DATA_INCPC <$> take (length ws - 1) ws)
    ++ (load_data ICSP_COMMAND_LOAD_DATA <$> drop (length ws - 1) ws)
    ++ [opcode_only ICSP_COMMAND_BEGIN_PROG_INT; Ev_sleep_ms 3].

(** The events of [icsp_init] for the pins of the reset, data and clock
    lines, when no pin is given for the input. *)
Definition init_events_no_input (pin_mclr pin_dat pin_clk : Z) : list event :=
  [Ev_gpio_init pin_mclr; Ev_gpio_init pin_dat; Ev_gpio_init pin_clk;
   Ev_gpio_set_function pin_mclr GPIO_FUNC_SIO;
   Ev_gpio_set_function pin_dat GPIO_FUNC_SPI;
   Ev_gpio_set_function pin_clk GPIO_FUNC_SPI;
   Ev_gpio_set_dir pin_mclr true; Ev_gpio_set_dir pin_dat true;
   Ev_gpio_set_dir pin_clk true;
   Ev_gpio_put pin_mclr true; Ev_spi_init 5000000; Ev_spi_set_slave false;
   Ev_spi_set_format 8 SPI_CPOL_0 SPI_CPHA_1 SPI_MSB_FIRST].

(** ** Running computations *)

Ltac xor_bits_solve :=
  apply Z.bits_inj'; intros ?k ?Hk; rewrite ?Z.lxor_spec, ?Z.bits_0;
  repeat match goal with
         | |- context [Z.testbit ?a ?k] => destruct (Z.testbit a k)
         end;
  reflexivity.

Ltac run_monad :=
  cbv beta iota zeta delta
    [bind ret read modify emit gpio_init gpio_set_dir gpio_put
     gpio_set_function sleep_ms sleep_us spi_init spi_set_slave
     spi_set_format spi_write_blocking spi_read_blocking putchar stdio_flush
     stdio_init_all stdio_set_translate_crlf];
  cbn [app].

Lemma bind_Some {A B} (m : M A) (f : A -> M B) w a w1 t1 b w2 t2 :
  m w = Some (a, w1, t1) ->
  f a w1 = Some (b, w2, t2) ->
  (x <- m ;; f x) w = Some (b, w2, t1 ++ t2).
Proof. intros Hm Hf. unfold bind. now rewrite Hm, Hf. Qed.

Lemma bind_None {A B} (m : M A) (f : A -> M B) w :
  m w = None -> (x <- m ;; f x) w = None.
Proof. intros Hm. unfold bind. now rewrite Hm. Qed.

Lemma emits_ret {A} (a : A) : emits (ret a) a [].
Proof. now intros w. Qed.

Lemma emits_emit e : emits (emit e) tt [e].
Proof. now intros w. Qed.

Lemma emits_bind {A B} (m : M A) (f : A -> M B) a t1 b t2 :
  emits m a t1 -> emits (f a) b t2 -> emits (x <- m ;; f x) b (t1 ++ t2).
Proof. intros Hm Hf w. now apply bind_Some with a w. Qed.

Lemma emits_send_command opcode payload :
  emits (icsp_send_command opcode payload) tt [sent (to_u8 opcode) payload].
Proof.
  intros w. unfold icsp_send_command, sent.
  now destruct (0 <=? payload).
Qed.

Lemma read_data_run increment_pc w :
  icsp_cmd_read_data increment_pc w
    = Some (read_data_value w, read_data_world w,
            read_data_events increment_pc w).
Proof.
  unfold icsp_cmd_read_data, read_data_value, read_data_world,
    read_data_events.
  run_monad. now destruct (dataInPin w =? -1).
Qed.

Lemma emits_for_loop (body : Z -> M unit) (tr : Z -> list event) n :
  (forall i, emits (body i) tt (tr i)) ->
  forall i, emits (for_loop n i body) tt (flat_map tr (zseq i n)).
Proof.
  intros Hbody. induction n as [|n IH]; intros i; [apply emits_ret|].
  cbn [for_loop zseq flat_map]. apply (emits_bind _ _ tt); auto.
Qed.

Lemma emits_step {A B} (m : M A) (f : A -> M B) a e b t :
  emits m a [e] -> emits (f a) b t -> emits (x <- m ;; f x) b (e :: t).
Proof. intros Hm Hf. apply (emits_bind m f a [e] b t Hm Hf). Qed.

Lemma emits_bind_nil_l {A B} (m : M A) (f : A -> M B) a b t :
  emits m a [] -> emits (f a) b t -> emits (x <- m ;; f x) b t.
Proof. intros Hm Hf. apply (emits_bind m f a [] b t Hm Hf). Qed.

Lemma emits_bind_nil_r {A B} (m : M A) (f : A -> M B) a b t :
  emits m a t -> emits (f a) b [] -> emits (x <- m ;; f x) b t.
Proof.
  intros Hm Hf. rewrite <- (app_nil_r t). apply (emits_bind m f a t b [] Hm Hf).
Qed.

Lemma bind_run {A B} (m : M A) (f : A -> M B) w a w1 t1 :
  m w = Some (a, w1, t1) -> (x <- m ;; f x) w = prepend t1 (f a w1).
Proof. intros Hm. unfold bind, prepend. now rewrite Hm. Qed.

Lemma bind_emits {A B} (m : M A) (f : A -> M B) a t w :
  emits m a t -> (x <- m ;; f x) w = prepend t (f a w).
Proof. intros Hm. apply bind_run, Hm. Qed.

Lemma emits_sleep_ms n : emits (sleep_ms n) tt [Ev_sleep_ms n].
Proof. now intros w. Qed.

Lemma emits_loadpc pc :
  emits (icsp_cmd_loadpc pc) tt [sent ICSP_COMMAND_LOAD_PC pc].
Proof. apply (emits_send_command ICSP_COMMAND_LOAD_PC). Qed.

Lemma emits_opcode_only opcode :
  emits (icsp_send_command opcode (-1)) tt [opcode_only (to_u8 opcode)].
Proof. apply (emits_send_command opcode (-1)). Qed.

Lemma emits_load_data opcode word :
  0 <= word ->
  emits (icsp_send_command opcode word) tt [load_data (to_u8 opcode) word].
Proof.
  intros H w. rewrite emits_send_command. unfold sent, load_data.
  apply Z.leb_le in H. now rewrite H.
Qed.

(** ** Bits *)

Lemma to_u8_land x : to_u8 x = Z.land x (Z.ones 8).
Proof. unfold to_u8. now rewrite Z.land_ones by lia. Qed.

Lemma to_u16_land x : to_u16 x = Z.land x (Z.ones 16).
Proof. unfold to_u16. now rewrite Z.land_ones by lia. Qed.

Lemma to_u8_id x : is_u8 x -> to_u8 x = x.
Proof. unfold is_u8, to_u8. intros H. apply Z.mod_small. lia. Qed.

Lemma to_u16_id x : is_u16 x -> to_u16 x = x.
Proof. unfold is_u16, to_u16. intros H. apply Z.mod_small. lia. Qed.

Lemma to_u8_range x : is_u8 (to_u8 x).
Proof. unfold is_u8, to_u8. pose proof (Z.mod_pos_bound x (2 ^ 8)). lia. Qed.

Lemma to_u16_range x : is_u16 (to_u16 x).
Proof. unfold is_u16, to_u16. pose proof (Z.mod_pos_bound x (2 ^ 16)). lia. Qed.

Lemma testbit_ones_nonneg n i :
  0 <= n -> 0 <= i -> Z.testbit (Z.ones n) i = (i <? n).
Proof.
  intros Hn Hi. destruct (Z.ltb_spec i n).
  - apply Z.ones_spec_low; lia.
  - apply Z.ones_spec_high; lia.
Qed.

Lemma land_bit_test x n :
  0 <= n -> (Z.land x (Z.shiftl 1 n) =? 0) = negb (Z.testbit x n).
Proof.
  intros Hn. rewrite Z.shiftl_1_l.
  destruct (Z.testbit x n) eqn:Hb; simpl.
  - apply Z.eqb_neq. intros H0.
    assert (H : Z.testbit (Z.land x (2 ^ n)) n = true)
      by (rewrite Z.land_spec, Hb, Z.pow2_bits_true; auto).
    rewrite H0 in H. rewrite Z.bits_0 in H. discriminate.
  - apply Z.eqb_eq, Z.bits_inj'. intros i Hi.
    rewrite Z.land_spec, Z.bits_0.
    destruct (Z.eq_dec i n) as [->|Hne]; [now rewrite Hb|].
    rewrite Z.pow2_bits_false by lia. apply andb_false_r.
Qed.

Lemma testbit_u16_high v j : is_u16 v -> 16 <= j -> Z.testbit v j = false.
Proof.
  unfold is_u16. intros Hv Hj.
  destruct (Z.eq_dec v 0) as [->|]; [apply Z.bits_0|].
  apply Z.bits_above_log2; [lia|].
  assert (Z.log2 v < 16) by (apply Z.log2_lt_pow2; lia). lia.
Qed.

(** The read-side reconstruction undoes the write-side packing. *)
Lemma data_word_payload_bytes v : is_u16 v -> data_word (payload_bytes v) = v.
Proof.
  intros Hv. unfold data_word, payload_bytes.
  cbn [lookup_total list_lookup_total].
  rewrite !to_u8_land, to_u16_land.
  replace 255 with (Z.ones 8) by reflexivity.
  apply Z.bits_inj'. intros i Hi.
  rewrite Z.land_spec, !Z.lor_spec.
  rewrite (Z.shiftr_spec _ 1 i) by lia.
  rewrite (Z.shiftl_spec _ 15 i), (Z.shiftl_spec _ 7 i) by lia.
  rewrite (testbit_ones_nonneg 16) by lia.
  destruct (Z.ltb_spec i 16) as [Hlt|Hge].
  2:{ rewrite andb_false_r. symmetry. now apply testbit_u16_high. }
  rewrite andb_true_r.
  rewrite (Z.land_spec _ _ (i + 1)), (Z.land_spec _ _ (i + 1)).
  rewrite (Z.shiftl_spec v 1 (i + 1)) by lia.
  rewrite (testbit_ones_nonneg 8 (i + 1)) by lia.
  replace (i + 1 - 1) with i by lia.
  destruct (Z.ltb_spec i 7) as [H7|H7].
  - rewrite (Z.testbit_neg_r _ (i - 15)), (Z.testbit_neg_r _ (i - 7)) by lia.
    replace (i + 1 <? 8) with true by (symmetry; apply Z.ltb_lt; lia).
    now rewrite !andb_true_r.
  - replace (i + 1 <? 8) with false by (symmetry; apply Z.ltb_ge; lia).
    rewrite !andb_false_r, orb_false_r.
    rewrite (Z.land_spec _ _ (i - 7)), (Z.land_spec _ _ (i - 7)).
    rewrite (Z.shiftr_spec v 7 (i - 7)) by lia.
    rewrite (testbit_ones_nonneg 8 (i - 7)) by lia.
    replace (i - 7 + 7) with i by lia.
    destruct (Z.ltb_spec i 15) as [H15|H15].
    + rewrite (Z.testbit_neg_r _ (i - 15)) by lia.
      replace (i - 7 <? 8) with true by (symmetry; apply Z.ltb_lt; lia).
      now rewrite !andb_true_r.
    + replace (i - 7 <? 8) with false by (symmetry; apply Z.ltb_ge; lia).
      rewrite !andb_false_r, orb_false_r.
      rewrite (Z.land_spec _ _ (i - 15)), (Z.land_spec _ _ (i - 15)).
      rewrite (Z.shiftr_spec v 15 (i - 15)) by lia.
      rewrite (testbit_ones_nonneg 8 (i - 15)) by lia.
      replace (i - 15 + 15) with i by lia.
      replace (i - 15 <? 8) with true by (symmetry; apply Z.ltb_lt; lia).
      now rewrite !andb_true_r.
Qed.

(** ** The LVP session *)

(** [main] sets the programmer up as [pico_world] has it, from whatever
    the pin variables held before. *)
Lemma main_setup_run (dat_out dat_in clk mclr : Z) (answer : list Z) :
  main_setup
    (mk_world false dat_out dat_in clk mclr [] (fun k => nth k answer 0xFF) 0)
  = Some (tt, pico_world answer,
          [Ev_gpio_init PICO_DEFAULT_LED_PIN;
           Ev_gpio_set_dir PICO_DEFAULT_LED_PIN true;
           Ev_stdio_init_all; Ev_stdio_set_translate_crlf false;
           Ev_gpio_init 29; Ev_gpio_init 7; Ev_gpio_init 6;
           Ev_gpio_set_function 29 GPIO_FUNC_SIO;
           Ev_gpio_set_function 7 GPIO_FUNC_SPI;
           Ev_gpio_set_function 6 GPIO_FUNC_SPI;
           Ev_gpio_set_dir 29 true; Ev_gpio_set_dir 7 true;
           Ev_gpio_set_dir 6 true;
           Ev_gpio_init 4; Ev_gpio_set_function 4 GPIO_FUNC_NULL;
           Ev_gpio_set_dir 4 false;
           Ev_gpio_put 29 true; Ev_spi_init 5000000;
           Ev_spi_set_slave false;
           Ev_spi_set_format 8 SPI_CPOL_0 SPI_CPHA_1 SPI_MSB_FIRST]).
Proof. reflexivity. Qed.

Lemma set_lvp_active_same w : set_lvp_active (lvp_active w) w = w.
Proof. now destruct w. Qed.

Lemma enter_lvp_run w :
  icsp_enter_lvp w = Some (tt, set_lvp_active true w, enter_lvp_events w).
Proof.
  unfold icsp_enter_lvp, enter_lvp_events, bind, read.
  destruct (lvp_active w) eqn:Hact; [|reflexivity].
  cbn. now rewrite <- Hact, set_lvp_active_same.
Qed.

Lemma exit_lvp_run w :
  icsp_exit_lvp w = Some (tt, set_lvp_active false w, exit_lvp_events w).
Proof.
  unfold icsp_exit_lvp, exit_lvp_events, bind, read.
  destruct (lvp_active w) eqn:Hact; [reflexivity|].
  cbn. now rewrite <- Hact, set_lvp_active_same.
Qed.

(** C9: [icsp_enter_lvp] in an active session and [icsp_exit_lvp] in an
    inactive one touch no hardware and leave the state as it is; from the
    inactive state [icsp_enter_lvp] makes the session active, from the
    active state [icsp_exit_lvp] makes it inactive; doing either twice is
    the same as doing it once. *)
Theorem lvp_enter_exit_idempotent (w : World) :
  icsp_enter_lvp (set_lvp_active true w)
    = Some (tt, set_lvp_active true w, [])
  /\ icsp_exit_lvp (set_lvp_active false w)
    = Some (tt, set_lvp_active false w, [])
  /\ icsp_enter_lvp (set_lvp_active false w)
    = Some (tt, set_lvp_active true w,
            [Ev_gpio_put (mclrPin w) false; Ev_sleep_ms 50;
             Ev_spi_write [0x4D; 0x43; 0x48; 0x50]; Ev_sleep_ms 5])
  /\ icsp_exit_lvp (set_lvp_active true w)
    = Some (tt, set_lvp_active false w,
            [Ev_gpio_put (mclrPin w) true; Ev_sleep_ms 5])
  /\ (icsp_enter_lvp ;; icsp_enter_lvp) w = icsp_enter_lvp w
  /\ (icsp_exit_lvp ;; icsp_exit_lvp) w = icsp_exit_lvp w.
Proof.
  repeat split; try reflexivity.
  - erewrite bind_Some; [| apply enter_lvp_run | apply enter_lvp_run].
    rewrite enter_lvp_run. cbn. now rewrite app_nil_r.
  - erewrite bind_Some; [| apply exit_lvp_run | apply exit_lvp_run].
    rewrite exit_lvp_run. cbn. now rewrite app_nil_r.
Qed.

(** ** Bulk erase *)

(** C1: [icsp_cmd_erase] erases exactly the regions whose bit is set in
    the mask, in the order CONFIG, FLASH, EEPROM, USER_ID, each by a
    load-PC of the base address of the region, the bulk-erase opcode
    without payload and a wait of 26 ms; when CONFIG and FLASH are both
    selected the trace starts with the erase of CONFIG, and the erase of
    FLASH comes right after it. *)
Theorem erase_selected_regions_in_order (regions : Z) (w : World) :
  icsp_cmd_erase regions w
    = Some (tt, w,
            flat_map erase_region
              (List.filter (selected regions) erase_order))
  /\ (selected regions CONFIG = true ->
      selected regions FLASH = true ->
      exists rest,
        icsp_cmd_erase regions w
          = Some (tt, w,
                  [load_pc 0x300000; opcode_only ICSP_COMMAND_BULK_ERASE;
                   Ev_sleep_ms 26;
                   load_pc 0x000000; opcode_only ICSP_COMMAND_BULK_ERASE;
                   Ev_sleep_ms 26] ++ rest)).
Proof.
  assert (Hrun : icsp_cmd_erase regions w
    = Some (tt, w,
            flat_map erase_region
              (List.filter (selected regions) erase_order))).
  { unfold icsp_cmd_erase, ICSP_ERASE_REGION_CONFIG, ICSP_ERASE_REGION_FLASH,
      ICSP_ERASE_REGION_EEPROM, ICSP_ERASE_REGION_USER_ID.
    rewrite !land_bit_test by lia. rewrite !negb_involutive.
    unfold erase_order, selected. cbn [List.filter region_bit].
    destruct (Z.testbit regions 3), (Z.testbit regions 1),
      (Z.testbit regions 0), (Z.testbit regions 2); reflexivity. }
  split; [exact Hrun|].
  intros Hc Hf. rewrite Hrun. unfold erase_order. cbn [List.filter].
  rewrite Hc, Hf. cbn [flat_map]. eexists. reflexivity.
Qed.

(** ** The 24 bit payload field *)

(** C2: for a 16 bit [v], [icsp_send_command] sends the three bytes
    [(v>>15)&0xFF], [(v>>7)&0xFF], [(v<<1)&0xFF] after the opcode, the
    reconstruction [(b0<<15)|(b1<<7)|(b2>>1)] cut to 16 bits gives [v]
    back from them, and [icsp_cmd_read_data] returns [v] when the target
    answers with these three bytes. *)
Theorem encode_decode_inverse (opcode v : Z) (increment_pc : bool)
    (w : World) :
  is_u16 v ->
  dataInPin w <> -1 ->
  spi_next w 3 = payload_bytes v ->
  payload_bytes v
    = [Z.land (Z.shiftr v 15) 0xFF; Z.land (Z.shiftr v 7) 0xFF;
       Z.land (Z.shiftl v 1) 0xFF]
  /\ icsp_send_command opcode v w
    = Some (tt, w, [Ev_spi_write (to_u8 opcode :: payload_bytes v)])
  /\ data_word (payload_bytes v) = v
  /\ icsp_cmd_read_data increment_pc w
    = Some (v, set_spi_rx_pos (spi_rx_pos w + 3)%nat w,
            [opcode_only (if increment_pc then ICSP_COMMAND_READ_DATA_INCPC
                          else ICSP_COMMAND_READ_DATA);
             Ev_gpio_set_function (dataOutPin w) GPIO_FUNC_NULL;
             Ev_gpio_set_function (dataInPin w) GPIO_FUNC_SPI;
             Ev_spi_read 0 (payload_bytes v);
             Ev_gpio_set_function (dataInPin w) GPIO_FUNC_NULL;
             Ev_gpio_set_function (dataOutPin w) GPIO_FUNC_SPI]).
Proof.
  intros Hv Hpin Hrx. repeat split.
  - unfold payload_bytes. repeat f_equal; apply to_u8_id; unfold is_u8;
      change 255 with (Z.ones 8); rewrite Z.land_ones by lia;
      pose proof (Z.mod_pos_bound (Z.shiftr v 15) (2 ^ 8));
      pose proof (Z.mod_pos_bound (Z.shiftr v 7) (2 ^ 8));
      pose proof (Z.mod_pos_bound (Z.shiftl v 1) (2 ^ 8)); lia.
  - unfold icsp_send_command. destruct Hv as [Hv0 Hv1].
    apply Z.leb_le in Hv0. now rewrite Hv0.
  - now apply data_word_payload_bytes.
  - rewrite read_data_run.
    unfold read_data_value, read_data_world, read_data_events.
    apply Z.eqb_neq in Hpin. rewrite Hpin, Hrx.
    now rewrite (data_word_payload_bytes v Hv).
Qed.

(** ** Programming the configuration words *)

Lemma to_int_id x : - 2 ^ 31 <= x < 2 ^ 31 -> to_int x = x.
Proof. unfold to_int. intros H. rewrite Z.mod_small by lia. lia. Qed.

Lemma to_int_add_to_int a b : to_int (a + to_int b) = to_int (a + b).
Proof.
  unfold to_int. f_equal.
  replace (a + ((b + 2 ^ 31) mod 2 ^ 32 - 2 ^ 31) + 2 ^ 31)
    with (a + (b + 2 ^ 31) mod 2 ^ 32) by lia.
  rewrite Zplus_mod_idemp_r. f_equal. lia.
Qed.

Lemma lor_shiftl_bytes a b :
  is_u8 a -> is_u8 b -> Z.lor a (Z.shiftl b 8) = a + 256 * b.
Proof.
  unfold is_u8. intros Ha Hb.
  rewrite Z.shiftl_mul_pow2 by lia.
  rewrite <- Z.add_nocarry_lor; [lia|].
  apply Z.bits_inj'. intros i Hi. rewrite Z.land_spec, Z.bits_0.
  destruct (Z.ltb_spec i 8).
  - rewrite Z.mul_pow2_bits_low by lia. apply andb_false_r.
  - replace (Z.testbit a i) with false; [reflexivity|].
    symmetry. destruct (Z.eq_dec a 0) as [->|]; [apply Z.bits_0|].
    apply Z.bits_above_log2; [lia|].
    assert (Z.log2 a < 8) by (apply Z.log2_lt_pow2; lia). lia.
Qed.

Lemma program_config_loop_step addr data byte_count i :
  program_config_loop addr data byte_count i =
    if i + 1 <? byte_count then
      icsp_cmd_loadpc (to_int (addr + to_int i)) ;;
      icsp_send_command ICSP_COMMAND_LOAD_DATA
        (to_u16 (Z.lor (data !!! Z.to_nat i)
                       (Z.shiftl (data !!! Z.to_nat (i + 1)) 8))) ;;
      icsp_send_command ICSP_COMMAND_BEGIN_PROG_INT (-1) ;;
      sleep_ms 11 ;;
      program_config_loop addr data byte_count (i + 2)
    else ret tt.
Proof.
  rewrite program_config_loop_equation_1.
  destruct (Z_lt_dec (i + 1) byte_count) as [Hlt|Hge];
    cbn [program_config_loop_unfold_clause_1].
  - apply Z.ltb_lt in Hlt. rewrite Hlt. reflexivity.
  - apply Z.ltb_nlt in Hge. rewrite Hge. reflexivity.
Qed.

Lemma program_config_loop_run addr data byte_count k :
  forall i,
    i + 2 * Z.of_nat k <= byte_count < i + 2 * Z.of_nat k + 2 ->
    emits (program_config_loop addr data byte_count i) tt
      (flat_map (config_turn addr data) (evens i k)).
Proof.
  induction k as [|k IH]; intros i Hi; rewrite program_config_loop_step.
  - replace (i + 1 <? byte_count) with false
      by (symmetry; apply Z.ltb_ge; lia).
    apply emits_ret.
  - replace (i + 1 <? byte_count) with true
      by (symmetry; apply Z.ltb_lt; lia).
    cbn [evens flat_map]. unfold config_turn at 1, word_write. cbn [app].
    apply (emits_step _ _ tt); [apply emits_loadpc|].
    apply (emits_step _ _ tt);
      [apply (emits_load_data ICSP_COMMAND_LOAD_DATA), to_u16_range|].
    apply (emits_step _ _ tt);
      [apply (emits_opcode_only ICSP_COMMAND_BEGIN_PROG_INT)|].
    apply (emits_step _ _ tt); [apply emits_sleep_ms|].
    apply IH. lia.
Qed.

Lemma config_words_length bytes :
  Z.of_nat (length (config_words bytes)) = (Z.of_nat (length bytes) + 1) / 2.
Proof.
  induction bytes as [bytes IH] using (induction_ltof1 _ (@length Z)).
  unfold ltof in IH.
  destruct bytes as [|a [|b rest]]; [reflexivity..|].
  cbn [config_words length]. rewrite Nat2Z.inj_succ, IH by (simpl; lia).
  rewrite !Nat2Z.inj_succ.
  replace (Z.succ (Z.succ (Z.of_nat (length rest))) + 1)
    with (Z.of_nat (length rest) + 1 + 1 * 2) by lia.
  rewrite Z.div_add by lia. lia.
Qed.

Lemma config_words_all_ff bytes :
  Forall (eq 0xFF) bytes -> Forall (eq 0xFFFF) (config_words bytes).
Proof.
  induction bytes as [bytes IH] using (induction_ltof1 _ (@length Z)).
  unfold ltof in IH. intros Hall.
  destruct bytes as [|a [|b rest]]; cbn [config_words].
  - constructor.
  - inversion Hall; subst. repeat constructor.
  - inversion Hall as [|? ? <- Hall1]; subst.
    inversion Hall1 as [|? ? <- Hall2]; subst.
    constructor; [reflexivity|]. apply IH; [simpl; lia|assumption].
Qed.

(** What the whole of [icsp_program_config] writes, by index. *)
Lemma config_writes_by_index addr data :
  forall (k : nat) (i : Z) (odd : bool),
    0 <= i ->
    - 2 ^ 31 <= addr ->
    addr + i + 2 * Z.of_nat k + Z.b2z odd <= 2 ^ 31 ->
    i + 2 * Z.of_nat k + Z.b2z odd <= Z.of_nat (length data) ->
    Forall is_u8 data ->
    flat_map (config_turn addr data) (evens i k)
      ++ (if odd then
            word_write (to_int (addr + to_int (i + 2 * Z.of_nat k)))
              (to_u16 (Z.lor (data !!! Z.to_nat (i + 2 * Z.of_nat k)) 0xFF00))
          else [])
    = config_writes (addr + i)
        (config_words
           (take (2 * k + Nat.b2n odd) (drop (Z.to_nat i) data))).
Proof.
  induction k as [|k IH]; intros i odd Hi Haddr Hmax Hlen Hbytes.
  - cbn [evens flat_map app Nat.mul Nat.add].
    destruct odd; cbn [Nat.b2n Z.b2z] in *; [|reflexivity].
    replace (i + 2 * Z.of_nat 0) with i by lia.
    destruct (drop (Z.to_nat i) data) as [|a rest] eqn:Hdrop.
    { apply (f_equal length) in Hdrop. rewrite length_drop in Hdrop.
      simpl in Hdrop. lia. }
    assert (Ha : data !! Z.to_nat i = Some a).
    { rewrite <- (Nat.add_0_r (Z.to_nat i)), <- lookup_drop, Hdrop.
      reflexivity. }
    rewrite (list_lookup_total_correct _ _ _ Ha).
    assert (Hau : is_u8 a) by (eapply Forall_lookup_1; eauto).
    change (take 1 (a :: rest)) with [a].
    cbn [config_words config_writes].
    rewrite app_nil_r, to_int_add_to_int, to_int_id by lia.
    change 0xFF00 with (Z.shiftl 0xFF 8).
    rewrite lor_shiftl_bytes by (unfold is_u8 in *; lia).
    rewrite to_u16_id by (unfold is_u16, is_u8 in *; lia).
    reflexivity.
  - cbn [evens flat_map]. rewrite <- app_assoc.
    replace (i + 2 * Z.of_nat (S k)) with (i + 2 + 2 * Z.of_nat k) by lia.
    rewrite IH by (try assumption; lia).
    destruct (drop (Z.to_nat i) data) as [|a [|b rest]] eqn:Hdrop.
    1,2: apply (f_equal length) in Hdrop; rewrite length_drop in Hdrop;
      simpl in Hdrop; destruct odd; simpl in Hlen; lia.
    assert (Ha : data !! Z.to_nat i = Some a).
    { rewrite <- (Nat.add_0_r (Z.to_nat i)), <- lookup_drop, Hdrop.
      reflexivity. }
    assert (Hb : data !! Z.to_nat (i + 1) = Some b).
    { replace (Z.to_nat (i + 1)) with (Z.to_nat i + 1)%nat by lia.
      rewrite <- lookup_drop, Hdrop. reflexivity. }
    assert (Hrest : drop (Z.to_nat (i + 2)) data = rest).
    { replace (Z.to_nat (i + 2)) with (Z.to_nat i + 2)%nat by lia.
      rewrite <- drop_drop, Hdrop. reflexivity. }
    rewrite Hrest.
    replace (2 * S k + Nat.b2n odd)%nat with (S (S (2 * k + Nat.b2n odd)))
      by lia.
    cbn [take config_words config_writes].
    unfold config_turn.
    rewrite (list_lookup_total_correct _ _ _ Ha).
    rewrite (list_lookup_total_correct _ _ _ Hb).
    assert (Hau : is_u8 a) by (eapply Forall_lookup_1; eauto).
    assert (Hbu : is_u8 b) by (eapply Forall_lookup_1; eauto).
    rewrite lor_shiftl_bytes by assumption.
    rewrite to_u16_id by (unfold is_u16, is_u8 in *; lia).
    rewrite to_int_add_to_int, to_int_id by (destruct odd; simpl in Hmax; lia).
    replace (addr + (i + 2)) with (addr + i + 2) by lia.
    reflexivity.
Qed.

Lemma land_1_odd x : (Z.land x 1 =? 0) = negb (Z.odd x).
Proof.
  change 1 with (Z.shiftl 1 0). rewrite land_bit_test by lia.
  now rewrite Z.bit0_odd.
Qed.

Lemma program_config_run addr data byte_count :
  0 <= byte_count ->
  emits (icsp_program_config addr data byte_count) tt
    (program_config_events addr data byte_count).
Proof.
  intros Hbc. unfold icsp_program_config, program_config_events.
  pose proof (Z.div_mod byte_count 2 ltac:(lia)) as Hdm.
  pose proof (Zmod_odd byte_count) as Hodd.
  assert (Hk : byte_count
               = 2 * Z.of_nat (Z.to_nat (byte_count / 2))
                 + Z.b2z (Z.odd byte_count)).
  { rewrite Z2Nat.id by (apply Z.div_pos; lia).
    destruct (Z.odd byte_count); simpl; lia. }
  apply (emits_bind _ _ tt _ tt).
  - apply program_config_loop_run.
    destruct (Z.odd byte_count); simpl in Hk; lia.
  - rewrite land_1_odd, negb_involutive.
    destruct (Z.odd byte_count); [|apply emits_ret].
    unfold word_write.
    apply (emits_step _ _ tt); [apply emits_loadpc|].
    apply (emits_step _ _ tt);
      [apply (emits_load_data ICSP_COMMAND_LOAD_DATA), to_u16_range|].
    apply (emits_step _ _ tt);
      [apply (emits_opcode_only ICSP_COMMAND_BEGIN_PROG_INT)|].
    apply emits_sleep_ms.
Qed.

(** C5: [icsp_program_config] writes every 16 bit word of the block, one
    at a time: for each pair of bytes, low byte first, and for an odd
    last byte with [0xFF] as the high byte, it sends a load-PC, a
    load-data of the word and the begin-programming opcode and waits
    11 ms.  That makes [ceil(n/2)] word writes for [n] bytes, whatever
    the words are: a block of [0xFF] bytes gets as many, each writing
    [0xFFFF]. *)
Theorem program_config_writes_every_word (addr : Z) (data : list Z)
    (byte_count : Z) (w : World) :
  - 2 ^ 31 <= addr ->
  addr + byte_count <= 2 ^ 31 ->
  0 <= byte_count <= Z.of_nat (length data) ->
  Forall is_u8 data ->
  icsp_program_config addr data byte_count w
    = Some (tt, w,
            config_writes addr
              (config_words (take (Z.to_nat byte_count) data)))
  /\ Z.of_nat (length (config_words (take (Z.to_nat byte_count) data)))
    = (byte_count + 1) / 2
  /\ (Forall (eq 0xFF) (take (Z.to_nat byte_count) data) ->
      Forall (eq 0xFFFF)
        (config_words (take (Z.to_nat byte_count) data))).
Proof.
  intros Haddr Hmax Hlen Hbytes. split; [|split].
  - rewrite program_config_run by lia. unfold program_config_events.
    set (k := Z.to_nat (byte_count / 2)).
    pose proof (Z.div_mod byte_count 2 ltac:(lia)) as Hdm.
    pose proof (Zmod_odd byte_count) as Hodd.
    assert (Hk : byte_count = 2 * Z.of_nat k + Z.b2z (Z.odd byte_count)).
    { unfold k. rewrite Z2Nat.id by (apply Z.div_pos; lia).
      destruct (Z.odd byte_count); simpl; lia. }
    pose proof (config_writes_by_index addr data k 0 (Z.odd byte_count)
                  ltac:(lia) Haddr ltac:(lia) ltac:(lia) Hbytes) as Hpure.
    change (Z.to_nat 0) with 0%nat in Hpure. rewrite drop_0 in Hpure.
    replace (2 * k + Nat.b2n (Z.odd byte_count))%nat
      with (Z.to_nat byte_count) in Hpure
      by (destruct (Z.odd byte_count); simpl in *; lia).
    rewrite Z.add_0_r in Hpure. rewrite <- Hpure.
    replace (0 + 2 * Z.of_nat k) with (byte_count - Z.b2z (Z.odd byte_count))
      by lia.
    destruct (Z.odd byte_count); [reflexivity|].
    reflexivity.
  - rewrite config_words_length, length_take.
    rewrite Nat.min_l by lia. now rewrite Z2Nat.id by lia.
  - apply config_words_all_ff.
Qed.

(** ** The checksum *)

Lemma crc8_shift_range c : is_u8 (crc8_shift c).
Proof. unfold crc8_shift. destruct (negb _); apply to_u8_range. Qed.

Lemma crc8_update_range c b : is_u8 (crc8_update c b).
Proof. unfold crc8_update. cbn [Nat.iter]. apply crc8_shift_range. Qed.

Lemma crc8_bytes_range bytes : is_u8 (crc8_bytes bytes).
Proof.
  unfold crc8_bytes.
  assert (H : forall c0, is_u8 c0 -> is_u8 (fold_left crc8_update bytes c0)).
  { induction bytes as [|b bytes IH]; intros c0 Hc0; [exact Hc0|].
    apply IH, crc8_update_range. }
  apply H. unfold is_u8. lia.
Qed.

Lemma crc8_loop_fold n : forall i data crc,
  crc8_loop n i data crc
    = fold_left crc8_update ((fun j => data !!! j) <$> seq i n) crc.
Proof.
  induction n as [|n IH]; intros i data crc; [reflexivity|].
  cbn [crc8_loop seq fmap list_fmap fold_left]. now rewrite IH.
Qed.

Lemma lookups_take_drop (data : list Z) n : forall i,
  (i + n <= length data)%nat ->
  (fun j => data !!! j) <$> seq i n = take n (drop i data).
Proof.
  induction n as [|n IH]; intros i Hlen; [now rewrite take_0|].
  cbn [seq fmap list_fmap].
  destruct (lookup_lt_is_Some_2 data i ltac:(lia)) as [x Hx].
  rewrite (drop_S _ _ _ Hx). cbn [take].
  rewrite (list_lookup_total_correct _ _ _ Hx). f_equal.
  apply IH. lia.
Qed.

Lemma proto_crc8_range data len : is_u8 (proto_crc8 data len).
Proof.
  unfold proto_crc8. rewrite crc8_loop_fold.
  apply (crc8_bytes_range ((fun j => data !!! j) <$> seq 0 (Z.to_nat len))).
Qed.

Lemma proto_crc8_bytes data n :
  0 <= n <= Z.of_nat (length data) ->
  proto_crc8 data n = crc8_bytes (take (Z.to_nat n) data).
Proof.
  intros Hn. unfold proto_crc8, crc8_bytes.
  rewrite crc8_loop_fold, lookups_take_drop by lia.
  now rewrite drop_0.
Qed.

Lemma proto_crc8_all bytes :
  proto_crc8 bytes (Z.of_nat (length bytes)) = crc8_bytes bytes.
Proof.
  rewrite proto_crc8_bytes by lia.
  now rewrite Nat2Z.id, firstn_all.
Qed.

Lemma crc8_bytes_app bytes b :
  crc8_bytes (bytes ++ [b]) = crc8_update (crc8_bytes bytes) b.
Proof. unfold crc8_bytes. now rewrite fold_left_app. Qed.

Lemma all_bytes_spec b : is_u8 b -> In b all_bytes.
Proof.
  unfold is_u8, all_bytes. intros Hb.
  apply in_map_iff. exists (Z.to_nat b). split; [lia|].
  apply in_seq. lia.
Qed.

(** *** The checksum as a remainder *)

Lemma clmul_xor_bits g q1 : forall q2,
  clmul (xor_bits q1 q2) g = Z.lxor (clmul q1 g) (clmul q2 g).
Proof.
  induction q1 as [|a q1 IH]; intros q2.
  - cbn [xor_bits clmul]. now rewrite Z.lxor_0_l.
  - destruct q2 as [|b q2].
    + cbn [xor_bits clmul]. now rewrite Z.lxor_0_r.
    + cbn [xor_bits clmul]. rewrite IH, Z.shiftl_lxor.
      destruct a, b; cbn [xorb]; xor_bits_solve.
Qed.

Lemma gf2_multiple_0 g : gf2_multiple g 0.
Proof. now exists []. Qed.

Lemma gf2_multiple_self g : gf2_multiple g g.
Proof.
  exists [true]. cbn [clmul]. now rewrite Z.shiftl_0_l, Z.lxor_0_r.
Qed.

Lemma gf2_multiple_shift g z :
  gf2_multiple g z -> gf2_multiple g (Z.shiftl z 1).
Proof.
  intros [q ->]. exists (false :: q). cbn [clmul]. now rewrite Z.lxor_0_l.
Qed.

Lemma gf2_multiple_shifts g z n :
  gf2_multiple g z -> gf2_multiple g (Z.shiftl z (Z.of_nat n)).
Proof.
  intros Hz. induction n as [|n IH].
  - now rewrite Z.shiftl_0_r.
  - rewrite Nat2Z.inj_succ, <- Z.add_1_r, <- Z.shiftl_shiftl by lia.
    now apply gf2_multiple_shift.
Qed.

Lemma gf2_multiple_xor g a b :
  gf2_multiple g a -> gf2_multiple g b -> gf2_multiple g (Z.lxor a b).
Proof.
  intros [qa ->] [qb ->]. exists (xor_bits qa qb). now rewrite clmul_xor_bits.
Qed.

(** A multiple of the polynomial is zero or has degree 8 at least. *)
Lemma lxor_high g x : 0 <= g < 512 -> 512 <= x -> 512 <= Z.lxor g x.
Proof.
  intros Hg Hx.
  assert (Hs : Z.shiftr (Z.lxor g x) 9 = Z.shiftr x 9).
  { rewrite Z.shiftr_lxor.
    replace (Z.shiftr g 9) with 0; [apply Z.lxor_0_l|].
    rewrite Z.shiftr_div_pow2 by lia. symmetry. apply Z.div_small. lia. }
  rewrite !Z.shiftr_div_pow2 in Hs by lia.
  assert (1 <= x / 2 ^ 9) by (apply Z.div_le_lower_bound; lia).
  destruct (Z.ltb_spec (Z.lxor g x) 512) as [Hlt|]; [|assumption].
  assert (Z.lxor g x / 2 ^ 9 <= 0).
  { destruct (Z.ltb_spec (Z.lxor g x) 0).
    - apply Z.lt_le_incl, Z.div_lt_upper_bound; lia.
    - rewrite Z.div_small; lia. }
  lia.
Qed.

Lemma clmul_poly_degree q :
  clmul q CRC8_POLY = 0 \/ 256 <= clmul q CRC8_POLY.
Proof.
  induction q as [|b q IH]; [now left|].
  cbn [clmul]. rewrite Z.shiftl_mul_pow2 by lia.
  destruct IH as [-> | Hbig].
  - rewrite Z.mul_0_l, Z.lxor_0_r. destruct b; [right|left];
      unfold CRC8_POLY; lia.
  - right.
    assert (512 <= Z.lxor (if b then CRC8_POLY else 0)
                     (clmul q CRC8_POLY * 2 ^ 1)).
    { apply lxor_high; [destruct b; unfold CRC8_POLY; lia|lia]. }
    lia.
Qed.

Lemma lxor_u8 a b : is_u8 a -> is_u8 b -> is_u8 (Z.lxor a b).
Proof.
  unfold is_u8. intros Ha Hb. split; [apply Z.lxor_nonneg; lia|].
  destruct (Z.eq_dec (Z.lxor a b) 0) as [->|Hnz]; [lia|].
  assert (Hpos : 0 < Z.lxor a b)
    by (assert (0 <= Z.lxor a b) by (apply Z.lxor_nonneg; lia); lia).
  apply (proj2 (Z.log2_lt_pow2 (Z.lxor a b) 8 Hpos)).
  eapply Z.le_lt_trans; [apply Z.log2_lxor; lia|].
  apply Z.max_lub_lt.
  - destruct (Z.eq_dec a 0) as [->|]; [simpl; lia|].
    apply Z.log2_lt_pow2; lia.
  - destruct (Z.eq_dec b 0) as [->|]; [simpl; lia|].
    apply Z.log2_lt_pow2; lia.
Qed.

(** The remainder of a polynomial modulo [CRC8_POLY] is unique. *)
Lemma gf2_remainder_unique m r1 r2 :
  is_u8 r1 -> is_u8 r2 ->
  gf2_multiple CRC8_POLY (Z.lxor m r1) ->
  gf2_multiple CRC8_POLY (Z.lxor m r2) ->
  r1 = r2.
Proof.
  intros H1 H2 M1 M2.
  destruct (gf2_multiple_xor _ _ _ M1 M2) as [q Hq].
  assert (Hx : Z.lxor (Z.lxor m r1) (Z.lxor m r2) = Z.lxor r1 r2)
    by xor_bits_solve.
  rewrite Hx in Hq.
  assert (Hsmall : is_u8 (Z.lxor r1 r2)) by now apply lxor_u8.
  unfold is_u8 in Hsmall.
  destruct (clmul_poly_degree q) as [H0|Hbig]; [|lia].
  rewrite H0 in Hq. now apply Z.lxor_eq.
Qed.

Lemma crc8_shift_agrees_all : forallb crc8_shift_agrees all_bytes = true.
Proof. vm_compute. reflexivity. Qed.

Lemma crc8_shift_poly c :
  is_u8 c ->
  crc8_shift c
    = Z.lxor (Z.shiftl c 1) (if Z.testbit c 7 then CRC8_POLY else 0).
Proof.
  intros Hc. pose proof crc8_shift_agrees_all as Hall.
  rewrite forallb_forall in Hall.
  specialize (Hall c (all_bytes_spec c Hc)).
  apply Z.eqb_eq in Hall. rewrite <- Hall. xor_bits_solve.
Qed.

Lemma crc8_iter_range j c : is_u8 c -> is_u8 (Nat.iter j crc8_shift c).
Proof.
  intros Hc. destruct j; [exact Hc|].
  rewrite Nat.iter_succ. apply crc8_shift_range.
Qed.

Lemma crc8_iter_multiple j c :
  is_u8 c ->
  gf2_multiple CRC8_POLY
    (Z.lxor (Z.shiftl c (Z.of_nat j)) (Nat.iter j crc8_shift c)).
Proof.
  intros Hc. induction j as [|j IH].
  - cbn [Nat.iter]. rewrite Z.shiftl_0_r, Z.lxor_nilpotent.
    apply gf2_multiple_0.
  - rewrite Nat.iter_succ, crc8_shift_poly by now apply crc8_iter_range.
    rewrite Nat2Z.inj_succ, <- Z.add_1_r, <- Z.shiftl_shiftl by lia.
    set (s := Nat.iter j crc8_shift c) in *.
    replace (Z.lxor (Z.shiftl (Z.shiftl c (Z.of_nat j)) 1)
               (Z.lxor (Z.shiftl s 1)
                  (if Z.testbit s 7 then CRC8_POLY else 0)))
      with (Z.lxor (Z.shiftl (Z.lxor (Z.shiftl c (Z.of_nat j)) s) 1)
              (if Z.testbit s 7 then CRC8_POLY else 0))
      by (rewrite Z.shiftl_lxor; xor_bits_solve).
    apply gf2_multiple_xor; [now apply gf2_multiple_shift|].
    destruct (Z.testbit s 7);
      [apply gf2_multiple_self|apply gf2_multiple_0].
Qed.

Lemma message_value_app bytes b :
  message_value (bytes ++ [b]) = message_value bytes * 256 + b.
Proof. unfold message_value. now rewrite fold_left_app. Qed.

Lemma append_byte_lxor v b :
  is_u8 b -> v * 256 + b = Z.lxor (Z.shiftl v 8) b.
Proof.
  intros Hb. rewrite Z.shiftl_mul_pow2 by lia. change (2 ^ 8) with 256.
  rewrite <- Z.add_nocarry_lxor; [reflexivity|].
  apply Z.bits_inj'. intros i Hi. rewrite Z.land_spec, Z.bits_0.
  destruct (Z.ltb_spec i 8).
  - change 256 with (2 ^ 8). rewrite Z.mul_pow2_bits_low by lia. reflexivity.
  - replace (Z.testbit b i) with false; [apply andb_false_r|].
    symmetry. unfold is_u8 in Hb.
    destruct (Z.eq_dec b 0) as [->|]; [apply Z.bits_0|].
    apply Z.bits_above_log2; [lia|].
    assert (Z.log2 b < 8) by (apply Z.log2_lt_pow2; lia). lia.
Qed.

(** The checksum of [bytes] is the remainder of the message times [x^8]
    modulo [CRC8_POLY]. *)
Lemma crc8_bytes_remainder bytes :
  Forall is_u8 bytes ->
  gf2_multiple CRC8_POLY
    (Z.lxor (Z.shiftl (message_value bytes) 8) (crc8_bytes bytes)).
Proof.
  induction bytes as [|b bytes IH] using rev_ind; intros Hall.
  - cbn. apply gf2_multiple_0.
  - apply Forall_app in Hall as [Hbytes Hb].
    inversion Hb as [|? ? Hb8 _]; subst.
    specialize (IH Hbytes).
    rewrite message_value_app, crc8_bytes_app, append_byte_lxor by assumption.
    unfold crc8_update.
    set (v := message_value bytes) in *. set (c := crc8_bytes bytes) in *.
    assert (Hc : is_u8 c) by apply crc8_bytes_range.
    rewrite (to_u8_id (Z.lxor c b)) by now apply lxor_u8.
    pose proof (crc8_iter_multiple 8 (Z.lxor c b) (lxor_u8 c b Hc Hb8))
      as Hbyte.
    pose proof (gf2_multiple_shifts _ _ 8 IH) as Hprev.
    change (Z.of_nat 8) with 8 in *.
    pose proof (gf2_multiple_xor _ _ _ Hprev Hbyte) as Hsum.
    replace (Z.lxor (Z.shiftl (Z.lxor (Z.shiftl v 8) b) 8)
               (Nat.iter 8 crc8_shift (Z.lxor c b)))
      with (Z.lxor (Z.shiftl (Z.lxor (Z.shiftl v 8) c) 8)
              (Z.lxor (Z.shiftl (Z.lxor c b) 8)
                 (Nat.iter 8 crc8_shift (Z.lxor c b)))); [exact Hsum|].
    rewrite !Z.shiftl_lxor. xor_bits_solve.
Qed.

(** *** The checksum bit by bit *)

Lemma double_agrees_all : forallb double_agrees all_bytes = true.
Proof. vm_compute. reflexivity. Qed.

Lemma double_u8 c :
  is_u8 c ->
  (2 * c) mod 256
    = Z.lxor (Z.shiftl c 1) (if Z.testbit c 7 then 0x100 else 0).
Proof.
  intros Hc. pose proof double_agrees_all as Hall.
  rewrite forallb_forall in Hall.
  specialize (Hall c (all_bytes_spec c Hc)).
  now apply Z.eqb_eq in Hall.
Qed.

Lemma crc8_feed_range r bit : is_u8 (crc8_feed r bit).
Proof.
  unfold crc8_feed.
  assert (Hs : is_u8 ((2 * r) mod 256))
    by (unfold is_u8; apply Z.mod_pos_bound; lia).
  destruct (xorb _ _); [|exact Hs].
  apply lxor_u8; [exact Hs|unfold is_u8; lia].
Qed.

(** One shift of [proto_crc8] on a register that already holds the
    remaining message bits [m] is one bit fed to the shift register. *)
Lemma crc8_shift_feed r m :
  is_u8 r -> is_u8 m ->
  crc8_shift (Z.lxor r m)
    = Z.lxor (crc8_feed r (Z.testbit m 7)) ((2 * m) mod 256).
Proof.
  intros Hr Hm. rewrite crc8_shift_poly by now apply lxor_u8.
  unfold crc8_feed. rewrite !double_u8 by assumption.
  rewrite Z.lxor_spec, Z.shiftl_lxor. unfold CRC8_POLY.
  change 263 with (Z.lxor 256 7).
  destruct (Z.testbit r 7), (Z.testbit m 7); cbn [xorb]; xor_bits_solve.
Qed.

(** The message bits that are left of the byte [b] after [j] shifts. *)
Lemma shifted_byte_top b j :
  0 <= j <= 7 ->
  Z.testbit ((2 ^ j * b) mod 256) 7 = Z.testbit b (7 - j).
Proof.
  intros Hj. change 256 with (2 ^ 8).
  rewrite Z.mod_pow2_bits_low by lia.
  rewrite Z.mul_comm, Z.mul_pow2_bits by lia. reflexivity.
Qed.

Lemma shifted_byte_next b j :
  0 <= j -> (2 * ((2 ^ j * b) mod 256)) mod 256 = (2 ^ (j + 1) * b) mod 256.
Proof.
  intros Hj. rewrite Zmult_mod_idemp_r. f_equal.
  rewrite Z.pow_add_r by lia. lia.
Qed.

Lemma crc8_shifts_feed b n : forall j r,
  Z.of_nat n + j = 8 -> 0 <= j ->
  is_u8 r ->
  Nat.iter n crc8_shift (Z.lxor r ((2 ^ j * b) mod 256))
    = fold_left crc8_feed
        ((fun k => Z.testbit b (7 - Z.of_nat k)) <$> seq (Z.to_nat j) n) r.
Proof.
  induction n as [|n IH]; intros j r Hn Hj Hr.
  - cbn [Nat.iter seq fmap list_fmap fold_left nat_rect].
    replace j with 8 by lia. change ((2 ^ 8 * b) mod 256) with ((256 * b) mod 256).
    rewrite Z.mul_comm, Z_mod_mult. apply Z.lxor_0_r.
  - rewrite Nat.iter_succ_r. cbn [seq fmap list_fmap fold_left].
    assert (Hm : is_u8 ((2 ^ j * b) mod 256))
      by (unfold is_u8; apply Z.mod_pos_bound; lia).
    rewrite crc8_shift_feed, shifted_byte_top, shifted_byte_next
      by (assumption || lia).
    rewrite Z2Nat.id by lia.
    rewrite (IH (j + 1)) by (lia || apply crc8_feed_range).
    replace (Z.to_nat (j + 1)) with (S (Z.to_nat j)) by lia.
    reflexivity.
Qed.

Lemma crc8_update_feed reg b :
  is_u8 reg -> is_u8 b ->
  crc8_update reg b = fold_left crc8_feed (byte_bits_msb_first b) reg.
Proof.
  intros Hreg Hb. unfold crc8_update, byte_bits_msb_first.
  rewrite to_u8_id by now apply lxor_u8.
  pose proof (crc8_shifts_feed b 8 0 reg eq_refl ltac:(lia) Hreg) as Hfeed.
  change (Z.to_nat 0) with 0%nat in Hfeed. rewrite <- Hfeed.
  change (2 ^ 0 * b) with (1 * b)%Z. rewrite Z.mul_1_l.
  now rewrite (Z.mod_small b 256) by (unfold is_u8 in Hb; lia).
Qed.

Lemma crc8_bytes_reference bytes :
  Forall is_u8 bytes -> crc8_bytes bytes = crc8_reference bytes.
Proof.
  unfold crc8_bytes, crc8_reference.
  assert (Hc : is_u8 0) by (unfold is_u8; lia). revert Hc.
  generalize 0. intros c Hc Hbytes. revert c Hc.
  induction Hbytes as [|b bytes Hb Hbytes IH]; intros c Hc; [reflexivity|].
  cbn [fold_left flat_map]. rewrite fold_left_app.
  rewrite <- crc8_update_feed by assumption.
  apply IH, crc8_update_range.
Qed.

(** C7: [proto_crc8] is CRC-8 with polynomial [0x07], initial value
    [0x00], most significant bit first, without reflection.  The
    checksum of a message is the remainder of the message times [x^8]
    modulo [x^8 + x^2 + x + 1] over GF(2), and the only byte with this
    property; on every list of bytes it agrees with the bit by bit shift
    register; it reads only the [len] bytes it is given, so that equal
    bytes give equal checksums; the checksum of no bytes is [0x00], that
    of [0x09, 0x00, 0x00] is [0x3A], and that of the digits 1 to 9 is
    [0xF4], the check value of this CRC. *)
Theorem crc8_poly07_msb_first :
  (forall data, Forall is_u8 data ->
     gf2_multiple CRC8_POLY
       (Z.lxor (Z.shiftl (message_value data) 8)
          (proto_crc8 data (Z.of_nat (length data)))))
  /\ (forall data r, Forall is_u8 data -> is_u8 r ->
        gf2_multiple CRC8_POLY (Z.lxor (Z.shiftl (message_value data) 8) r) ->
        r = proto_crc8 data (Z.of_nat (length data)))
  /\ (forall data, Forall is_u8 data ->
        proto_crc8 data (Z.of_nat (length data)) = crc8_reference data)
  /\ (forall data1 data2 n,
        take n data1 = take n data2 ->
        proto_crc8 data1 (Z.of_nat n) = proto_crc8 data2 (Z.of_nat n))
  /\ (forall data len, is_u8 (proto_crc8 data len))
  /\ proto_crc8 [] 0 = 0x00
  /\ proto_crc8 [0x09; 0x00; 0x00] 3 = 0x3A
  /\ crc8_reference [0x09; 0x00; 0x00] = 0x3A
  /\ proto_crc8 (string_bytes "123456789") 9 = 0xF4.
Proof.
  split; [|split; [|split; [|split; [|split]]]].
  - intros data Hdata. rewrite proto_crc8_all.
    now apply crc8_bytes_remainder.
  - intros data r Hdata Hr Hmult.
    apply (gf2_remainder_unique (Z.shiftl (message_value data) 8));
      try assumption.
    + apply proto_crc8_range.
    + rewrite proto_crc8_all. now apply crc8_bytes_remainder.
  - intros data Hdata. rewrite proto_crc8_all.
    now apply crc8_bytes_reference.
  - intros data1 data2 n Htake. unfold proto_crc8.
    rewrite !crc8_loop_fold. f_equal. rewrite Nat2Z.id.
    apply list_eq. intros j. rewrite !list_lookup_fmap.
    destruct (seq 0 n !! j) as [k|] eqn:Hk; [|reflexivity].
    apply lookup_seq in Hk as [-> Hj]. cbn. f_equal.
    rewrite <- (lookup_total_take_lt data1 n j) by lia.
    rewrite <- (lookup_total_take_lt data2 n j) by lia.
    now rewrite Htake.
  - apply proto_crc8_range.
  - repeat split; reflexivity.
Qed.

(** ** Frames *)

Lemma uninitialized_length n : length (uninitialized n) = n.
Proof. unfold uninitialized. now rewrite length_fmap, length_seq. Qed.

Lemma list_inserts_middle (pre k tl : list Z) :
  (length k <= length tl)%nat ->
  list_inserts (length pre) k (pre ++ tl) = pre ++ k ++ drop (length k) tl.
Proof.
  intros Hlen.
  rewrite <- (Nat.add_0_r (length pre)), list_inserts_app_r. f_equal.
  rewrite <- (take_drop (length k) tl) at 1.
  apply list_inserts_0_r. rewrite length_take. lia.
Qed.

Lemma insert_middle (pre tl : list Z) x y :
  <[length pre := x]> (pre ++ y :: tl) = pre ++ x :: tl.
Proof.
  rewrite <- (Nat.add_0_r (length pre)), insert_app_r. reflexivity.
Qed.

Lemma emits_putchar_loop (l : list Z) n : forall i,
  (Z.to_nat i + n <= length l)%nat -> 0 <= i ->
  emits (for_loop n i (fun i => putchar (l !!! Z.to_nat i))) tt
    (Ev_putchar <$> take n (drop (Z.to_nat i) l)).
Proof.
  induction n as [|n IH]; intros i Hlen Hi.
  - rewrite take_0. apply emits_ret.
  - destruct (lookup_lt_is_Some_2 l (Z.to_nat i) ltac:(lia)) as [x Hx].
    rewrite (drop_S _ _ _ Hx). cbn [for_loop take fmap list_fmap].
    apply (emits_step _ _ tt).
    + rewrite (list_lookup_total_correct _ _ _ Hx). now intros w.
    + replace (S (Z.to_nat i)) with (Z.to_nat (i + 1)) by lia.
      apply IH; lia.
Qed.

Lemma len_low_byte n :
  0 <= n < 65536 -> to_u8 (Z.land n 0xFF) = n mod 256.
Proof.
  intros Hn. change 255 with (Z.ones 8). rewrite Z.land_ones by lia.
  apply to_u8_id. unfold is_u8. apply Z.mod_pos_bound. lia.
Qed.

Lemma len_high_byte n :
  0 <= n < 65536 -> to_u8 (Z.shiftr n 8) = n / 256.
Proof.
  intros Hn. rewrite Z.shiftr_div_pow2 by lia. apply to_u8_id.
  unfold is_u8. change (2 ^ 8) with 256.
  split; [apply Z.div_pos; lia|apply Z.div_lt_upper_bound; lia].
Qed.

(** The end of [proto_send_response], once the buffer holds the header
    and the payload. *)
Lemma emits_frame_tail (body rest : list Z) (x : Z) (n : Z) :
  Z.of_nat (length body) = 3 + n ->
  0 <= n <= 65531 ->
  emits
    (let frame := <[Z.to_nat (3 + n) :=
                      proto_crc8 (body ++ x :: rest) (3 + n)]>
                    (body ++ x :: rest) in
     let total := to_u16 (4 + n) in
     for_loop (Z.to_nat total) 0 (fun i => putchar (frame !!! Z.to_nat i)) ;;
     stdio_flush)
    tt
    ((Ev_putchar <$>
        body ++ [proto_crc8 body (Z.of_nat (length body))])
       ++ [Ev_stdio_flush]).
Proof.
  intros Hbody Hn. cbv zeta.
  replace (Z.to_nat (3 + n)) with (length body) by lia.
  rewrite insert_middle.
  rewrite to_u16_id by (unfold is_u16; lia).
  rewrite (proto_crc8_bytes (body ++ x :: rest))
    by (rewrite length_app; lia).
  rewrite proto_crc8_all.
  replace (Z.to_nat (3 + n)) with (length body) by lia.
  rewrite take_app_length.
  apply (emits_bind _ _ tt _ tt); [|now intros w].
  set (c := crc8_bytes body).
  pose proof (emits_putchar_loop (body ++ c :: rest) (Z.to_nat (4 + n)) 0)
    as Hloop.
  change (Z.to_nat 0) with 0%nat in Hloop. rewrite drop_0 in Hloop.
  replace (take (Z.to_nat (4 + n)) (body ++ c :: rest)) with (body ++ [c])
    in Hloop.
  - apply Hloop; [rewrite length_app; simpl; lia|lia].
  - replace (Z.to_nat (4 + n)) with (length (body ++ [c]))
      by (rewrite length_app; simpl; lia).
    change (body ++ c :: rest) with (body ++ [c] ++ rest).
    rewrite app_assoc. now rewrite take_app_length.
Qed.

Lemma send_response_payload status p n :
  0 <= n <= PROTO_MAX_PAYLOAD ->
  n <= Z.of_nat (length p) ->
  emits (proto_send_response status (Some p) n) tt
    (response_events (to_u8 status) (take (Z.to_nat n) p)).
Proof.
  unfold PROTO_MAX_PAYLOAD. intros Hn Hp.
  unfold proto_send_response.
  change (Z.to_nat (4 + PROTO_MAX_PAYLOAD)) with 260%nat.
  pose proof (uninitialized_length 260) as Hu.
  destruct (uninitialized 260) as [|u0 [|u1 [|u2 tl]]]; [discriminate..|].
  cbn [length] in Hu.
  cbn [insert list_insert]. 
  set (pl := take (Z.to_nat n) p).
  assert (Hpl : length pl = Z.to_nat n)
    by (unfold pl; rewrite length_take; lia).
  set (hdr := [to_u8 status; to_u8 (Z.land n 255); to_u8 (Z.shiftr n 8)]).
  assert (Hbuf : (if 0 <? n then list_inserts 3 pl (hdr ++ tl) else hdr ++ tl)
                 = (hdr ++ pl) ++ drop (length pl) tl).
  { destruct (Z.ltb_spec 0 n).
    - rewrite <- app_assoc. apply (list_inserts_middle hdr pl tl). lia.
    - replace pl with (@nil Z) by (symmetry; apply nil_length_inv; lia).
      now rewrite app_nil_r, drop_0. }
  change (to_u8 status :: to_u8 (Z.land n 255) :: to_u8 (Z.shiftr n 8) :: tl)
    with (hdr ++ tl).
  rewrite Hbuf.
  destruct (drop (length pl) tl) as [|x rest] eqn:Hdrop.
  { apply (f_equal length) in Hdrop. rewrite length_drop in Hdrop.
    simpl in Hdrop. lia. }
  unfold response_events, frame, frame_body.
  rewrite Hpl, Z2Nat.id by lia.
  rewrite <- len_low_byte, <- len_high_byte by lia.
  apply (emits_frame_tail (hdr ++ pl) rest x n); [|lia].
  rewrite length_app. simpl. lia.
Qed.

Lemma send_response_empty status :
  emits (proto_send_response status None 0) tt
    (response_events (to_u8 status) []).
Proof.
  unfold proto_send_response.
  change (Z.to_nat (4 + PROTO_MAX_PAYLOAD)) with 260%nat.
  pose proof (uninitialized_length 260) as Hu.
  destruct (uninitialized 260) as [|u0 [|u1 [|u2 [|u3 tl]]]];
    [discriminate..|].
  cbn [insert list_insert].
  apply (emits_frame_tail [to_u8 status; 0; 0] tl u3 0); [reflexivity|lia].
Qed.

(** ** Reading a request *)

Lemma getchar_run w c rest :
  stdin w = c :: rest -> getchar w = Some (c, set_stdin rest w, []).
Proof. intros H. unfold getchar. now rewrite H. Qed.

Lemma bind_getchar {B} (f : Z -> M B) w c rest :
  stdin w = c :: rest -> (x <- getchar ;; f x) w = f c (set_stdin rest w).
Proof.
  intros H. unfold bind. rewrite (getchar_run w c rest H).
  now destruct (f c (set_stdin rest w)) as [[[b w2] t2]|].
Qed.

Lemma set_stdin_set_stdin l1 l2 w :
  set_stdin l2 (set_stdin l1 w) = set_stdin l2 w.
Proof. reflexivity. Qed.

Lemma read_payload_run pl : forall i req w rest,
  Forall is_u8 pl ->
  stdin w = pl ++ rest ->
  0 <= i ->
  (Z.to_nat i + length pl <= length (payload req))%nat ->
  read_payload_loop (length pl) i req w
    = Some ((true,
             set_payload (take (Z.to_nat i) (payload req) ++ pl
                            ++ drop (Z.to_nat i + length pl) (payload req))
               req),
            set_stdin rest w, []).
Proof.
  induction pl as [|c pl IH]; intros i req w rest Hbytes Hin Hi Hlen.
  - cbn [length read_payload_loop app]. rewrite Nat.add_0_r, take_drop.
    unfold ret. destruct req, w; cbn in *. now subst.
  - cbn [length read_payload_loop].
    inversion Hbytes as [|? ? Hc Hpl]; subst.
    rewrite (bind_getchar _ w c (pl ++ rest)) by exact Hin.
    replace (c <? 0) with false
      by (symmetry; apply Z.ltb_ge; unfold is_u8 in Hc; lia).
    cbn [length] in Hlen.
    rewrite (IH (i + 1) _ _ rest Hpl); cbn [payload set_payload stdin set_stdin];
      try reflexivity; try lia.
    2:{ rewrite length_insert. lia. }
    rewrite set_stdin_set_stdin. unfold set_payload. cbn [cmd len payload].
    do 4 f_equal.
    rewrite to_u8_id by assumption.
    replace (Z.to_nat (i + 1)) with (S (Z.to_nat i)) by lia.
    rewrite (insert_take_drop (payload req) (Z.to_nat i) c) by lia.
    set (p := payload req) in *. set (k := Z.to_nat i) in *.
    change (take k p ++ c :: drop (S k) p)
      with (take k p ++ [c] ++ drop (S k) p).
    rewrite (app_assoc (take k p) [c]).
    assert (Hpre : length (take k p ++ [c]) = S k)
      by (rewrite length_app, length_take; simpl; lia).
    rewrite take_app_length' by (now rewrite Hpre).
    rewrite drop_app_ge by (rewrite Hpre; lia).
    rewrite Hpre, drop_drop, <- app_assoc.
    cbn [app]. do 5 f_equal. lia.
Qed.

Lemma length_field_decode n :
  0 <= n < 65536 ->
  to_u16 (Z.lor (to_u16 (n mod 256)) (Z.shiftl (to_u16 (n / 256)) 8)) = n.
Proof.
  intros Hn.
  assert (Hlo : is_u8 (n mod 256))
    by (unfold is_u8; apply Z.mod_pos_bound; lia).
  assert (Hhi : is_u8 (n / 256)).
  { unfold is_u8. split; [apply Z.div_pos; lia|].
    apply Z.div_lt_upper_bound; lia. }
  rewrite !(to_u16_id (_ mod _)), !(to_u16_id (_ / _))
    by (unfold is_u16, is_u8 in *; lia).
  rewrite lor_shiftl_bytes by assumption.
  rewrite to_u16_id; unfold is_u16;
    pose proof (Z.div_mod n 256 ltac:(lia)); lia.
Qed.

(** A well formed frame is accepted: the request holds its tag, its
    length and its payload, and the input is left after the frame. *)
Lemma read_request_ok req w tag pl rest :
  is_u8 tag ->
  Forall is_u8 pl ->
  Z.of_nat (length pl) <= PROTO_MAX_PAYLOAD ->
  (length pl <= length (payload req))%nat ->
  stdin w = frame tag pl ++ rest ->
  proto_read_request req w
    = Some ((true,
             mk_request tag (Z.of_nat (length pl))
               (pl ++ drop (length pl) (payload req))),
            set_stdin rest w, []).
Proof.
  unfold PROTO_MAX_PAYLOAD. intros Htag Hpl Hmax Hroom Hin.
  set (n := Z.of_nat (length pl)) in *.
  set (crc := proto_crc8 (frame_body tag pl)
                (Z.of_nat (length (frame_body tag pl)))).
  assert (Hin' : stdin w
                 = tag :: n mod 256 :: n / 256 :: pl ++ crc :: rest).
  { rewrite Hin. unfold frame, frame_body. fold n. fold crc.
    cbn [app]. now rewrite <- app_assoc. }
  clear Hin. unfold proto_read_request.
  rewrite (bind_getchar _ w _ _ Hin').
  replace ((tag =? PICO_ERROR_TIMEOUT) || (tag <? 0)) with false.
  2:{ symmetry. apply orb_false_iff. unfold is_u8 in Htag.
      split; [apply Z.eqb_neq|apply Z.ltb_ge]; lia. }
  cbv zeta.
  rewrite (bind_getchar _ _ (n mod 256) (n / 256 :: pl ++ crc :: rest))
    by reflexivity.
  rewrite (bind_getchar _ _ (n / 256) (pl ++ crc :: rest)) by reflexivity.
  assert (Hlo : 0 <= n mod 256 < 256) by (apply Z.mod_pos_bound; lia).
  assert (Hhi : 0 <= n / 256 < 256).
  { split; [apply Z.div_pos; lia|apply Z.div_lt_upper_bound; lia]. }
  replace ((n mod 256 <? 0) || (n / 256 <? 0)) with false.
  2:{ symmetry. apply orb_false_iff. split; apply Z.ltb_ge; lia. }
  cbn [len set_len set_cmd cmd payload].
  rewrite length_field_decode by lia.
  replace (PROTO_MAX_PAYLOAD <? n) with false
    by (symmetry; apply Z.ltb_ge; unfold PROTO_MAX_PAYLOAD; lia).
  rewrite !set_stdin_set_stdin.
  unfold n at 1. rewrite Nat2Z.id.
  erewrite bind_Some;
    [| apply (read_payload_run pl 0 _ _ (crc :: rest) Hpl);
       [reflexivity | lia | cbn [payload set_len set_cmd]; lia]
     | ].
  2:{ cbn [fst snd negb app]. rewrite set_stdin_set_stdin.
      rewrite (bind_getchar _ _ crc rest) by reflexivity.
      rewrite set_stdin_set_stdin.
      assert (Hcrc : is_u8 crc) by apply proto_crc8_range.
      replace (crc <? 0) with false
        by (symmetry; apply Z.ltb_ge; unfold is_u8 in Hcrc; lia).
      change (Z.to_nat 0) with 0%nat.
      cbn [cmd len payload set_payload set_len set_cmd Nat.add].
      rewrite take_0. cbn [app].
      change (Z.to_nat (3 + PROTO_MAX_PAYLOAD)) with 259%nat.
      pose proof (uninitialized_length 259) as Hu.
      destruct (uninitialized 259) as [|u0 [|u1 [|u2 tl]]]; [discriminate..|].
      cbn [length] in Hu. cbn [insert list_insert].
      rewrite len_low_byte, len_high_byte by lia.
      rewrite to_u8_id by assumption.
      replace (take (Z.to_nat n) (pl ++ drop (length pl) (payload req)))
        with pl by (unfold n; rewrite Nat2Z.id; now rewrite take_app_length).
      rewrite (to_u8_id tag) by assumption.
      change (tag :: n mod 256 :: n / 256 :: tl)
        with ([tag; n mod 256; n / 256] ++ tl).
      change 3%nat with (length [tag; n mod 256; n / 256]) at 1.
      rewrite (list_inserts_middle [tag; n mod 256; n / 256] pl tl) by lia.
      rewrite app_assoc.
      rewrite proto_crc8_bytes by (rewrite !length_app; simpl; lia).
      replace (Z.to_nat (3 + n)) with (length ([tag; n mod 256; n / 256] ++ pl))
        by (rewrite length_app; simpl; lia).
      rewrite take_app_length.
      unfold crc, frame_body. fold n. rewrite proto_crc8_all.
      rewrite Z.eqb_refl. cbn [negb]. reflexivity. }
  reflexivity.
Qed.

(** C3: a response frame with at most 256 payload bytes is the status,
    the length in two bytes, low byte first, the payload, and the
    checksum of all that; read back by the frame parser it gives the
    status, the length and the payload again. *)
Theorem frame_round_trip (status : Z) (payload0 : list Z) (n : Z)
    (req : proto_request_t) (w : World) (rest : list Z) :
  is_u8 status ->
  Forall is_u8 payload0 ->
  0 <= n <= PROTO_MAX_PAYLOAD ->
  n <= Z.of_nat (length payload0) ->
  length (payload req) = Z.to_nat PROTO_MAX_PAYLOAD ->
  proto_send_response status (Some payload0) n w
    = Some (tt, w,
            (Ev_putchar <$> frame status (take (Z.to_nat n) payload0))
              ++ [Ev_stdio_flush])
  /\ frame status (take (Z.to_nat n) payload0)
    = [status; n mod 256; n / 256] ++ take (Z.to_nat n) payload0
        ++ [proto_crc8
              ([status; n mod 256; n / 256] ++ take (Z.to_nat n) payload0)
              (3 + n)]
  /\ exists req',
      proto_read_request req
        (set_stdin (frame status (take (Z.to_nat n) payload0) ++ rest) w)
        = Some ((true, req'), set_stdin rest w, [])
      /\ cmd req' = status
      /\ len req' = n
      /\ take (Z.to_nat n) (payload req') = take (Z.to_nat n) payload0.
Proof.
  intros Hstatus Hbytes Hn Hlen Hroom.
  unfold PROTO_MAX_PAYLOAD in Hn, Hroom.
  set (sent_payload := take (Z.to_nat n) payload0).
  assert (Hsent : length sent_payload = Z.to_nat n)
    by (unfold sent_payload; rewrite length_take; lia).
  split; [|split].
  - rewrite (send_response_payload status payload0 n)
      by (unfold PROTO_MAX_PAYLOAD; lia).
    unfold response_events. now rewrite to_u8_id by assumption.
  - unfold frame, frame_body. rewrite Hsent, Z2Nat.id by lia.
    rewrite <- app_assoc. do 3 f_equal.
    rewrite length_app, Hsent. f_equal. simpl length. lia.
  - eexists. split; [|split; [|split]].
    + rewrite (read_request_ok req _ status sent_payload rest);
        try assumption; try reflexivity.
      * unfold sent_payload. now apply Forall_take.
      * unfold PROTO_MAX_PAYLOAD. lia.
      * lia.
    + reflexivity.
    + cbn [len]. lia.
    + cbn [payload]. rewrite <- Hsent. apply take_app_length.
Qed.

(** ** Writing a flash row *)

Lemma program_page_row (addr : Z) :
  0 <= addr ->
  emits (icsp_program_page addr (repeat 0xAAAA 64) 64 true) 64
    ([load_pc addr; opcode_only ICSP_COMMAND_PAGE_ERASE; Ev_sleep_ms 11]
       ++ repeat (load_data ICSP_COMMAND_LOAD_DATA_INCPC 0xAAAA) 63
       ++ [load_data ICSP_COMMAND_LOAD_DATA 0xAAAA;
           opcode_only ICSP_COMMAND_BEGIN_PROG_INT; Ev_sleep_ms 3]).
Proof.
  intros Haddr w. unfold icsp_program_page.
  apply (emits_step _ _ tt).
  { intros w0. rewrite emits_loadpc. unfold sent, load_pc.
    apply Z.leb_le in Haddr. now rewrite Haddr. }
  clear w. intros w. vm_compute. reflexivity.
Qed.

Lemma write_page_row_run (tl : list Z) (w : World) :
  handle_write_page
    (mk_request CMD_WRITE_PAGE 132 (([0; 0; 0; 0] ++ repeat 0xAA 128) ++ tl))
    w
  = Some (tt, set_lvp_active true w,
          enter_lvp_events w
            ++ [load_pc 0; opcode_only ICSP_COMMAND_PAGE_ERASE;
                Ev_sleep_ms 11]
            ++ repeat (load_data ICSP_COMMAND_LOAD_DATA_INCPC 0xAAAA) 63
            ++ [load_data ICSP_COMMAND_LOAD_DATA 0xAAAA;
                opcode_only ICSP_COMMAND_BEGIN_PROG_INT; Ev_sleep_ms 3]
            ++ response_events STATUS_OK []).
Proof.
  unfold handle_write_page. cbn [len payload].
  change (132 <? 4 + FLASH_ROW_BYTES) with false. cbv iota.
  set (pl := [0; 0; 0; 0] ++ repeat 0xAA 128).
  replace (proto_get_u32 (pl ++ tl)) with 0 by reflexivity.
  replace ((fun i : nat =>
              to_u16 (Z.lor (drop 4 (pl ++ tl) !!! (i * 2)%nat)
                        (Z.shiftl (drop 4 (pl ++ tl) !!! (i * 2 + 1)%nat) 8)))
             <$> seq 0 (Z.to_nat FLASH_ROW_WORDS))
    with (repeat 0xAAAA 64) by reflexivity.
  change (to_int 0) with 0. change FLASH_ROW_WORDS with 64.
  rewrite (bind_run _ _ _ _ _ _ (enter_lvp_run w)).
  rewrite (bind_emits _ _ _ _ _ (program_page_row 0 ltac:(lia))).
  unfold proto_send_ok. rewrite send_response_empty.
  cbn [prepend]. now rewrite <- !app_assoc.
Qed.

(** C4: the request WRITE_PAGE with length 132, address 0 and 128 data
    bytes [0xAA], with its checksum, makes the firmware enter LVP when
    the session is not yet active and then send a load-PC of 0, the
    page-erase opcode, 63 load-data commands with PC increment carrying
    [0xAAAA], one plain load-data carrying [0xAAAA] and one
    begin-programming opcode, in this order, and then answer with the
    frame of status [0x00] and length 0; the session is active
    afterwards and the input is left after the request. *)
Theorem write_page_end_to_end (req : proto_request_t) (w : World)
    (rest : list Z) :
  length (payload req) = Z.to_nat PROTO_MAX_PAYLOAD ->
  frame CMD_WRITE_PAGE ([0; 0; 0; 0] ++ repeat 0xAA 128)
    = [0x03; 132; 0] ++ [0; 0; 0; 0] ++ repeat 0xAA 128
        ++ [proto_crc8 ([0x03; 132; 0] ++ [0; 0; 0; 0] ++ repeat 0xAA 128)
              135]
  /\ main_iteration req
       (set_stdin
          (frame CMD_WRITE_PAGE ([0; 0; 0; 0] ++ repeat 0xAA 128) ++ rest) w)
    = Some (mk_request CMD_WRITE_PAGE 132
              (([0; 0; 0; 0] ++ repeat 0xAA 128) ++ drop 132 (payload req)),
            set_stdin rest (set_lvp_active true w),
            [Ev_gpio_put PICO_DEFAULT_LED_PIN true]
              ++ enter_lvp_events w
              ++ [load_pc 0; opcode_only ICSP_COMMAND_PAGE_ERASE;
                  Ev_sleep_ms 11]
              ++ repeat (load_data ICSP_COMMAND_LOAD_DATA_INCPC 0xAAAA) 63
              ++ [load_data ICSP_COMMAND_LOAD_DATA 0xAAAA;
                  opcode_only ICSP_COMMAND_BEGIN_PROG_INT; Ev_sleep_ms 3]
              ++ (Ev_putchar <$> [0x00; 0; 0; proto_crc8 [0x00; 0; 0] 3])
              ++ [Ev_stdio_flush; Ev_gpio_put PICO_DEFAULT_LED_PIN false]).
Proof.
  intros Hroom. split; [reflexivity|].
  set (pl := [0; 0; 0; 0] ++ repeat 0xAA 128).
  assert (Hpl : Forall is_u8 pl).
  { unfold pl. apply Forall_app. split.
    - repeat constructor; unfold is_u8; lia.
    - apply List.Forall_forall. intros x Hx. apply repeat_spec in Hx.
      subst. unfold is_u8. lia. }
  unfold main_iteration.
  rewrite (bind_run _ _ _ _ _ _
             (read_request_ok req
                (set_stdin (frame CMD_WRITE_PAGE pl ++ rest) w)
                CMD_WRITE_PAGE pl rest
                ltac:(unfold is_u8, CMD_WRITE_PAGE; lia) Hpl
                ltac:(vm_compute; discriminate)
                ltac:(rewrite Hroom; apply Nat.leb_le; reflexivity)
                eq_refl)).
  cbn [fst snd negb]. unfold gpio_put.
  rewrite (bind_emits _ _ _ _ _ (emits_emit _)).
  unfold dispatch. cbn [cmd].
  change (CMD_WRITE_PAGE =? CMD_DIAG) with false.
  change (CMD_WRITE_PAGE =? CMD_ERASE) with false.
  change (CMD_WRITE_PAGE =? CMD_WRITE_PAGE) with true. cbv iota.
  change (Z.of_nat (length pl)) with 132.
  change (length pl) with 132%nat.
  rewrite (bind_run _ _ _ _ _ _ (write_page_row_run _ _)).
  rewrite (bind_emits _ _ _ _ _ (emits_emit _)).
  unfold ret, prepend, enter_lvp_events. cbn [lvp_active set_stdin].
  rewrite !app_nil_l, <- !app_assoc. reflexivity.
Qed.

(** ** Oversized requests *)

Lemma drain_loop_exact junk : forall i bound rest,
  0 <= i ->
  bound <= 65535 ->
  Z.of_nat (length junk) = bound - i ->
  drain_loop (junk ++ rest) i bound = Some rest.
Proof.
  induction junk as [|x junk IH]; intros i bound rest Hi Hbound Hlen.
  - cbn [length] in Hlen. cbn [app].
    replace (drain_loop rest i bound) with (Some rest); [reflexivity|].
    destruct rest; cbn [drain_loop];
      now replace (i <? bound) with false by (symmetry; apply Z.ltb_ge; lia).
  - cbn [length] in Hlen. cbn [app drain_loop].
    replace (i <? bound) with true by (symmetry; apply Z.ltb_lt; lia).
    rewrite to_u16_id by (unfold is_u16; lia).
    apply IH; lia.
Qed.

Lemma drain_loop_wraps input : forall i,
  0 <= i < 65536 -> drain_loop input i 65536 = None.
Proof.
  induction input as [|x input IH]; intros i Hi; cbn [drain_loop];
    replace (i <? 65536) with true by (symmetry; apply Z.ltb_lt; lia);
    [reflexivity|].
  apply IH. pose proof (to_u16_range (i + 1)) as H. unfold is_u16 in H. lia.
Qed.

(** [drain] is the loop of the source: while the counter is under the
    bound, one call of [getchar], then the same with the counter
    incremented in 16 bits. *)
Lemma drain_step i bound w :
  drain i bound w
    = (if i <? bound then getchar ;; drain (to_u16 (i + 1)) bound
       else ret tt) w.
Proof.
  unfold drain at 1. destruct (stdin w) as [|c rest] eqn:Hin.
  - cbn [drain_loop]. destruct (i <? bound).
    + unfold bind, getchar. now rewrite Hin.
    + unfold ret. destruct w; cbn in *. now subst.
  - cbn [drain_loop]. destruct (i <? bound).
    + rewrite (bind_getchar _ w c rest Hin). unfold drain.
      cbn [stdin set_stdin]. now destruct (drain_loop rest _ bound).
    + unfold ret. destruct w; cbn in *. now subst.
Qed.

(** A request whose length field is over the maximum, but under 65535:
    the [n + 1] results of [getchar] after the header are dropped, the
    call fails without an answer, the payload buffer is not written and
    the input is left where the next frame starts. *)
Lemma oversized_request_dropped (req : proto_request_t) (w : World)
    (c n : Z) (junk rest : list Z) :
  is_u8 c ->
  PROTO_MAX_PAYLOAD < n < 65535 ->
  Z.of_nat (length junk) = n + 1 ->
  proto_read_request req
    (set_stdin ([c; n mod 256; n / 256] ++ junk ++ rest) w)
  = Some ((false, mk_request c 0 (payload req)), set_stdin rest w, []).
Proof.
  unfold PROTO_MAX_PAYLOAD. intros Hc Hn Hjunk.
  unfold proto_read_request.
  rewrite (bind_getchar _ _ c ([n mod 256; n / 256] ++ junk ++ rest))
    by reflexivity.
  replace ((c =? PICO_ERROR_TIMEOUT) || (c <? 0)) with false.
  2:{ symmetry. apply orb_false_iff. unfold is_u8 in Hc.
      split; [apply Z.eqb_neq|apply Z.ltb_ge]; lia. }
  cbv zeta.
  rewrite (bind_getchar _ _ (n mod 256) ([n / 256] ++ junk ++ rest))
    by reflexivity.
  rewrite (bind_getchar _ _ (n / 256) (junk ++ rest)) by reflexivity.
  assert (Hlo : 0 <= n mod 256 < 256) by (apply Z.mod_pos_bound; lia).
  assert (Hhi : 0 <= n / 256 < 256).
  { split; [apply Z.div_pos; lia|apply Z.div_lt_upper_bound; lia]. }
  replace ((n mod 256 <? 0) || (n / 256 <? 0)) with false.
  2:{ symmetry. apply orb_false_iff. split; apply Z.ltb_ge; lia. }
  cbn [len set_len set_cmd cmd payload].
  rewrite length_field_decode by lia.
  replace (PROTO_MAX_PAYLOAD <? n) with true
    by (symmetry; apply Z.ltb_lt; unfold PROTO_MAX_PAYLOAD; lia).
  unfold bind, drain. cbn [stdin set_stdin].
  rewrite (drain_loop_exact junk 0 (n + 1) rest) by lia.
  unfold ret. rewrite to_u8_id by assumption. reflexivity.
Qed.

(** After such a request the next well formed frame is read as if the
    oversized one had not been there. *)
Lemma oversized_then_next_request (req : proto_request_t) (w : World)
    (c n : Z) (junk : list Z) (tag : Z) (pl rest : list Z) :
  is_u8 c ->
  PROTO_MAX_PAYLOAD < n < 65535 ->
  Z.of_nat (length junk) = n + 1 ->
  is_u8 tag ->
  Forall is_u8 pl ->
  Z.of_nat (length pl) <= PROTO_MAX_PAYLOAD ->
  (length pl <= length (payload req))%nat ->
  (r <- proto_read_request req ;; proto_read_request (snd r))
    (set_stdin ([c; n mod 256; n / 256] ++ junk ++ frame tag pl ++ rest) w)
  = Some ((true,
           mk_request tag (Z.of_nat (length pl))
             (pl ++ drop (length pl) (payload req))),
          set_stdin rest w, []).
Proof.
  intros Hc Hn Hjunk Htag Hpl Hmax Hroom.
  rewrite (bind_run _ _ _ _ _ _
             (oversized_request_dropped req w c n junk
                (frame tag pl ++ rest) Hc Hn Hjunk)).
  cbn [snd prepend app].
  now rewrite (read_request_ok (mk_request c 0 (payload req))
                 (set_stdin (frame tag pl ++ rest) w) tag pl rest
                 Htag Hpl Hmax Hroom eq_refl).
Qed.

(** C6: at the length field 65535 the counter of the drain loop, a
    [uint16_t], never reaches the bound 65536: whatever follows the
    header and however long it is, [proto_read_request] takes all of it
    and does not return. *)
Theorem oversized_length_65535_never_returns (req : proto_request_t)
    (w : World) (c : Z) (rest : list Z) :
  is_u8 c ->
  proto_read_request req (set_stdin (c :: 0xFF :: 0xFF :: rest) w) = None.
Proof.
  intros Hc. unfold proto_read_request.
  rewrite (bind_getchar _ _ c (0xFF :: 0xFF :: rest)) by reflexivity.
  replace ((c =? PICO_ERROR_TIMEOUT) || (c <? 0)) with false.
  2:{ symmetry. apply orb_false_iff. unfold is_u8 in Hc.
      split; [apply Z.eqb_neq|apply Z.ltb_ge]; lia. }
  cbv zeta.
  rewrite (bind_getchar _ _ 0xFF (0xFF :: rest)) by reflexivity.
  rewrite (bind_getchar _ _ 0xFF rest) by reflexivity.
  cbn [orb Z.ltb Z.compare len set_len].
  change (to_u16 (Z.lor (to_u16 255) (Z.shiftl (to_u16 255) 8))) with 65535.
  change (PROTO_MAX_PAYLOAD <? 65535) with true. cbv iota.
  apply bind_None. unfold drain. cbn [stdin set_stdin].
  change (65535 + 1) with 65536.
  now rewrite drain_loop_wraps by lia.
Qed.

(** ** Reading words *)

Lemma read_words_total n : forall w,
  exists ws w1 t1,
    read_words n w = Some (ws, w1, t1)
    /\ length ws = n
    /\ lvp_active w1 = lvp_active w
    /\ stdin w1 = stdin w.
Proof.
  induction n as [|n IH]; intros w.
  - exists [], w, []. repeat split; reflexivity.
  - cbn [read_words].
    rewrite (bind_run _ _ _ _ _ _ (read_data_run true w)).
    destruct (IH (read_data_world w)) as (ws & w1 & t1 & Hrun & Hlen & Hact & Hin).
    rewrite (bind_run _ _ _ _ _ _ Hrun). unfold ret. cbn [prepend].
    eexists _, _, _. split; [reflexivity|].
    cbn [length]. rewrite Hlen, Hact, Hin.
    unfold read_data_world. now destruct (dataInPin w =? -1).
Qed.

Lemma read_words_succ n w ws w1 t1 :
  read_words n (read_data_world w) = Some (ws, w1, t1) ->
  read_words (S n) w
    = Some (read_data_value w :: ws, w1, read_data_events true w ++ t1).
Proof.
  intros Hrun. cbn [read_words].
  rewrite (bind_run _ _ _ _ _ _ (read_data_run true w)).
  rewrite (bind_run _ _ _ _ _ _ Hrun). unfold ret. cbn [prepend].
  now rewrite app_nil_r.
Qed.

Lemma for_fold_read {S : Type} (body : Z -> S -> M S)
    (f : Z -> Z -> S -> S) :
  (forall i s w,
     body i s w = (x <- icsp_cmd_read_data true ;; ret (f i x s)) w) ->
  forall n i s w ws w1 t1,
    read_words n w = Some (ws, w1, t1) ->
    for_fold n i body s w = Some (fold_words f i ws s, w1, t1).
Proof.
  intros Hbody. induction n as [|n IH]; intros i s w ws w1 t1 Hrun.
  - cbn in Hrun. now inversion Hrun.
  - destruct (read_words_total n (read_data_world w))
      as (ws' & w1' & t1' & Hrun' & _).
    rewrite (read_words_succ n w ws' w1' t1' Hrun') in Hrun.
    inversion Hrun; subst. clear Hrun.
    cbn [for_fold fold_words].
    assert (Hstep : body i s w
                    = Some (f i (read_data_value w) s, read_data_world w,
                            read_data_events true w)).
    { rewrite Hbody, (bind_run _ _ _ _ _ _ (read_data_run true w)).
      unfold ret. cbn [prepend]. now rewrite app_nil_r. }
    rewrite (bind_run _ _ _ _ _ _ Hstep).
    now rewrite (IH (i + 1) _ _ _ _ _ Hrun').
Qed.

Lemma low_byte_spec x : to_u8 (Z.land x 0xFF) = low_byte x.
Proof.
  unfold low_byte. change 255 with (Z.ones 8). rewrite Z.land_ones by lia.
  apply to_u8_id. unfold is_u8. apply Z.mod_pos_bound. lia.
Qed.

Lemma high_byte_spec x : to_u8 (Z.land (Z.shiftr x 8) 0xFF) = high_byte x.
Proof.
  unfold high_byte. change 255 with (Z.ones 8).
  rewrite Z.land_ones, Z.shiftr_div_pow2 by lia.
  apply to_u8_id. unfold is_u8. apply Z.mod_pos_bound. lia.
Qed.

Lemma fold_store_low ws : forall i done todo,
  0 <= i ->
  length done = Z.to_nat i ->
  (length ws <= length todo)%nat ->
  fold_words store_low i ws (done ++ todo)
    = done ++ (low_byte <$> ws) ++ drop (length ws) todo.
Proof.
  induction ws as [|x ws IH]; intros i done todo Hi Hdone Htodo.
  - now rewrite drop_0.
  - destruct todo as [|y todo]; [simpl in Htodo; lia|].
    cbn [fold_words length fmap list_fmap drop]. unfold store_low at 2.
    rewrite <- Hdone, insert_middle, low_byte_spec.
    change (done ++ low_byte x :: todo)
      with (done ++ [low_byte x] ++ todo).
    rewrite app_assoc.
    rewrite IH; [now rewrite <- app_assoc| lia | | simpl in Htodo; lia].
    rewrite length_app. simpl. lia.
Qed.

Lemma fold_store_word read_len ws : forall i done todo,
  0 <= i ->
  length done = Z.to_nat (i * 2) ->
  Z.of_nat (length ws) = (read_len - i * 2 + 1) / 2 ->
  i * 2 <= read_len ->
  read_len <= Z.of_nat (length done + length todo) ->
  fold_words (store_word read_len) i ws (done ++ todo)
    = done ++ take (Z.to_nat (read_len - i * 2)) (flat_map unpack_word ws)
        ++ drop (Z.to_nat (read_len - i * 2)) todo.
Proof.
  induction ws as [|x ws IH]; intros i done todo Hi Hdone Hws Hle Hroom.
  - cbn [length] in Hws. cbn [fold_words flat_map].
    pose proof (Z.div_mod (read_len - i * 2 + 1) 2 ltac:(lia)) as Hdm.
    pose proof (Z.mod_pos_bound (read_len - i * 2 + 1) 2 ltac:(lia)) as Hmb.
    replace (Z.to_nat (read_len - i * 2)) with 0%nat by lia.
    now rewrite take_nil, drop_0.
  - cbn [length] in Hws. rewrite Nat2Z.inj_succ in Hws.
    pose proof (Z.div_mod (read_len - i * 2 + 1) 2 ltac:(lia)) as Hdm.
    pose proof (Z.mod_pos_bound (read_len - i * 2 + 1) 2 ltac:(lia)) as Hmb.
    assert (Hpos : 1 <= read_len - i * 2) by lia.
    destruct todo as [|y todo];
      [simpl in Hroom; lia|].
    cbn [fold_words flat_map]. unfold store_word at 2.
    destruct (Z.ltb_spec (i * 2 + 1) read_len) as [Hlt|Hge].
    + destruct todo as [|z todo];
        [simpl in Hroom; lia|].
      rewrite <- Hdone, insert_middle.
      replace (Z.to_nat (i * 2 + 1)) with (length (done ++ [low_byte x]))
        by (rewrite length_app; simpl; lia).
      rewrite high_byte_spec, low_byte_spec.
      change (done ++ low_byte x :: z :: todo)
        with (done ++ [low_byte x] ++ z :: todo).
      rewrite app_assoc, insert_middle.
      change ((done ++ [low_byte x]) ++ high_byte x :: todo)
        with ((done ++ [low_byte x]) ++ [high_byte x] ++ todo).
      rewrite app_assoc.
      rewrite IH; try lia.
      * rewrite <- !app_assoc. f_equal.
        replace (Z.to_nat (read_len - i * 2))
          with (S (S (Z.to_nat (read_len - (i + 1) * 2)))) by lia.
        reflexivity.
      * rewrite !length_app. simpl. lia.
      * replace (read_len - (i + 1) * 2 + 1)
          with (read_len - i * 2 + 1 + (-1) * 2) by lia.
        rewrite Z.div_add by lia. lia.
      * rewrite !length_app. simpl in *. lia.
    + assert (Hm : read_len - i * 2 = 1) by lia.
      assert (Hnil : ws = []).
      { apply nil_length_inv. lia. }
      subst ws. cbn [fold_words flat_map].
      rewrite <- Hdone, insert_middle, low_byte_spec, Hm.
      reflexivity.
Qed.

Lemma read_words_facts n w ws w1 t1 :
  read_words n w = Some (ws, w1, t1) ->
  length ws = n /\ lvp_active w1 = lvp_active w /\ stdin w1 = stdin w.
Proof.
  intros Hrun.
  destruct (read_words_total n w) as (ws' & w1' & t1' & Hrun' & Hfacts).
  rewrite Hrun in Hrun'. now inversion Hrun'; subst.
Qed.

Lemma read_word_into_store read_len i buf w :
  read_word_into read_len i buf w
    = (x <- icsp_cmd_read_data true ;; ret (store_word read_len i x buf)) w.
Proof.
  unfold read_word_into, store_word.
  rewrite !(bind_run _ _ _ _ _ _ (read_data_run true w)).
  now destruct (i * 2 + 1 <? read_len).
Qed.

Lemma flat_map_unpack_length ws :
  length (flat_map unpack_word ws) = (2 * length ws)%nat.
Proof.
  induction ws as [|x ws IH]; [reflexivity|].
  cbn [flat_map unpack_word app length]. rewrite IH. lia.
Qed.

Lemma read_response_length addr read_len ws :
  0 <= read_len ->
  length ws = Z.to_nat (read_count addr read_len) ->
  length (read_response addr read_len ws) = Z.to_nat read_len.
Proof.
  unfold read_count, read_response. intros Hn Hws.
  pose proof (Z.div_mod (read_len + 1) 2 ltac:(lia)) as Hdm.
  pose proof (Z.mod_pos_bound (read_len + 1) 2 ltac:(lia)) as Hmb.
  destruct (0x310000 <=? addr).
  - now rewrite length_fmap.
  - rewrite length_take, flat_map_unpack_length, Hws. lia.
Qed.

(** What [handle_read] does with an accepted request, given the words
    the target returns. *)
Lemma handle_read_run req w ws w1 t1 :
  6 <= len req ->
  proto_get_u16 (drop 4 (payload req)) <= PROTO_MAX_PAYLOAD ->
  read_words
    (Z.to_nat (read_count (proto_get_u32 (payload req))
                 (proto_get_u16 (drop 4 (payload req)))))
    (set_lvp_active true w) = Some (ws, w1, t1) ->
  handle_read req w
    = Some (tt, w1,
            enter_lvp_events w
              ++ [sent ICSP_COMMAND_LOAD_PC
                    (to_int (proto_get_u32 (payload req)))]
              ++ t1
              ++ response_events STATUS_OK
                   (read_response (proto_get_u32 (payload req))
                      (proto_get_u16 (drop 4 (payload req))) ws)).
Proof.
  intros Hlen Hmax Hrun. unfold handle_read.
  set (addr := proto_get_u32 (payload req)) in *.
  set (n := proto_get_u16 (drop 4 (payload req))) in *.
  assert (Hn : 0 <= n < 65536) by apply to_u16_range.
  replace (len req <? 6) with false by (symmetry; apply Z.ltb_ge; lia).
  replace (PROTO_MAX_PAYLOAD <? n) with false
    by (symmetry; apply Z.ltb_ge; lia).
  unfold PROTO_MAX_PAYLOAD in *.
  destruct (read_words_facts _ _ _ _ _ Hrun) as (Hws & _ & _).
  pose proof (read_response_length addr n ws ltac:(lia) Hws) as Hresp.
  pose proof (uninitialized_length (Z.to_nat 256)) as Hu.
  set (buf := uninitialized (Z.to_nat 256)) in *.
  pose proof (Z.div_mod (n + 1) 2 ltac:(lia)) as Hdm.
  pose proof (Z.mod_pos_bound (n + 1) 2 ltac:(lia)) as Hmb.
  rewrite (bind_run _ _ _ _ _ _ (enter_lvp_run w)).
  unfold read_count, read_response in *.
  destruct (0x310000 <=? addr).
  - assert (H8 : icsp_read_data_8bit (to_int addr) buf n
                   (set_lvp_active true w)
                 = Some (fold_words store_low 0 ws buf, w1,
                         [sent ICSP_COMMAND_LOAD_PC (to_int addr)] ++ t1)).
    { unfold icsp_read_data_8bit.
      rewrite (bind_emits _ _ _ _ _ (emits_loadpc _)).
      now rewrite (for_fold_read _ store_low (fun _ _ _ => eq_refl)
                     _ _ _ _ _ _ _ Hrun). }
    rewrite (bind_run _ _ _ _ _ _ H8).
    change buf with ([] ++ buf) at 1.
    rewrite (fold_store_low ws 0 [] buf) by (simpl; lia).
    cbn [app prepend].
    rewrite (send_response_payload STATUS_OK _ n);
      [| unfold PROTO_MAX_PAYLOAD; lia
       | rewrite length_app, length_fmap, length_drop; lia ].
    replace (take (Z.to_nat n) ((low_byte <$> ws) ++ drop (length ws) buf))
      with (low_byte <$> ws)
      by (symmetry; apply take_app_length'; rewrite length_fmap; lia).
    cbn [prepend]. reflexivity.
  - rewrite to_u16_id by (unfold is_u16; lia).
    assert (H16 : (icsp_cmd_loadpc (to_int addr) ;;
                   for_fold (Z.to_nat ((n + 1) / 2)) 0 (read_word_into n) buf)
                    (set_lvp_active true w)
                  = Some (fold_words (store_word n) 0 ws buf, w1,
                          [sent ICSP_COMMAND_LOAD_PC (to_int addr)] ++ t1)).
    { rewrite (bind_emits _ _ _ _ _ (emits_loadpc _)).
      now rewrite (for_fold_read _ (store_word n) (read_word_into_store n)
                     _ _ _ _ _ _ _ Hrun). }
    rewrite (bind_run _ _ _ _ _ _ H16).
    change buf with ([] ++ buf) at 1.
    rewrite (fold_store_word n ws 0 [] buf); try (simpl; lia).
    2:{ change (0 * 2) with 0. rewrite Z.sub_0_r, Hws. lia. }
    cbn [app prepend]. change (0 * 2) with 0. rewrite Z.sub_0_r.
    rewrite (send_response_payload STATUS_OK _ n);
      [| unfold PROTO_MAX_PAYLOAD; lia
       | rewrite length_app, Hresp, length_drop; lia ].
    replace (take (Z.to_nat n)
               (take (Z.to_nat n) (flat_map unpack_word ws)
                  ++ drop (Z.to_nat n) buf))
      with (take (Z.to_nat n) (flat_map unpack_word ws))
      by (symmetry; apply take_app_length'; lia).
    cbn [prepend]. reflexivity.
Qed.

Lemma take_flat_map_unpack_odd ws x :
  take (S (2 * length ws)) (flat_map unpack_word (ws ++ [x]))
    = flat_map unpack_word ws ++ [low_byte x].
Proof.
  rewrite flat_map_app. cbn [flat_map unpack_word app].
  rewrite take_app_ge by (rewrite flat_map_unpack_length; lia).
  rewrite flat_map_unpack_length.
  now replace (S (2 * length ws) - 2 * length ws)%nat with 1%nat by lia.
Qed.

(** C8: an accepted READ request (at least 6 payload bytes, at most 256
    bytes asked for) is answered with status OK and exactly as many
    bytes as asked for.  From the address [0x310000] on the handler
    reads one word for each byte and answers with the low bytes; below
    it reads [ceil(read_len/2)] words and answers with their bytes, low
    byte first, and the last byte of an odd length is the low byte of
    the last word. *)
Theorem read_unpacks_words (req : proto_request_t) (w : World) :
  6 <= len req ->
  proto_get_u16 (drop 4 (payload req)) <= PROTO_MAX_PAYLOAD ->
  exists ws w1 t1,
    read_words
      (Z.to_nat (read_count (proto_get_u32 (payload req))
                   (proto_get_u16 (drop 4 (payload req)))))
      (set_lvp_active true w) = Some (ws, w1, t1)
    /\ Z.of_nat (length ws)
       = (if 0x310000 <=? proto_get_u32 (payload req)
          then proto_get_u16 (drop 4 (payload req))
          else (proto_get_u16 (drop 4 (payload req)) + 1) / 2)
    /\ handle_read req w
       = Some (tt, w1,
               enter_lvp_events w
                 ++ [sent ICSP_COMMAND_LOAD_PC
                       (to_int (proto_get_u32 (payload req)))]
                 ++ t1
                 ++ response_events STATUS_OK
                      (read_response (proto_get_u32 (payload req))
                         (proto_get_u16 (drop 4 (payload req))) ws))
    /\ Z.of_nat (length (read_response (proto_get_u32 (payload req))
                           (proto_get_u16 (drop 4 (payload req))) ws))
       = proto_get_u16 (drop 4 (payload req))
    /\ (0x310000 <= proto_get_u32 (payload req) ->
        read_response (proto_get_u32 (payload req))
          (proto_get_u16 (drop 4 (payload req))) ws
        = low_byte <$> ws)
    /\ (proto_get_u32 (payload req) < 0x310000 ->
        Z.even (proto_get_u16 (drop 4 (payload req))) = true ->
        read_response (proto_get_u32 (payload req))
          (proto_get_u16 (drop 4 (payload req))) ws
        = flat_map unpack_word ws)
    /\ (proto_get_u32 (payload req) < 0x310000 ->
        Z.odd (proto_get_u16 (drop 4 (payload req))) = true ->
        exists ws' x,
          ws = ws' ++ [x]
          /\ read_response (proto_get_u32 (payload req))
               (proto_get_u16 (drop 4 (payload req))) ws
             = flat_map unpack_word ws' ++ [low_byte x]).
Proof.
  intros Hlen Hmax.
  set (addr := proto_get_u32 (payload req)) in *.
  set (n := proto_get_u16 (drop 4 (payload req))) in *.
  assert (Hn : 0 <= n < 65536) by apply to_u16_range.
  destruct (read_words_total (Z.to_nat (read_count addr n))
              (set_lvp_active true w)) as (ws & w1 & t1 & Hrun & Hws & _).
  pose proof (Z.div_mod (n + 1) 2 ltac:(lia)) as Hdm.
  pose proof (Z.mod_pos_bound (n + 1) 2 ltac:(lia)) as Hmb.
  exists ws, w1, t1. split; [exact Hrun|]. split; [|split; [|split]].
  - rewrite Hws. unfold read_count. destruct (0x310000 <=? addr); lia.
  - now apply handle_read_run.
  - rewrite read_response_length by (assumption || lia). lia.
  - unfold read_response, read_count in *. split; [|split].
    + intros Ha. apply Z.leb_le in Ha. now rewrite Ha.
    + intros Ha Heven. apply Z.leb_gt in Ha. rewrite Ha in *.
      apply take_ge. rewrite flat_map_unpack_length, Hws.
      rewrite Zeven_mod in Heven. apply Z.eqb_eq in Heven.
      pose proof (Z.div_mod n 2 ltac:(lia)). lia.
    + intros Ha Hodd. apply Z.leb_gt in Ha. rewrite Ha in *.
      rewrite Zodd_mod in Hodd. apply Z.eqb_eq in Hodd.
      pose proof (Z.div_mod n 2 ltac:(lia)) as Hdn.
      destruct (exists_last (l := ws)) as (ws' & x & ->).
      { intros ->. simpl in Hws. lia. }
      exists ws', x. split; [reflexivity|].
      rewrite length_app in Hws. simpl in Hws.
      replace (Z.to_nat n) with (S (2 * length ws')) by lia.
      apply take_flat_map_unpack_odd.
Qed.

(** ** The session after a command *)

Lemma emits_write_data value :
  emits (icsp_cmd_write_data value true) tt
    [load_data ICSP_COMMAND_LOAD_DATA_INCPC (to_u16 value);
     opcode_only ICSP_COMMAND_BEGIN_PROG_INT; Ev_sleep_us 75].
Proof.
  unfold icsp_cmd_write_data.
  apply (emits_step _ _ tt);
    [apply (emits_load_data ICSP_COMMAND_LOAD_DATA_INCPC), to_u16_range|].
  apply (emits_step _ _ tt);
    [apply (emits_opcode_only ICSP_COMMAND_BEGIN_PROG_INT)|].
  now intros w.
Qed.

Lemma program_page_8bit_run addr data size :
  emits (icsp_program_page_8bit addr data size false) size
    (sent ICSP_COMMAND_LOAD_PC addr
       :: flat_map (fun i => byte_write (to_u16 (data !!! Z.to_nat i)))
            (zseq 0 (Z.to_nat size))).
Proof.
  unfold icsp_program_page_8bit.
  apply (emits_step _ _ tt); [apply emits_loadpc|].
  apply (emits_bind_nil_l _ _ tt); [apply emits_ret|].
  apply (emits_bind_nil_r _ _ tt); [|apply emits_ret].
  apply emits_for_loop. intros i. unfold byte_write.
  change [load_data ICSP_COMMAND_LOAD_DATA_INCPC (to_u16 (data !!! Z.to_nat i));
          opcode_only ICSP_COMMAND_BEGIN_PROG_INT; Ev_sleep_us 75;
          Ev_sleep_ms 11]
    with ([load_data ICSP_COMMAND_LOAD_DATA_INCPC
             (to_u16 (data !!! Z.to_nat i));
           opcode_only ICSP_COMMAND_BEGIN_PROG_INT; Ev_sleep_us 75]
            ++ [Ev_sleep_ms 11]).
  apply (emits_bind _ _ tt _ tt); [apply emits_write_data|].
  apply emits_sleep_ms.
Qed.

Lemma handle_write_config_run req w :
  6 <= len req ->
  6 + proto_get_u16 (drop 4 (payload req)) <= len req ->
  handle_write_config req w
    = Some (tt, set_lvp_active true w,
            enter_lvp_events w
              ++ program_config_events (to_int (proto_get_u32 (payload req)))
                   (drop 6 (payload req))
                   (proto_get_u16 (drop 4 (payload req)))
              ++ response_events STATUS_OK []).
Proof.
  intros Hlen Hfit. unfold handle_write_config.
  replace (len req <? 6) with false by (symmetry; apply Z.ltb_ge; lia).
  replace (len req <? 6 + proto_get_u16 (drop 4 (payload req))) with false
    by (symmetry; apply Z.ltb_ge; lia).
  rewrite (bind_run _ _ _ _ _ _ (enter_lvp_run w)).
  assert (Hpos : 0 <= proto_get_u16 (drop 4 (payload req)))
    by apply to_u16_range.
  rewrite (bind_emits _ _ _ _ _ (program_config_run _ _ _ Hpos)).
  unfold proto_send_ok. rewrite send_response_empty.
  reflexivity.
Qed.

Lemma handle_write_eeprom_run req w :
  6 <= len req ->
  6 + proto_get_u16 (drop 4 (payload req)) <= len req ->
  handle_write_eeprom req w
    = Some (tt, set_lvp_active true w,
            enter_lvp_events w
              ++ (sent ICSP_COMMAND_LOAD_PC
                    (to_int (proto_get_u32 (payload req)))
                    :: flat_map
                         (fun i =>
                            byte_write
                              (to_u16 (drop 6 (payload req) !!! Z.to_nat i)))
                         (zseq 0
                            (Z.to_nat
                               (proto_get_u16 (drop 4 (payload req))))))
              ++ response_events STATUS_OK []).
Proof.
  intros Hlen Hfit. unfold handle_write_eeprom.
  replace (len req <? 6) with false by (symmetry; apply Z.ltb_ge; lia).
  replace (len req <? 6 + proto_get_u16 (drop 4 (payload req))) with false
    by (symmetry; apply Z.ltb_ge; lia).
  rewrite (bind_run _ _ _ _ _ _ (enter_lvp_run w)).
  rewrite (bind_emits _ _ _ _ _ (program_page_8bit_run _ _ _)).
  unfold proto_send_ok. rewrite send_response_empty.
  reflexivity.
Qed.

(** C10: when the parser has accepted a WRITE_CONFIG or WRITE_EEPROM
    request whose declared length fits its payload, or a READ request
    for at most 256 bytes, the turn of the main loop answers with status
    OK and ends with the LVP session active, whatever it was before:
    the handlers enter LVP and do not leave it, so the next command
    starts in an active session. *)
Theorem session_stays_active (req0 req : proto_request_t) (w0 w : World)
    (t0 : list event) :
  proto_read_request req0 w0 = Some ((true, req), w, t0) ->
  6 <= len req ->
  ((cmd req = CMD_WRITE_CONFIG \/ cmd req = CMD_WRITE_EEPROM)
   /\ 6 + proto_get_u16 (drop 4 (payload req)) <= len req)
  \/ (cmd req = CMD_READ
      /\ proto_get_u16 (drop 4 (payload req)) <= PROTO_MAX_PAYLOAD) ->
  exists w' t answer,
    main_iteration req0 w0
      = Some (req, w',
              t0 ++ [Ev_gpio_put PICO_DEFAULT_LED_PIN true]
                 ++ enter_lvp_events w ++ t
                 ++ response_events STATUS_OK answer
                 ++ [Ev_gpio_put PICO_DEFAULT_LED_PIN false])
    /\ lvp_active w' = true
    /\ stdin w' = stdin w
    /\ icsp_enter_lvp w' = Some (tt, w', []).
Proof.
  intros Hparse Hlen Hcmd.
  assert (Hdispatch : exists w' t answer,
            dispatch req w
              = Some (tt, w',
                      enter_lvp_events w ++ t
                        ++ response_events STATUS_OK answer)
            /\ lvp_active w' = true /\ stdin w' = stdin w).
  { unfold dispatch.
    destruct Hcmd as [[[Hc|Hc] Hfit]|[Hc Hmax]]; rewrite Hc.
    - exists (set_lvp_active true w). eexists _, _.
      split; [now apply handle_write_config_run|]. now split.
    - exists (set_lvp_active true w). eexists _, _.
      split; [now apply handle_write_eeprom_run|]. now split.
    - destruct (read_words_total
                  (Z.to_nat (read_count (proto_get_u32 (payload req))
                               (proto_get_u16 (drop 4 (payload req)))))
                  (set_lvp_active true w))
        as (ws & w1 & t1 & Hrun & _ & Hact & Hin).
      exists w1,
        ([sent ICSP_COMMAND_LOAD_PC (to_int (proto_get_u32 (payload req)))]
           ++ t1),
        (read_response (proto_get_u32 (payload req))
           (proto_get_u16 (drop 4 (payload req))) ws).
      split; [|now split].
      change (CMD_READ =? CMD_DIAG) with false.
      change (CMD_READ =? CMD_ERASE) with false.
      change (CMD_READ =? CMD_WRITE_PAGE) with false.
      change (CMD_READ =? CMD_WRITE_CONFIG) with false.
      change (CMD_READ =? CMD_WRITE_EEPROM) with false.
      change (CMD_READ =? CMD_READ) with true. cbv iota.
      rewrite (handle_read_run req w ws w1 t1 Hlen Hmax Hrun).
      now rewrite <- app_assoc. }
  destruct Hdispatch as (w' & t & answer & Hrun & Hact & Hin).
  exists w', t, answer. unfold main_iteration.
  rewrite (bind_run _ _ _ _ _ _ Hparse). cbn [fst snd negb].
  unfold gpio_put.
  rewrite (bind_emits _ _ _ _ _ (emits_emit _)).
  rewrite (bind_run _ _ _ _ _ _ Hrun).
  rewrite (bind_emits _ _ _ _ _ (emits_emit _)).
  unfold ret. cbn [prepend]. rewrite app_nil_r, <- !app_assoc.
  repeat split; try assumption.
  rewrite enter_lvp_run. unfold enter_lvp_events. rewrite Hact.
  now rewrite <- Hact, set_lvp_active_same.
Qed.

(** ** The device table *)

Lemma target_lookup_masks (d d' : Z) (table : list target_info_t) :
  Forall (fun t => Z.land 0xFFE0 (mask t) = mask t) table ->
  Z.land d 0xFFE0 = Z.land d' 0xFFE0 ->
  target_lookup d table = target_lookup d' table.
Proof.
  intros Hmasks Hd. induction Hmasks as [|t table Ht _ IH]; [reflexivity|].
  cbn [target_lookup].
  rewrite <- Ht, !Z.land_assoc, Hd, IH. reflexivity.
Qed.

Lemma target_masks :
  Forall (fun t => Z.land 0xFFE0 (mask t) = mask t) targets.
Proof. unfold targets. repeat constructor. Qed.

Lemma high_byte_mask d : Z.land d 0xFF00 = 256 * ((d / 256) mod 256).
Proof.
  change 256 with (2 ^ 8) at 1 2. rewrite <- Z.shiftr_div_pow2 by lia.
  change (2 ^ 8 * (Z.shiftr d 8 mod 256))
    with (2 ^ 8 * (Z.shiftr d 8 mod 2 ^ 8)).
  rewrite <- Z.land_ones by lia.
  rewrite Z.mul_comm, <- Z.shiftl_mul_pow2 by lia.
  apply Z.bits_inj'. intros i Hi.
  rewrite Z.land_spec.
  destruct (Z.ltb_spec i 8) as [Hlt|Hge].
  - rewrite Z.shiftl_spec_low by lia.
    change 65280 with (Z.shiftl 255 8). rewrite Z.shiftl_spec_low by lia.
    apply andb_false_r.
  - rewrite Z.shiftl_spec by lia. rewrite Z.land_spec.
    rewrite Z.shiftr_spec by lia. replace (i - 8 + 8) with i by lia.
    change 65280 with (Z.shiftl (Z.ones 8) 8).
    now rewrite Z.shiftl_spec by lia.
Qed.

(** X1: every device ID whose high byte is 0x6C is reported by the first
    entry of the table, as a PIC18F27K42 with 131072 bytes of flash: the
    mask 0xFF00 of that entry covers the whole family.  The K42 entries
    after it are never reached, so that no device ID at all is reported
    as one of the six other K42 parts of the table. *)
Theorem k42_first_entry_wins (device_id : Z) :
  (device_id / 256 = 0x6C ->
   target_identify device_id = "PIC18F27K42"%string
   /\ target_flash_size device_id = 131072)
  /\ ~ In (target_identify device_id)
         ["PIC18F26K42"; "PIC18F25K42"; "PIC18F24K42"; "PIC18F47K42";
          "PIC18F46K42"; "PIC18F45K42"]%string.
Proof.
  split.
  - intros Hhigh. unfold target_identify, target_flash_size, targets.
    cbn [target_lookup id mask]. rewrite high_byte_mask, Hhigh.
    split; reflexivity.
  - unfold target_identify, targets. cbn [target_lookup id mask].
    change (Z.land 27680 65280) with 27648.
    change (Z.land 27712 65280) with 27648.
    change (Z.land 27648 65280) with 27648.
    change (Z.land 27872 65280) with 27648.
    change (Z.land 27840 65280) with 27648.
    change (Z.land 27808 65280) with 27648.
    change (Z.land 27776 65280) with 27648.
    change (Z.land 27744 65280) with 27648.
    destruct (Z.land device_id 65280 =? 27648);
      [cbn; intuition discriminate|].
    repeat match goal with
           | |- context [if ?c then _ else _] => destruct c
           end;
      cbn; intuition discriminate.
Qed.

(** X2: the name and the flash size depend on the bits 5 to 15 of the
    device ID only (the five revision bits play no part), and a device
    is reported as "Unknown" exactly when its flash size is given
    as 0. *)
Theorem target_lookup_consistent (d d' : Z) :
  (Z.land d 0xFFE0 = Z.land d' 0xFFE0 ->
   target_identify d = target_identify d'
   /\ target_flash_size d = target_flash_size d')
  /\ (target_flash_size d = 0 <-> target_identify d = "Unknown"%string).
Proof.
  split.
  - intros Hd. unfold target_identify, target_flash_size.
    now rewrite (target_lookup_masks d d' targets target_masks Hd).
  - unfold target_identify, target_flash_size, targets.
    cbn [target_lookup id mask].
    repeat match goal with
           | |- context [if ?c then _ else _] => destruct c
           end;
      cbn; split; intros H; try discriminate H; reflexivity.
Qed.

(** ** Fields of a payload *)

Lemma lor_shiftl_add x y k :
  0 <= k -> 0 <= x < 2 ^ k -> Z.lor x (Z.shiftl y k) = x + 2 ^ k * y.
Proof.
  intros Hk Hx.
  assert (Hdisj : Z.land x (Z.shiftl y k) = 0).
  { apply Z.bits_inj'. intros i Hi. rewrite Z.land_spec, Z.bits_0.
    destruct (Z.ltb_spec i k) as [Hlt|Hge].
    - rewrite Z.shiftl_spec_low by lia. apply andb_false_r.
    - rewrite <- (Z.mod_small x (2 ^ k)) by lia.
      rewrite Z.mod_pow2_bits_high by lia. reflexivity. }
  rewrite <- Z.lxor_lor by exact Hdisj.
  rewrite <- Z.add_nocarry_lxor by exact Hdisj.
  rewrite Z.shiftl_mul_pow2 by lia. lia.
Qed.

Lemma get_u16_bytes b0 b1 rest :
  is_u8 b0 -> is_u8 b1 -> proto_get_u16 (b0 :: b1 :: rest) = b0 + 256 * b1.
Proof.
  unfold is_u8, proto_get_u16. intros H0 H1.
  cbn [lookup_total list_lookup_total].
  rewrite (lor_shiftl_add b0 b1 8) by lia.
  apply to_u16_id. unfold is_u16. change (2 ^ 8) with 256. lia.
Qed.

Lemma get_u32_bytes b0 b1 b2 b3 rest :
  is_u8 b0 -> is_u8 b1 -> is_u8 b2 -> is_u8 b3 ->
  proto_get_u32 (b0 :: b1 :: b2 :: b3 :: rest)
    = b0 + 256 * b1 + 65536 * b2 + 16777216 * b3.
Proof.
  unfold is_u8, proto_get_u32. intros H0 H1 H2 H3.
  cbn [lookup_total list_lookup_total].
  rewrite (lor_shiftl_add b0 b1 8) by lia.
  rewrite (lor_shiftl_add _ b2 16) by (change (2 ^ 8) with 256; lia).
  rewrite (Z.shiftl_mul_pow2 b3 24) by lia.
  unfold to_u32 at 2. rewrite (Z.mod_small (b3 * 2 ^ 24)) by lia.
  rewrite <- (Z.shiftl_mul_pow2 b3 24) by lia.
  rewrite (lor_shiftl_add _ b3 24)
    by (change (2 ^ 8) with 256; change (2 ^ 16) with 65536; lia).
  unfold to_u32. rewrite Z.mod_small; lia.
Qed.

(** X3: [proto_get_u32] and [proto_get_u16] read their field low byte
    first, and give back every 32 bit and 16 bit value that is laid out
    in this order. *)
Theorem payload_fields_little_endian (b0 b1 b2 b3 : Z) (rest : list Z) :
  is_u8 b0 -> is_u8 b1 -> is_u8 b2 -> is_u8 b3 ->
  proto_get_u32 (b0 :: b1 :: b2 :: b3 :: rest)
    = b0 + 256 * b1 + 65536 * b2 + 16777216 * b3
  /\ proto_get_u16 (b0 :: b1 :: rest) = b0 + 256 * b1
  /\ (forall a, 0 <= a < 2 ^ 32 ->
        proto_get_u32
          (a mod 256 :: (a / 256) mod 256 :: (a / 65536) mod 256
             :: a / 16777216 :: rest) = a)
  /\ (forall a, 0 <= a < 2 ^ 16 ->
        proto_get_u16 (a mod 256 :: a / 256 :: rest) = a).
Proof.
  intros H0 H1 H2 H3.
  split; [now apply get_u32_bytes|]. split; [now apply get_u16_bytes|].
  split.
  - intros a Ha. rewrite get_u32_bytes; unfold is_u8;
      try (apply Z.mod_pos_bound; lia).
    + pose proof (Z.div_mod a 256 ltac:(lia)).
      pose proof (Z.div_mod (a / 256) 256 ltac:(lia)).
      pose proof (Z.div_mod (a / 65536) 256 ltac:(lia)).
      replace (a / 65536) with (a / 256 / 256) in *
        by (rewrite Z.div_div by lia; reflexivity).
      replace (a / 16777216) with (a / 256 / 256 / 256)
        by (rewrite !Z.div_div by lia; reflexivity).
      lia.
    + split; [apply Z.div_pos; lia|apply Z.div_lt_upper_bound; lia].
  - intros a Ha. rewrite get_u16_bytes; unfold is_u8;
      try (apply Z.mod_pos_bound; lia).
    + pose proof (Z.div_mod a 256 ltac:(lia)). lia.
    + split; [apply Z.div_pos; lia|apply Z.div_lt_upper_bound; lia].
Qed.

(** ** Frames the parser turns down *)

Lemma bind_inv {A B} (m : M A) (f : A -> M B) w b w2 t :
  (x <- m ;; f x) w = Some (b, w2, t) ->
  exists a w1 t1 t2,
    m w = Some (a, w1, t1) /\ f a w1 = Some (b, w2, t2) /\ t = t1 ++ t2.
Proof.
  unfold bind. destruct (m w) as [[[a w1] t1]|]; [|discriminate].
  destruct (f a w1) as [[[b' w2'] t2]|] eqn:Hf; [|discriminate].
  intros H. inversion H; subst. exists a, w1, t1, t2. auto.
Qed.

Lemma getchar_empty {B} (f : Z -> M B) w :
  stdin w = [] -> (x <- getchar ;; f x) w = None.
Proof. intros H. apply bind_None. unfold getchar. now rewrite H. Qed.

Lemma set_stdin_same w : set_stdin (stdin w) w = w.
Proof. now destruct w. Qed.

(** The parser on a header, a payload and any byte in the place of the
    checksum. *)
Lemma read_request_checked req w tag pl c rest :
  is_u8 tag ->
  Forall is_u8 pl ->
  Z.of_nat (length pl) <= PROTO_MAX_PAYLOAD ->
  (length pl <= length (payload req))%nat ->
  0 <= c ->
  stdin w = frame_body tag pl ++ c :: rest ->
  proto_read_request req w
    = Some ((to_u8 c =? crc8_bytes (frame_body tag pl),
             request_of tag pl req),
            set_stdin rest w,
            if to_u8 c =? crc8_bytes (frame_body tag pl) then []
            else response_events STATUS_ERR_CRC []).
Proof.
  unfold PROTO_MAX_PAYLOAD. intros Htag Hpl Hmax Hroom Hc Hin.
  set (n := Z.of_nat (length pl)) in *.
  assert (Hin' : stdin w = tag :: n mod 256 :: n / 256 :: pl ++ c :: rest).
  { rewrite Hin. unfold frame_body. fold n. reflexivity. }
  clear Hin. unfold proto_read_request.
  rewrite (bind_getchar _ w _ _ Hin').
  replace ((tag =? PICO_ERROR_TIMEOUT) || (tag <? 0)) with false.
  2:{ symmetry. apply orb_false_iff. unfold is_u8 in Htag.
      split; [apply Z.eqb_neq|apply Z.ltb_ge]; lia. }
  cbv zeta.
  rewrite (bind_getchar _ _ (n mod 256) (n / 256 :: pl ++ c :: rest))
    by reflexivity.
  rewrite (bind_getchar _ _ (n / 256) (pl ++ c :: rest)) by reflexivity.
  assert (Hlo : 0 <= n mod 256 < 256) by (apply Z.mod_pos_bound; lia).
  assert (Hhi : 0 <= n / 256 < 256).
  { split; [apply Z.div_pos; lia|apply Z.div_lt_upper_bound; lia]. }
  replace ((n mod 256 <? 0) || (n / 256 <? 0)) with false.
  2:{ symmetry. apply orb_false_iff. split; apply Z.ltb_ge; lia. }
  cbn [len set_len set_cmd cmd payload].
  rewrite length_field_decode by lia.
  replace (PROTO_MAX_PAYLOAD <? n) with false
    by (symmetry; apply Z.ltb_ge; unfold PROTO_MAX_PAYLOAD; lia).
  rewrite !set_stdin_set_stdin.
  unfold n at 1. rewrite Nat2Z.id.
  erewrite bind_run
    by (apply (read_payload_run pl 0 _ _ (c :: rest) Hpl);
        [reflexivity | lia | cbn [payload set_len set_cmd]; lia]).
  cbn [fst snd negb]. rewrite set_stdin_set_stdin.
  rewrite (bind_getchar _ _ c rest) by reflexivity.
  rewrite set_stdin_set_stdin.
  replace (c <? 0) with false by (symmetry; apply Z.ltb_ge; lia).
  change (Z.to_nat 0) with 0%nat.
  cbn [cmd len payload set_payload set_len set_cmd Nat.add].
  rewrite take_0. cbn [app].
  change (Z.to_nat (3 + PROTO_MAX_PAYLOAD)) with 259%nat.
  pose proof (uninitialized_length 259) as Hu.
  destruct (uninitialized 259) as [|u0 [|u1 [|u2 tl]]]; [discriminate..|].
  cbn [length] in Hu. cbn [insert list_insert].
  rewrite len_low_byte, len_high_byte by lia.
  replace (take (Z.to_nat n) (pl ++ drop (length pl) (payload req)))
    with pl by (unfold n; rewrite Nat2Z.id; now rewrite take_app_length).
  rewrite (to_u8_id tag) by assumption.
  change (tag :: n mod 256 :: n / 256 :: tl)
    with ([tag; n mod 256; n / 256] ++ tl).
  change 3%nat with (length [tag; n mod 256; n / 256]) at 1.
  rewrite (list_inserts_middle [tag; n mod 256; n / 256] pl tl) by lia.
  rewrite app_assoc.
  rewrite proto_crc8_bytes by (rewrite !length_app; simpl; lia).
  replace (Z.to_nat (3 + n)) with (length ([tag; n mod 256; n / 256] ++ pl))
    by (rewrite length_app; simpl; lia).
  rewrite take_app_length.
  unfold frame_body. fold n. unfold request_of. fold n.
  destruct (to_u8 c =? crc8_bytes ([tag; n mod 256; n / 256] ++ pl));
    cbn [negb prepend].
  - reflexivity.
  - unfold proto_send_error.
    rewrite (bind_emits _ _ tt _ _ (send_response_empty STATUS_ERR_CRC)).
    cbn [prepend ret]. now rewrite app_nil_r.
Qed.

(** The payload loop when a read fails after the bytes [pre]. *)
Lemma read_payload_abort pre : forall n i req w c rest,
  Forall is_u8 pre ->
  c < 0 ->
  stdin w = pre ++ c :: rest ->
  (length pre < n)%nat ->
  0 <= i ->
  (Z.to_nat i + length pre <= length (payload req))%nat ->
  read_payload_loop n i req w
    = Some ((false,
             set_payload (take (Z.to_nat i) (payload req) ++ pre
                            ++ drop (Z.to_nat i + length pre) (payload req))
               req),
            set_stdin rest w, []).
Proof.
  induction pre as [|b pre IH]; intros n i req w c rest Hbytes Hc Hin Hn Hi Hlen;
    (destruct n as [|n]; [cbn [length] in Hn; lia|]).
  - cbn [length read_payload_loop app]. rewrite Nat.add_0_r, take_drop.
    rewrite (bind_getchar _ w c rest) by exact Hin.
    replace (c <? 0) with true by (symmetry; apply Z.ltb_lt; lia).
    unfold ret. now destruct req.
  - cbn [length read_payload_loop].
    inversion Hbytes as [|? ? Hb Hpre]; subst.
    rewrite (bind_getchar _ w b (pre ++ c :: rest)) by exact Hin.
    replace (b <? 0) with false
      by (symmetry; apply Z.ltb_ge; unfold is_u8 in Hb; lia).
    cbn [length] in Hlen, Hn.
    rewrite (IH n (i + 1) _ _ c rest Hpre Hc);
      cbn [payload set_payload stdin set_stdin]; try reflexivity; try lia.
    2:{ rewrite length_insert. lia. }
    rewrite set_stdin_set_stdin. unfold set_payload. cbn [cmd len payload].
    do 4 f_equal.
    rewrite to_u8_id by assumption.
    replace (Z.to_nat (i + 1)) with (S (Z.to_nat i)) by lia.
    rewrite (insert_take_drop (payload req) (Z.to_nat i) b) by lia.
    set (p := payload req) in *. set (k := Z.to_nat i) in *.
    change (take k p ++ b :: drop (S k) p)
      with (take k p ++ [b] ++ drop (S k) p).
    rewrite (app_assoc (take k p) [b]).
    assert (Hk : length (take k p ++ [b]) = S k)
      by (rewrite length_app, length_take; simpl; lia).
    rewrite take_app_length' by (now rewrite Hk).
    rewrite drop_app_ge by (rewrite Hk; lia).
    rewrite Hk, drop_drop, <- app_assoc.
    cbn [app]. do 5 f_equal. lia.
Qed.

(** X4: a frame whose last byte is not the checksum of the bytes before
    it is answered with the frame of [STATUS_ERR_CRC] and nothing else:
    the input is used up to that byte, the request struct already holds
    the tag, the length and the payload of the frame, and the main loop
    runs no handler and leaves the LED alone. *)
Theorem wrong_checksum_rejected (req : proto_request_t) (w : World)
    (tag : Z) (pl : list Z) (c : Z) (rest : list Z) :
  is_u8 tag ->
  Forall is_u8 pl ->
  Z.of_nat (length pl) <= PROTO_MAX_PAYLOAD ->
  length (payload req) = Z.to_nat PROTO_MAX_PAYLOAD ->
  is_u8 c ->
  c <> proto_crc8 (frame_body tag pl) (Z.of_nat (length (frame_body tag pl))) ->
  proto_read_request req (set_stdin (frame_body tag pl ++ c :: rest) w)
    = Some ((false, request_of tag pl req), set_stdin rest w,
            response_events STATUS_ERR_CRC [])
  /\ main_iteration req (set_stdin (frame_body tag pl ++ c :: rest) w)
    = Some (request_of tag pl req, set_stdin rest w,
            response_events STATUS_ERR_CRC []).
Proof.
  intros Htag Hpl Hmax Hreq Hc Hne.
  assert (Hrun :
    proto_read_request req (set_stdin (frame_body tag pl ++ c :: rest) w)
      = Some ((false, request_of tag pl req), set_stdin rest w,
              response_events STATUS_ERR_CRC [])).
  { rewrite (read_request_checked req _ tag pl c rest Htag Hpl Hmax);
      [| unfold PROTO_MAX_PAYLOAD in *; lia
       | unfold is_u8 in Hc; lia | reflexivity].
    rewrite set_stdin_set_stdin.
    rewrite proto_crc8_all in Hne. rewrite to_u8_id by exact Hc.
    apply Z.eqb_neq in Hne. now rewrite Hne. }
  split; [exact Hrun|].
  unfold main_iteration. rewrite (bind_run _ _ _ _ _ _ Hrun).
  cbn [fst snd negb prepend ret]. now rewrite app_nil_r.
Qed.

(** X5: when [getchar] returns a negative value the parser gives the
    frame up without a word to the host: at the tag nothing else is
    read; at either length byte both length bytes are read and the tag
    is already stored; inside the payload or at the checksum the bytes
    read so far are already in the buffer. *)
Theorem read_error_aborts_silently (req : proto_request_t) (w : World)
    (c : Z) (rest : list Z) :
  c < 0 ->
  proto_read_request req (set_stdin (c :: rest) w)
    = Some ((false, req), set_stdin rest w, [])
  /\ (forall tag x, is_u8 tag ->
        proto_read_request req (set_stdin (tag :: c :: x :: rest) w)
          = Some ((false, set_cmd tag req), set_stdin rest w, [])
        /\ proto_read_request req (set_stdin (tag :: x :: c :: rest) w)
          = Some ((false, set_cmd tag req), set_stdin rest w, []))
  /\ (forall tag n pre,
        is_u8 tag ->
        0 <= n <= PROTO_MAX_PAYLOAD ->
        Forall is_u8 pre ->
        Z.of_nat (length pre) <= n ->
        n <= Z.of_nat (length (payload req)) ->
        proto_read_request req
          (set_stdin (tag :: n mod 256 :: n / 256 :: pre ++ c :: rest) w)
          = Some ((false,
                   mk_request tag n
                     (pre ++ drop (length pre) (payload req))),
                  set_stdin rest w, [])).
Proof.
  intros Hc.
  assert (Hneg : (c <? 0) = true) by (apply Z.ltb_lt; lia).
  split; [|split].
  - unfold proto_read_request.
    rewrite (bind_getchar _ _ c rest) by reflexivity.
    rewrite Hneg, orb_true_r. unfold ret. now rewrite set_stdin_set_stdin.
  - intros tag x Htag.
    assert (Htest : (tag =? PICO_ERROR_TIMEOUT) || (tag <? 0) = false).
    { apply orb_false_iff. unfold is_u8 in Htag.
      split; [apply Z.eqb_neq|apply Z.ltb_ge]; lia. }
    split; unfold proto_read_request.
    + rewrite (bind_getchar _ _ tag (c :: x :: rest)) by reflexivity.
      rewrite Htest. cbv zeta.
      rewrite (bind_getchar _ _ c (x :: rest)) by reflexivity.
      rewrite (bind_getchar _ _ x rest) by reflexivity.
      rewrite Hneg. cbn [orb]. unfold ret.
      rewrite !set_stdin_set_stdin. now rewrite to_u8_id.
    + rewrite (bind_getchar _ _ tag (x :: c :: rest)) by reflexivity.
      rewrite Htest. cbv zeta.
      rewrite (bind_getchar _ _ x (c :: rest)) by reflexivity.
      rewrite (bind_getchar _ _ c rest) by reflexivity.
      rewrite Hneg, orb_true_r. unfold ret.
      rewrite !set_stdin_set_stdin. now rewrite to_u8_id.
  - unfold PROTO_MAX_PAYLOAD. intros tag n pre Htag Hn Hpre Hlen Hroom.
    unfold proto_read_request.
    rewrite (bind_getchar _ _ tag (n mod 256 :: n / 256 :: pre ++ c :: rest))
      by reflexivity.
    replace ((tag =? PICO_ERROR_TIMEOUT) || (tag <? 0)) with false.
    2:{ symmetry. apply orb_false_iff. unfold is_u8 in Htag.
        split; [apply Z.eqb_neq|apply Z.ltb_ge]; lia. }
    cbv zeta.
    rewrite (bind_getchar _ _ (n mod 256) (n / 256 :: pre ++ c :: rest))
      by reflexivity.
    rewrite (bind_getchar _ _ (n / 256) (pre ++ c :: rest)) by reflexivity.
    assert (Hlo : 0 <= n mod 256 < 256) by (apply Z.mod_pos_bound; lia).
    assert (Hhi : 0 <= n / 256 < 256).
    { split; [apply Z.div_pos; lia|apply Z.div_lt_upper_bound; lia]. }
    replace ((n mod 256 <? 0) || (n / 256 <? 0)) with false.
    2:{ symmetry. apply orb_false_iff. split; apply Z.ltb_ge; lia. }
    cbn [len set_len set_cmd cmd payload].
    rewrite length_field_decode by lia.
    replace (PROTO_MAX_PAYLOAD <? n) with false
      by (symmetry; apply Z.ltb_ge; unfold PROTO_MAX_PAYLOAD; lia).
    rewrite !set_stdin_set_stdin. rewrite (to_u8_id tag) by assumption.
    destruct (Z.eq_dec (Z.of_nat (length pre)) n) as [Heq|Hlt].
    + rewrite <- Heq, Nat2Z.id.
      erewrite bind_run
        by (apply (read_payload_run pre 0 _ _ (c :: rest) Hpre);
            [reflexivity | lia | cbn [payload set_len set_cmd]; lia]).
      cbn [fst snd negb]. rewrite set_stdin_set_stdin.
      rewrite (bind_getchar _ _ c rest) by reflexivity.
      rewrite Hneg. cbn [prepend ret app]. rewrite set_stdin_set_stdin.
      change (Z.to_nat 0) with 0%nat. rewrite take_0. reflexivity.
    + erewrite bind_run
        by (apply (read_payload_abort pre (Z.to_nat n) 0 _ _ c rest Hpre Hc);
            [reflexivity | lia | lia | cbn [payload set_len set_cmd]; lia]).
      cbn [fst snd negb prepend ret app]. rewrite set_stdin_set_stdin.
      change (Z.to_nat 0) with 0%nat. rewrite take_0. reflexivity.
Qed.

(** ** Frames the parser accepts *)

Lemma read_payload_consumed n : forall i req w r w' t,
  read_payload_loop n i req w = Some (r, w', t) ->
  Forall getchar_result (stdin w) ->
  fst r = true ->
  exists consumed,
    stdin w = consumed ++ stdin w'
    /\ length consumed = n
    /\ Forall is_u8 consumed.
Proof.
  induction n as [|n IH]; intros i req w r w' t Hrun Hin Hr.
  - cbn [read_payload_loop] in Hrun. inversion Hrun; subst.
    exists []. auto.
  - cbn [read_payload_loop] in Hrun.
    destruct (stdin w) as [|c s] eqn:Hs.
    { rewrite getchar_empty in Hrun by exact Hs. discriminate. }
    rewrite (bind_getchar _ w c s Hs) in Hrun.
    inversion Hin as [|? ? Hc Hrest]; subst.
    destruct (Z.ltb_spec c 0) as [Hneg|Hpos].
    { inversion Hrun; subst. discriminate. }
    destruct (IH _ _ _ _ _ _ Hrun Hrest Hr) as (consumed & Hs' & Hlen & Hall).
    exists (c :: consumed). cbn [stdin set_stdin] in Hs'.
    split; [now rewrite Hs'|]. split; [cbn [length]; lia|].
    constructor; [unfold is_u8, getchar_result in *; lia|exact Hall].
Qed.

Lemma length_bytes_decode lo hi :
  is_u8 lo -> is_u8 hi ->
  to_u16 (Z.lor (to_u16 lo) (Z.shiftl (to_u16 hi) 8)) = lo + 256 * hi.
Proof.
  intros Hlo Hhi.
  rewrite (to_u16_id lo), (to_u16_id hi) by (unfold is_u16, is_u8 in *; lia).
  rewrite lor_shiftl_bytes by assumption.
  apply to_u16_id. unfold is_u16, is_u8 in *. lia.
Qed.

(** The shape of the input of a call that returns [true]. *)
Lemma read_request_true_input req w req' w' t :
  Forall getchar_result (stdin w) ->
  proto_read_request req w = Some ((true, req'), w', t) ->
  exists tag pl c,
    is_u8 tag /\ Forall is_u8 pl
    /\ Z.of_nat (length pl) <= PROTO_MAX_PAYLOAD
    /\ 0 <= c
    /\ stdin w = frame_body tag pl ++ c :: stdin w'.
Proof.
  intros Hin Hrun. unfold proto_read_request in Hrun.
  destruct (stdin w) as [|c0 s0] eqn:Hs0.
  { rewrite getchar_empty in Hrun by exact Hs0. discriminate. }
  rewrite (bind_getchar _ w c0 s0 Hs0) in Hrun.
  inversion Hin as [|? ? Hc0 Hin0]; subst.
  destruct ((c0 =? PICO_ERROR_TIMEOUT) || (c0 <? 0)) eqn:Htest;
    [discriminate Hrun|].
  apply orb_false_iff in Htest. destruct Htest as [_ Hc0pos].
  apply Z.ltb_ge in Hc0pos. cbv zeta in Hrun.
  destruct s0 as [|lo s1].
  { rewrite getchar_empty in Hrun by reflexivity. discriminate. }
  rewrite (bind_getchar _ _ lo s1) in Hrun by reflexivity.
  destruct s1 as [|hi s2].
  { rewrite getchar_empty in Hrun by reflexivity. discriminate. }
  rewrite (bind_getchar _ _ hi s2) in Hrun by reflexivity.
  inversion Hin0 as [|? ? Hlo Hin1]; subst.
  inversion Hin1 as [|? ? Hhi Hin2]; subst.
  destruct ((lo <? 0) || (hi <? 0)) eqn:Htest; [discriminate Hrun|].
  apply orb_false_iff in Htest. destruct Htest as [Hlopos Hhipos].
  apply Z.ltb_ge in Hlopos, Hhipos.
  assert (Hlo8 : is_u8 lo) by (unfold is_u8, getchar_result in *; lia).
  assert (Hhi8 : is_u8 hi) by (unfold is_u8, getchar_result in *; lia).
  cbn [len set_len set_cmd cmd payload] in Hrun.
  rewrite (length_bytes_decode lo hi Hlo8 Hhi8) in Hrun.
  set (n := lo + 256 * hi) in *.
  destruct (Z.ltb_spec PROTO_MAX_PAYLOAD n) as [Hbig|Hfit].
  { apply bind_inv in Hrun. destruct Hrun as (a & w1 & t1 & t2 & _ & Hret & _).
    discriminate Hret. }
  apply bind_inv in Hrun.
  destruct Hrun as ([ok req1] & w1 & t1 & t2 & Hloop & Hrest & _).
  cbn [fst snd] in Hrest.
  destruct ok; cbn [negb] in Hrest; [|discriminate Hrest].
  destruct (read_payload_consumed _ _ _ _ _ _ _ Hloop Hin2 eq_refl)
    as (pl & Hpl & Hlen & Hall).
  cbn [stdin set_stdin] in Hpl.
  destruct (stdin w1) as [|c s3] eqn:Hs3.
  { rewrite getchar_empty in Hrest by exact Hs3. discriminate. }
  rewrite (bind_getchar _ w1 c s3 Hs3) in Hrest.
  destruct (Z.ltb_spec c 0) as [Hneg|Hcpos]; [discriminate Hrest|].
  cbv zeta in Hrest.
  match type of Hrest with
  | (if negb ?test then _ else _) _ = _ => destruct test
  end; cbn [negb] in Hrest.
  2:{ apply bind_inv in Hrest.
      destruct Hrest as (a & w2 & t3 & t4 & _ & Hret & _). discriminate Hret. }
  inversion Hrest; subst. cbn [stdin set_stdin].
  assert (Hn : Z.of_nat (length pl) = n).
  { rewrite Hlen. apply Z2Nat.id. unfold is_u8 in *. lia. }
  exists c0, pl, c.
  split; [unfold is_u8, getchar_result in *; lia|].
  split; [exact Hall|]. split; [lia|]. split; [exact Hcpos|].
  unfold frame_body. rewrite Hn. cbn [app].
  replace (n mod 256) with lo
    by (apply (Z.mod_unique_pos n 256 hi lo); unfold n, is_u8 in *; lia).
  replace (n / 256) with hi
    by (apply (Z.div_unique_pos n 256 hi lo); unfold n, is_u8 in *; lia).
  reflexivity.
Qed.

(** X6: the parser returns [true] only for a well formed frame.  When
    every result of [getchar] is a byte or negative and the call returns
    [true], the input it used up is a frame with a tag, a length of at
    most 256, that many payload bytes and the right checksum; the
    request holds that tag, length and payload, nothing was sent to the
    host, and the world differs in the input only. *)
Theorem accepted_input_is_a_frame (req req' : proto_request_t)
    (w w' : World) (t : list event) :
  length (payload req) = Z.to_nat PROTO_MAX_PAYLOAD ->
  Forall getchar_result (stdin w) ->
  proto_read_request req w = Some ((true, req'), w', t) ->
  exists tag pl,
    is_u8 tag /\ Forall is_u8 pl
    /\ Z.of_nat (length pl) <= PROTO_MAX_PAYLOAD
    /\ stdin w = frame tag pl ++ stdin w'
    /\ req' = request_of tag pl req
    /\ w' = set_stdin (stdin w') w
    /\ t = [].
Proof.
  intros Hreq Hin Hrun.
  destruct (read_request_true_input _ _ _ _ _ Hin Hrun)
    as (tag & pl & c & Htag & Hpl & Hmax & Hc & Hs).
  pose proof (read_request_checked req w tag pl c (stdin w') Htag Hpl Hmax
                ltac:(unfold PROTO_MAX_PAYLOAD in *; lia) Hc Hs) as Hchk.
  rewrite Hrun in Hchk.
  destruct (to_u8 c =? crc8_bytes (frame_body tag pl)) eqn:Hok;
    [|discriminate Hchk].
  inversion Hchk as [[Hreq' Hw' Ht]]. apply Z.eqb_eq in Hok.
  exists tag, pl. repeat (split; [assumption|]).
  split; [|cbn [stdin set_stdin]; auto].
  rewrite Hs. unfold frame. rewrite proto_crc8_all, <- Hok.
  rewrite <- app_assoc. cbn [app]. f_equal. f_equal.
  symmetry. apply to_u8_id.
  assert (Hw : stdin w = frame_body tag pl ++ c :: stdin w') by exact Hs.
  rewrite Hw in Hin. apply Forall_app in Hin. destruct Hin as [_ Hin].
  inversion Hin; subst. unfold is_u8, getchar_result in *. lia.
Qed.

(** ** Probing the target *)

Lemma read_data_world_lvp b w :
  read_data_world (set_lvp_active b w) = set_lvp_active b (read_data_world w).
Proof.
  unfold read_data_world. cbn [dataInPin set_lvp_active].
  now destruct (dataInPin w =? -1).
Qed.

Lemma read_data_world_stdin w : stdin (read_data_world w) = stdin w.
Proof. unfold read_data_world. now destruct (dataInPin w =? -1). Qed.

Lemma read_data_world_pins w :
  mclrPin (read_data_world w) = mclrPin w
  /\ dataInPin (read_data_world w) = dataInPin w.
Proof. unfold read_data_world. now destruct (dataInPin w =? -1). Qed.

Lemma leave_events_read w : leave_events (read_data_world w) = leave_events w.
Proof.
  unfold leave_events. now rewrite (proj1 (read_data_world_pins w)).
Qed.

Lemma key_events_read w : key_events (read_data_world w) = key_events w.
Proof.
  unfold key_events. now rewrite (proj1 (read_data_world_pins w)).
Qed.

Lemma exit_after_enter w :
  icsp_exit_lvp (set_lvp_active true w)
    = Some (tt, set_lvp_active false w, leave_events w).
Proof. now rewrite exit_lvp_run. Qed.

Lemma enter_after_exit w :
  icsp_enter_lvp (set_lvp_active false w)
    = Some (tt, set_lvp_active true w, key_events w).
Proof. now rewrite enter_lvp_run. Qed.

Lemma id_read_run pc w :
  0 <= pc ->
  (icsp_cmd_loadpc pc ;; sleep_us 1 ;; icsp_cmd_read_data false) w
    = Some (read_data_value w, read_data_world w, id_read_events pc w).
Proof.
  intros Hpc.
  rewrite (bind_emits _ _ _ _ _ (emits_loadpc pc)).
  rewrite (bind_emits (sleep_us 1) _ tt [Ev_sleep_us 1] _ (emits_emit _)).
  rewrite read_data_run. unfold id_read_events, sent, load_pc.
  apply Z.leb_le in Hpc. now rewrite Hpc.
Qed.

Lemma get_device_id_run w :
  icsp_get_device_id w
    = Some (read_data_value w, read_data_world w, id_read_events 0x3FFFFE w).
Proof. apply id_read_run. lia. Qed.

Lemma get_revision_id_run w :
  icsp_get_revision_id w
    = Some (read_data_value w, read_data_world w, id_read_events 0x3FFFFC w).
Proof. apply id_read_run. lia. Qed.

(** Entering LVP and reading the device ID, the start of [target_check],
    [handle_diag] and [handle_test_eeprom]. *)
Lemma probe_run {B} (f : Z -> M B) w :
  (icsp_enter_lvp ;; id <- icsp_get_device_id ;; f id) w
    = prepend (enter_lvp_events w ++ id_read_events 0x3FFFFE w)
        (f (read_data_value w) (set_lvp_active true (read_data_world w))).
Proof.
  rewrite (bind_run _ _ _ _ _ _ (enter_lvp_run w)).
  rewrite (bind_run _ _ _ _ _ _ (get_device_id_run _)).
  rewrite read_data_world_lvp.
  change (read_data_value (set_lvp_active true w)) with (read_data_value w).
  change (id_read_events 4194302 (set_lvp_active true w))
    with (id_read_events 4194302 w).
  destruct (f (read_data_value w) (set_lvp_active true (read_data_world w)))
    as [[[b w2] t2]|]; cbn [prepend]; [|reflexivity].
  now rewrite app_assoc.
Qed.

Lemma target_check_run w :
  target_check w
    = Some (negb (target_absent (read_data_value w)),
            set_lvp_active (negb (target_absent (read_data_value w)))
              (read_data_world w),
            enter_lvp_events w ++ id_read_events 0x3FFFFE w
              ++ (if target_absent (read_data_value w) then leave_events w
                  else [])).
Proof.
  unfold target_check. rewrite probe_run. fold (target_absent (read_data_value w)).
  destruct (target_absent (read_data_value w)); cbn [negb].
  - rewrite (bind_run _ _ _ _ _ _ (exit_after_enter _)).
    cbn [prepend ret]. rewrite leave_events_read.
    now rewrite app_nil_r, <- app_assoc.
  - cbn [prepend ret]. now rewrite !app_nil_r.
Qed.

Lemma erase_all_run :
  emits
    (icsp_cmd_erase
       (Z.lor (Z.lor (Z.lor ICSP_ERASE_REGION_FLASH ICSP_ERASE_REGION_EEPROM)
                     ICSP_ERASE_REGION_CONFIG)
              ICSP_ERASE_REGION_USER_ID))
    tt (flat_map erase_region erase_order).
Proof. intros w. reflexivity. Qed.

Lemma erase_eeprom_run :
  emits (icsp_cmd_erase ICSP_ERASE_REGION_EEPROM) tt (erase_region EEPROM).
Proof. intros w. reflexivity. Qed.

Lemma handle_erase_run req w :
  handle_erase req w
    = Some (tt, set_lvp_active false (read_data_world w),
            enter_lvp_events w ++ id_read_events 0x3FFFFE w
              ++ (if target_absent (read_data_value w)
                  then leave_events w ++ response_events STATUS_ERR_TARGET []
                  else flat_map erase_region erase_order ++ leave_events w
                         ++ response_events STATUS_OK [])).
Proof.
  unfold handle_erase. rewrite (bind_run _ _ _ _ _ _ (target_check_run w)).
  destruct (target_absent (read_data_value w)); cbn [negb].
  - unfold proto_send_error. rewrite send_response_empty.
    cbn [prepend]. now rewrite <- !app_assoc.
  - rewrite (bind_emits _ _ _ _ _ erase_all_run).
    rewrite (bind_run _ _ _ _ _ _ (exit_after_enter _)).
    unfold proto_send_ok. rewrite send_response_empty.
    cbn [prepend]. rewrite leave_events_read, app_nil_r.
    now rewrite <- !app_assoc.
Qed.

Lemma handle_reset_target_run req w :
  handle_reset_target req w
    = Some (tt, set_lvp_active false w,
            exit_lvp_events w ++ [Ev_sleep_ms 10]
              ++ response_events STATUS_OK []).
Proof.
  unfold handle_reset_target.
  rewrite (bind_run _ _ _ _ _ _ (exit_lvp_run w)).
  rewrite (bind_emits _ _ _ _ _ (emits_sleep_ms 10)).
  unfold proto_send_ok. now rewrite send_response_empty.
Qed.

Lemma handle_version_run req :
  emits (handle_version req) tt
    (response_events STATUS_OK (string_bytes VERSION_STRING)).
Proof.
  unfold handle_version.
  change (to_u16 (Z.of_nat (length (string_bytes VERSION_STRING)))) with 11.
  intros w.
  rewrite (send_response_payload STATUS_OK (string_bytes VERSION_STRING) 11);
    [reflexivity|unfold PROTO_MAX_PAYLOAD; lia|].
  apply Z.leb_le. reflexivity.
Qed.

(** ** The answer to DIAG *)

Lemma target_name_length d :
  (length (string_bytes (target_identify d)) <= 11)%nat.
Proof.
  unfold target_identify, targets. cbn [target_lookup id mask].
  repeat match goal with
         | |- context [if ?c then _ else _] => destruct c
         end;
    apply Nat.leb_le; reflexivity.
Qed.

Lemma string_bytes_u8 s : Forall is_u8 (string_bytes s).
Proof.
  unfold string_bytes. apply Forall_fmap, Forall_forall. intros a _.
  unfold is_u8. cbn. pose proof (N_ascii_bounded a). lia.
Qed.

Lemma handle_diag_run req w :
  handle_diag req w
    = Some (tt, set_lvp_active false (read_data_world (read_data_world w)),
            enter_lvp_events w ++ id_read_events 0x3FFFFE w
              ++ id_read_events 0x3FFFFC (read_data_world w)
              ++ leave_events w
              ++ (if target_absent (read_data_value w)
                  then response_events STATUS_ERR_TARGET []
                  else
                    response_events STATUS_OK
                      ([low_byte (read_data_value w);
                        high_byte (read_data_value w);
                        low_byte (read_data_value (read_data_world w));
                        high_byte (read_data_value (read_data_world w))]
                         ++ string_bytes
                              (target_identify (read_data_value w))))).
Proof.
  unfold handle_diag. rewrite probe_run.
  rewrite (bind_run _ _ _ _ _ _ (get_revision_id_run _)).
  rewrite read_data_world_lvp.
  rewrite (bind_run _ _ _ _ _ _ (exit_after_enter _)).
  change (read_data_value (set_lvp_active true (read_data_world w)))
    with (read_data_value (read_data_world w)).
  change (id_read_events 4194300 (set_lvp_active true (read_data_world w)))
    with (id_read_events 4194300 (read_data_world w)).
  rewrite !leave_events_read.
  set (dev := read_data_value w). set (rev := read_data_value (read_data_world w)).
  fold (target_absent dev).
  destruct (target_absent dev).
  - unfold proto_send_error. rewrite send_response_empty.
    cbn [prepend]. now rewrite <- !app_assoc.
  - pose proof (target_name_length dev) as Hname.
    set (name := string_bytes (target_identify dev)) in *.
    rewrite !high_byte_spec, !low_byte_spec.
    pose proof (uninitialized_length (4 + 64)) as Hu.
    destruct (uninitialized (4 + 64)) as [|u0 [|u1 [|u2 [|u3 tl]]]];
      [discriminate..|].
    cbn [length] in Hu. cbn [insert list_insert].
    change (low_byte dev :: high_byte dev :: low_byte rev :: high_byte rev :: tl)
      with ([low_byte dev; high_byte dev; low_byte rev; high_byte rev] ++ tl).
    change 4%nat
      with (length [low_byte dev; high_byte dev; low_byte rev; high_byte rev])
      at 1.
    rewrite list_inserts_middle by lia.
    rewrite to_u16_id by (unfold is_u16; lia).
    rewrite (send_response_payload STATUS_OK _ (4 + Z.of_nat (length name)));
      [| unfold PROTO_MAX_PAYLOAD; lia
       | rewrite !length_app, length_drop; cbn [length]; lia ].
    rewrite app_assoc.
    rewrite take_app_length'
      by (rewrite length_app; cbn [length]; lia).
    cbn [prepend]. now rewrite <- !app_assoc.
Qed.

(** ** The two sides of a trace *)

Lemma target_only_app t1 t2 :
  target_only t1 -> target_only t2 -> target_only (t1 ++ t2).
Proof. intros H1 H2. apply Forall_app. now split. Qed.

Lemma target_only_flat_map {A} (f : A -> list event) (l : list A) :
  (forall x, target_only (f x)) -> target_only (flat_map f l).
Proof.
  intros Hf. induction l as [|x l IH]; [constructor|].
  cbn [flat_map]. now apply target_only_app.
Qed.

Lemma target_only_sent opcode payload :
  is_host_output (sent opcode payload) = false.
Proof. unfold sent. now destruct (0 <=? payload). Qed.

Lemma target_only_enter w : target_only (enter_lvp_events w).
Proof. unfold enter_lvp_events. destruct (lvp_active w); repeat constructor. Qed.

Lemma target_only_exit w : target_only (exit_lvp_events w).
Proof. unfold exit_lvp_events. destruct (lvp_active w); repeat constructor. Qed.

Lemma target_only_read_data b w : target_only (read_data_events b w).
Proof.
  unfold read_data_events. destruct (dataInPin w =? -1); repeat constructor.
Qed.

Lemma target_only_id_read pc w : target_only (id_read_events pc w).
Proof.
  unfold id_read_events. repeat constructor. apply target_only_read_data.
Qed.

Lemma target_only_word_write pc word : target_only (word_write pc word).
Proof.
  unfold word_write. constructor; [apply target_only_sent|repeat constructor].
Qed.

Lemma target_only_program_config addr data n :
  target_only (program_config_events addr data n).
Proof.
  unfold program_config_events. apply target_only_app.
  - apply target_only_flat_map. intros j. apply target_only_word_write.
  - destruct (Z.odd n); [apply target_only_word_write|constructor].
Qed.

Lemma host_output_target_only t : target_only t -> host_output t = [].
Proof.
  unfold host_output. induction 1 as [|e t He _ IH]; [reflexivity|].
  cbn [List.filter]. now rewrite He.
Qed.

Lemma host_output_response status answer :
  host_output (response_events status answer) = response_events status answer.
Proof.
  unfold host_output, response_events. rewrite List.filter_app.
  f_equal. induction (frame status answer) as [|b l IH]; [reflexivity|].
  cbn [fmap list_fmap List.filter is_host_output]. now rewrite IH.
Qed.

Lemma host_output_app t1 t2 :
  host_output (t1 ++ t2) = host_output t1 ++ host_output t2.
Proof. apply List.filter_app. Qed.

(** ** Reading words *)

Lemma set_spi_rx_pos_same w : set_spi_rx_pos (spi_rx_pos w) w = w.
Proof. now destruct w. Qed.

Lemma data_word_range data : is_u16 (data_word data).
Proof. apply to_u16_range. Qed.

Lemma read_data_value_range w : is_u16 (read_data_value w).
Proof.
  unfold read_data_value. destruct (dataInPin w =? -1);
    [unfold is_u16; lia|apply data_word_range].
Qed.

(** Word reads move the read position of the bus and nothing else. *)
Lemma read_words_frame n : forall w ws w1 t1,
  read_words n w = Some (ws, w1, t1) ->
  w1 = set_spi_rx_pos (spi_rx_pos w1) w
  /\ target_only t1
  /\ Forall is_u16 ws.
Proof.
  induction n as [|n IH]; intros w ws w1 t1 Hrun.
  - inversion Hrun; subst. rewrite set_spi_rx_pos_same.
    repeat split; constructor.
  - cbn [read_words] in Hrun.
    rewrite (bind_run _ _ _ _ _ _ (read_data_run true w)) in Hrun.
    destruct (read_words n (read_data_world w)) as [[[ws' w1'] t1']|] eqn:Hn.
    2:{ rewrite (bind_None _ _ _ Hn) in Hrun. discriminate. }
    rewrite (bind_run _ _ _ _ _ _ Hn) in Hrun.
    cbn [prepend ret] in Hrun. inversion Hrun; subst.
    destruct (IH _ _ _ _ Hn) as (Hw & Ht & Hws).
    split; [|split].
    + rewrite Hw at 1. unfold read_data_world.
      now destruct (dataInPin w =? -1).
    + apply target_only_app; [apply target_only_read_data|].
      rewrite app_nil_r. exact Ht.
    + constructor; [apply read_data_value_range|exact Hws].
Qed.

Lemma read_words_mclr n w ws w1 t1 :
  read_words n w = Some (ws, w1, t1) -> leave_events w1 = leave_events w.
Proof.
  intros Hrun. destruct (read_words_frame _ _ _ _ _ Hrun) as (Hw & _).
  now rewrite Hw.
Qed.

(** ** The EEPROM self test *)

Lemma pattern_loop_run :
  emits
    (for_loop 4 0
       (fun i => icsp_cmd_write_data (test_pattern !!! Z.to_nat i) false ;;
                 sleep_ms 11 ;;
                 icsp_cmd_increment_pc))
    tt (flat_map pattern_write test_pattern).
Proof. intros w. reflexivity. Qed.

Lemma handle_test_eeprom_run req w ws w1 t1 :
  read_words 4 (set_lvp_active true (read_data_world w)) = Some (ws, w1, t1) ->
  handle_test_eeprom req w
    = Some (tt,
            set_lvp_active false
              (if target_absent (read_data_value w) then read_data_world w
               else w1),
            enter_lvp_events w ++ id_read_events 0x3FFFFE w
              ++ (if target_absent (read_data_value w)
                  then leave_events w ++ response_events STATUS_ERR_TARGET []
                  else
                    erase_region EEPROM ++ leave_events w ++ [Ev_sleep_ms 10]
                      ++ key_events w ++ [load_pc 0x310000]
                      ++ flat_map pattern_write test_pattern
                      ++ leave_events w ++ [Ev_sleep_ms 10]
                      ++ key_events w ++ [load_pc 0x310000]
                      ++ t1 ++ leave_events w
                      ++ response_events STATUS_OK
                           [if forallb
                                 (fun i => (test_pattern !!! i)
                                             =? ((low_byte <$> ws) !!! i))
                                 (seq 0 4)
                            then 1 else 0])).
Proof.
  intros Hrun. unfold handle_test_eeprom. rewrite probe_run.
  fold (target_absent (read_data_value w)).
  destruct (target_absent (read_data_value w)).
  - rewrite (bind_run _ _ _ _ _ _ (exit_after_enter _)).
    unfold proto_send_error. rewrite send_response_empty.
    cbn [prepend]. rewrite leave_events_read. now rewrite <- !app_assoc.
  - cbv zeta.
    rewrite (bind_emits _ _ _ _ _ erase_eeprom_run).
    rewrite (bind_run _ _ _ _ _ _ (exit_after_enter _)).
    rewrite (bind_emits _ _ _ _ _ (emits_sleep_ms 10)).
    rewrite (bind_run _ _ _ _ _ _ (enter_after_exit _)).
    rewrite (bind_emits _ _ _ _ _ (emits_loadpc _)).
    change [0xBB; 0xCC; 0xDD; 0xEE] with test_pattern.
    rewrite (bind_emits _ _ _ _ _ pattern_loop_run).
    rewrite (bind_run _ _ _ _ _ _ (exit_after_enter _)).
    rewrite (bind_emits _ _ _ _ _ (emits_sleep_ms 10)).
    rewrite (bind_run _ _ _ _ _ _ (enter_after_exit _)).
    rewrite (bind_emits _ _ _ _ _ (emits_loadpc _)).
    rewrite (bind_run _ _ _ _ _ _
               (for_fold_read _ store_low (fun _ _ _ => eq_refl)
                  _ _ _ _ _ _ _ Hrun)).
    destruct (read_words_facts _ _ _ _ _ Hrun) as (Hlen & Hact & _).
    assert (Hmclr : leave_events w1 = leave_events w).
    { rewrite (read_words_mclr _ _ _ _ _ Hrun). unfold leave_events.
      cbn [mclrPin set_lvp_active].
      now rewrite (proj1 (read_data_world_pins w)). }
    rewrite (bind_run _ _ _ _ _ _ (exit_lvp_run w1)).
    unfold exit_lvp_events. rewrite Hact. cbn [lvp_active set_lvp_active].
    fold (leave_events w1). rewrite Hmclr.
    change [0; 0; 0; 0] with ([] ++ [0; 0; 0; 0]).
    rewrite (fold_store_low ws 0 [] [0; 0; 0; 0])
      by (rewrite ?Hlen; simpl; lia).
    rewrite Hlen. cbn [app drop]. rewrite app_nil_r.
    rewrite (send_response_payload STATUS_OK _ 1);
      [|unfold PROTO_MAX_PAYLOAD; lia|simpl; lia].
    cbn [prepend]. rewrite !leave_events_read, !key_events_read.
    change (take (Z.to_nat 1) ?l) with l.
    change (sent ICSP_COMMAND_LOAD_PC 3211264) with (load_pc 0x310000).
    cbn [app]. rewrite <- !app_assoc. reflexivity.
Qed.

(** ** Writing any flash row *)

Lemma program_page_run addr data size erase :
  1 <= size < 2 ^ 32 ->
  emits (icsp_program_page addr data size erase) size
    (sent ICSP_COMMAND_LOAD_PC addr
       :: (if erase then [opcode_only ICSP_COMMAND_PAGE_ERASE; Ev_sleep_ms 11]
           else [])
       ++ flat_map
            (fun i => [sent ICSP_COMMAND_LOAD_DATA_INCPC (data !!! Z.to_nat i)])
            (zseq 0 (Z.to_nat (size - 1)))
       ++ [sent ICSP_COMMAND_LOAD_DATA (data !!! Z.to_nat (size - 1));
           opcode_only ICSP_COMMAND_BEGIN_PROG_INT; Ev_sleep_ms 3]).
Proof.
  intros Hsize. unfold icsp_program_page, to_size_t.
  rewrite Z.mod_small by lia.
  apply (emits_step _ _ tt); [apply emits_loadpc|].
  apply (emits_bind _ _ tt).
  { destruct erase; [|apply emits_ret]. unfold icsp_cmd_erase_page.
    apply (emits_step _ _ tt);
      [apply (emits_opcode_only ICSP_COMMAND_PAGE_ERASE)|].
    apply emits_sleep_ms. }
  apply (emits_bind _ _ tt).
  { apply emits_for_loop. intros i.
    apply (emits_send_command ICSP_COMMAND_LOAD_DATA_INCPC). }
  apply (emits_step _ _ tt);
    [apply (emits_send_command ICSP_COMMAND_LOAD_DATA)|].
  apply (emits_step _ _ tt);
    [apply (emits_opcode_only ICSP_COMMAND_BEGIN_PROG_INT)|].
  apply (emits_step _ _ tt); [apply emits_sleep_ms|].
  apply emits_ret.
Qed.

Lemma sent_words opcode (data : list Z) : forall k i,
  0 <= i ->
  (Z.to_nat i + k <= length data)%nat ->
  Forall (fun x => 0 <= x) data ->
  flat_map (fun i => [sent opcode (data !!! Z.to_nat i)]) (zseq i k)
    = load_data opcode <$> take k (drop (Z.to_nat i) data).
Proof.
  induction k as [|k IH]; intros i Hi Hlen Hdata.
  - now rewrite take_0.
  - destruct (lookup_lt_is_Some_2 data (Z.to_nat i) ltac:(lia)) as [x Hx].
    rewrite (drop_S _ _ _ Hx). cbn [zseq flat_map take fmap list_fmap app].
    rewrite (list_lookup_total_correct _ _ _ Hx).
    rewrite IH by (assumption || lia).
    replace (Z.to_nat (i + 1)) with (S (Z.to_nat i)) by lia.
    f_equal. unfold sent, load_data.
    assert (Hpos : 0 <= x).
    { rewrite Forall_lookup in Hdata. exact (Hdata _ _ Hx). }
    apply Z.leb_le in Hpos. now rewrite Hpos.
Qed.

Lemma config_words_range bytes :
  Forall is_u8 bytes -> Forall is_u16 (config_words bytes).
Proof.
  induction bytes as [bytes IH] using (induction_ltof1 _ (@length Z)).
  unfold ltof in IH. intros Hall.
  destruct bytes as [|a [|b rest]]; cbn [config_words].
  - constructor.
  - inversion Hall; subst. repeat constructor; unfold is_u8, is_u16 in *; lia.
  - inversion Hall as [|? ? Ha Hall1]; subst.
    inversion Hall1 as [|? ? Hb Hall2]; subst.
    constructor; [unfold is_u8, is_u16 in *; lia|].
    apply IH; [simpl; lia|assumption].
Qed.

(** The words [handle_write_page] makes of the data bytes. *)
Lemma row_words (data : list Z) : forall k j,
  (2 * (j + k) <= length data)%nat ->
  Forall is_u8 data ->
  (fun i : nat =>
     to_u16 (Z.lor (data !!! (i * 2)%nat)
               (Z.shiftl (data !!! (i * 2 + 1)%nat) 8)))
    <$> seq j k
  = config_words (take (2 * k) (drop (2 * j) data)).
Proof.
  induction k as [|k IH]; intros j Hlen Hdata.
  - reflexivity.
  - destruct (lookup_lt_is_Some_2 data (2 * j) ltac:(lia)) as [a Ha].
    destruct (lookup_lt_is_Some_2 data (S (2 * j)) ltac:(lia)) as [b Hb].
    rewrite (drop_S _ _ _ Ha), (drop_S _ _ _ Hb).
    replace (2 * S k)%nat with (S (S (2 * k))) by lia.
    cbn [seq fmap list_fmap take config_words].
    replace (j * 2)%nat with (2 * j)%nat by lia.
    replace (2 * j + 1)%nat with (S (2 * j)) by lia.
    rewrite (list_lookup_total_correct _ _ _ Ha).
    rewrite (list_lookup_total_correct _ _ _ Hb).
    assert (Ha8 : is_u8 a) by (rewrite Forall_lookup in Hdata; eauto).
    assert (Hb8 : is_u8 b) by (rewrite Forall_lookup in Hdata; eauto).
    rewrite lor_shiftl_bytes by assumption.
    rewrite to_u16_id by (unfold is_u8, is_u16 in *; lia).
    f_equal. rewrite (IH (S j)) by (assumption || lia).
    do 2 f_equal. f_equal. lia.
Qed.

Lemma handle_write_page_run req w :
  4 + FLASH_ROW_BYTES <= len req ->
  handle_write_page req w
    = Some (tt, set_lvp_active true w,
            enter_lvp_events w
              ++ (sent ICSP_COMMAND_LOAD_PC
                    (to_int (proto_get_u32 (payload req)))
                    :: [opcode_only ICSP_COMMAND_PAGE_ERASE; Ev_sleep_ms 11]
                    ++ flat_map
                         (fun i =>
                            [sent ICSP_COMMAND_LOAD_DATA_INCPC
                               (((fun i : nat =>
                                    to_u16
                                      (Z.lor
                                         (drop 4 (payload req) !!! (i * 2)%nat)
                                         (Z.shiftl
                                            (drop 4 (payload req)
                                               !!! (i * 2 + 1)%nat) 8)))
                                   <$> seq 0 64) !!! Z.to_nat i)])
                         (zseq 0 63)
                    ++ [sent ICSP_COMMAND_LOAD_DATA
                          (((fun i : nat =>
                               to_u16
                                 (Z.lor (drop 4 (payload req) !!! (i * 2)%nat)
                                    (Z.shiftl
                                       (drop 4 (payload req)
                                          !!! (i * 2 + 1)%nat) 8)))
                              <$> seq 0 64) !!! 63%nat);
                        opcode_only ICSP_COMMAND_BEGIN_PROG_INT;
                        Ev_sleep_ms 3])
              ++ response_events STATUS_OK []).
Proof.
  intros Hlen. unfold handle_write_page.
  replace (len req <? 4 + FLASH_ROW_BYTES) with false
    by (symmetry; apply Z.ltb_ge; lia).
  rewrite (bind_run _ _ _ _ _ _ (enter_lvp_run w)).
  rewrite (bind_emits _ _ _ _ _
             (program_page_run _ _ FLASH_ROW_WORDS true
                ltac:(unfold FLASH_ROW_WORDS; lia))).
  unfold proto_send_ok. rewrite send_response_empty.
  reflexivity.
Qed.

(** ** Requests that are turned down *)

Lemma error_run status : 
  emits (proto_send_error status) tt (response_events (to_u8 status) []).
Proof. apply send_response_empty. Qed.

Lemma handle_write_page_short req :
  len req < 4 + FLASH_ROW_BYTES ->
  emits (handle_write_page req) tt (response_events STATUS_ERR_PAYLOAD []).
Proof.
  intros Hlen w. unfold handle_write_page.
  replace (len req <? 4 + FLASH_ROW_BYTES) with true
    by (symmetry; apply Z.ltb_lt; lia).
  apply error_run.
Qed.

Lemma handle_write_config_short req :
  len req < 6 \/ len req < 6 + proto_get_u16 (drop 4 (payload req)) ->
  emits (handle_write_config req) tt (response_events STATUS_ERR_PAYLOAD []).
Proof.
  intros Hlen w. unfold handle_write_config.
  destruct (Z.ltb_spec (len req) 6); [apply error_run|].
  destruct (Z.ltb_spec (len req) (6 + proto_get_u16 (drop 4 (payload req))));
    [apply error_run|lia].
Qed.

Lemma handle_write_eeprom_short req :
  len req < 6 \/ len req < 6 + proto_get_u16 (drop 4 (payload req)) ->
  emits (handle_write_eeprom req) tt (response_events STATUS_ERR_PAYLOAD []).
Proof.
  intros Hlen w. unfold handle_write_eeprom.
  destruct (Z.ltb_spec (len req) 6); [apply error_run|].
  destruct (Z.ltb_spec (len req) (6 + proto_get_u16 (drop 4 (payload req))));
    [apply error_run|lia].
Qed.

Lemma handle_read_short req :
  len req < 6 \/ PROTO_MAX_PAYLOAD < proto_get_u16 (drop 4 (payload req)) ->
  emits (handle_read req) tt (response_events STATUS_ERR_PAYLOAD []).
Proof.
  intros Hlen w. unfold handle_read.
  destruct (Z.ltb_spec (len req) 6); [apply error_run|].
  destruct (Z.ltb_spec PROTO_MAX_PAYLOAD
              (proto_get_u16 (drop 4 (payload req))));
    [apply error_run|lia].
Qed.

Lemma dispatch_unknown req :
  ~ (CMD_DIAG <= cmd req <= CMD_VERSION) ->
  emits (dispatch req) tt (response_events STATUS_ERR_CMD []).
Proof.
  unfold CMD_DIAG, CMD_VERSION. intros Hcmd w. unfold dispatch.
  repeat match goal with
         | |- context [cmd req =? ?k] =>
             replace (cmd req =? k) with false
               by (symmetry; apply Z.eqb_neq; unfold k; lia)
         end.
  apply error_run.
Qed.

(** ** One answer for every request *)

Lemma low_byte_range x : is_u8 (low_byte x).
Proof. unfold is_u8, low_byte. apply Z.mod_pos_bound. lia. Qed.

Lemma high_byte_range x : is_u8 (high_byte x).
Proof. unfold is_u8, high_byte. apply Z.mod_pos_bound. lia. Qed.

Lemma read_response_u8 addr read_len ws :
  Forall is_u8 (read_response addr read_len ws).
Proof.
  unfold read_response. destruct (0x310000 <=? addr).
  - apply Forall_fmap, Forall_forall. intros x _. apply low_byte_range.
  - apply Forall_take. induction ws as [|x ws IH]; [constructor|].
    cbn [flat_map unpack_word app].
    constructor; [apply low_byte_range|].
    constructor; [apply high_byte_range|exact IH].
Qed.

Lemma answers_error m w status :
  emits m tt (response_events status []) -> is_u8 status ->
  answers_once m w.
Proof.
  intros Hm Hs. exists w, [], status, [].
  split; [apply Hm|]. split; [constructor|]. split; [reflexivity|].
  split; [exact Hs|]. split; [constructor|]. cbn. unfold PROTO_MAX_PAYLOAD. lia.
Qed.

Lemma answers_intro m w w' t status answer :
  m w = Some (tt, w', t ++ response_events status answer) ->
  target_only t -> stdin w' = stdin w -> is_u8 status ->
  Forall is_u8 answer -> Z.of_nat (length answer) <= PROTO_MAX_PAYLOAD ->
  answers_once m w.
Proof. intros. exists w', t, status, answer. auto 10. Qed.

Ltac status_u8 :=
  unfold is_u8, STATUS_OK, STATUS_ERR_CMD, STATUS_ERR_CRC, STATUS_ERR_TARGET,
    STATUS_ERR_PAYLOAD; lia.

Lemma target_only_leave w : target_only (leave_events w).
Proof. repeat constructor. Qed.

Lemma target_only_key w : target_only (key_events w).
Proof. repeat constructor. Qed.

Lemma target_only_erase r : target_only (erase_region r).
Proof. repeat constructor. Qed.

Ltac target_only_solve :=
  repeat match goal with
         | H : target_only ?t |- target_only ?t => exact H
         | |- target_only (enter_lvp_events _) => apply target_only_enter
         | |- target_only (exit_lvp_events _) => apply target_only_exit
         | |- target_only (id_read_events _ _) => apply target_only_id_read
         | |- target_only (leave_events _) => apply target_only_leave
         | |- target_only (key_events _) => apply target_only_key
         | |- target_only (erase_region _) => apply target_only_erase
         | |- target_only (read_data_events _ _) => apply target_only_read_data
         | |- target_only (program_config_events _ _ _) =>
             apply target_only_program_config
         | |- target_only (byte_write _) => repeat constructor
         | |- target_only (pattern_write _) => repeat constructor
         | |- target_only (flat_map _ _) =>
             apply target_only_flat_map; intros ?
         | |- target_only (_ ++ _) => apply target_only_app
         | |- target_only (_ :: _) => constructor
         | |- target_only [] => constructor
         | |- Forall _ ?t => change (target_only t)
         | |- is_host_output (sent _ _) = false => apply target_only_sent
         | |- is_host_output _ = false => reflexivity
         end.

Lemma handle_diag_answers req w : answers_once (handle_diag req) w.
Proof.
  pose proof (handle_diag_run req w) as Hrun.
  set (t := enter_lvp_events w ++ id_read_events 0x3FFFFE w
              ++ id_read_events 0x3FFFFC (read_data_world w)
              ++ leave_events w).
  assert (Ht : target_only t).
  { unfold t. target_only_solve. }
  assert (Hin : stdin (set_lvp_active false
                         (read_data_world (read_data_world w))) = stdin w).
  { cbn [stdin set_lvp_active]. now rewrite !read_data_world_stdin. }
  destruct (target_absent (read_data_value w)).
  - eapply (answers_intro _ _ _ t STATUS_ERR_TARGET []);
      [rewrite Hrun; unfold t; now rewrite <- !app_assoc
      |exact Ht|exact Hin|status_u8|constructor
      |cbn; unfold PROTO_MAX_PAYLOAD; lia].
  - eapply (answers_intro _ _ _ t STATUS_OK);
      [rewrite Hrun; unfold t; rewrite <- !app_assoc; reflexivity
      |exact Ht|exact Hin|status_u8| |].
    + repeat (constructor; [apply low_byte_range || apply high_byte_range|]).
      apply string_bytes_u8.
    + rewrite length_app. cbn [length].
      pose proof (target_name_length (read_data_value w)).
      unfold PROTO_MAX_PAYLOAD. lia.
Qed.

Lemma handle_erase_answers req w : answers_once (handle_erase req) w.
Proof.
  pose proof (handle_erase_run req w) as Hrun.
  assert (Hin : stdin (set_lvp_active false (read_data_world w)) = stdin w).
  { cbn [stdin set_lvp_active]. now rewrite read_data_world_stdin. }
  destruct (target_absent (read_data_value w)).
  - eapply (answers_intro _ _ _
              (enter_lvp_events w ++ id_read_events 0x3FFFFE w
                 ++ leave_events w) STATUS_ERR_TARGET []);
      [rewrite Hrun; now rewrite <- !app_assoc | |exact Hin|status_u8
      |constructor|cbn; unfold PROTO_MAX_PAYLOAD; lia].
    target_only_solve.
  - eapply (answers_intro _ _ _
              (enter_lvp_events w ++ id_read_events 0x3FFFFE w
                 ++ flat_map erase_region erase_order ++ leave_events w)
              STATUS_OK []);
      [rewrite Hrun; now rewrite <- !app_assoc | |exact Hin|status_u8
      |constructor|cbn; unfold PROTO_MAX_PAYLOAD; lia].
    target_only_solve.
Qed.

Lemma handle_write_page_answers req w : answers_once (handle_write_page req) w.
Proof.
  destruct (Z.lt_ge_cases (len req) (4 + FLASH_ROW_BYTES)) as [Hshort|Hlen].
  { apply (answers_error _ _ STATUS_ERR_PAYLOAD);
      [now apply handle_write_page_short|status_u8]. }
  pose proof (handle_write_page_run req w Hlen) as Hrun.
  eapply answers_intro;
    [rewrite Hrun; rewrite app_assoc; reflexivity| |reflexivity|status_u8
    |constructor|cbn; unfold PROTO_MAX_PAYLOAD; lia].
  target_only_solve.
Qed.

Lemma handle_write_config_answers req w :
  answers_once (handle_write_config req) w.
Proof.
  destruct (Z.lt_ge_cases (len req) 6) as [Hshort|Hlen].
  { apply (answers_error _ _ STATUS_ERR_PAYLOAD);
      [apply handle_write_config_short; now left|status_u8]. }
  destruct (Z.lt_ge_cases (len req)
              (6 + proto_get_u16 (drop 4 (payload req)))) as [Hshort|Hfit].
  { apply (answers_error _ _ STATUS_ERR_PAYLOAD);
      [apply handle_write_config_short; now right|status_u8]. }
  pose proof (handle_write_config_run req w Hlen Hfit) as Hrun.
  eapply answers_intro;
    [rewrite Hrun; rewrite app_assoc; reflexivity| |reflexivity|status_u8
    |constructor|cbn; unfold PROTO_MAX_PAYLOAD; lia].
  target_only_solve.
Qed.

Lemma handle_write_eeprom_answers req w :
  answers_once (handle_write_eeprom req) w.
Proof.
  destruct (Z.lt_ge_cases (len req) 6) as [Hshort|Hlen].
  { apply (answers_error _ _ STATUS_ERR_PAYLOAD);
      [apply handle_write_eeprom_short; now left|status_u8]. }
  destruct (Z.lt_ge_cases (len req)
              (6 + proto_get_u16 (drop 4 (payload req)))) as [Hshort|Hfit].
  { apply (answers_error _ _ STATUS_ERR_PAYLOAD);
      [apply handle_write_eeprom_short; now right|status_u8]. }
  pose proof (handle_write_eeprom_run req w Hlen Hfit) as Hrun.
  eapply answers_intro;
    [rewrite Hrun; rewrite app_assoc; reflexivity| |reflexivity|status_u8
    |constructor|cbn; unfold PROTO_MAX_PAYLOAD; lia].
  target_only_solve.
Qed.

Lemma handle_read_answers req w : answers_once (handle_read req) w.
Proof.
  destruct (Z.lt_ge_cases (len req) 6) as [Hshort|Hlen].
  { apply (answers_error _ _ STATUS_ERR_PAYLOAD);
      [apply handle_read_short; now left|status_u8]. }
  destruct (Z.lt_ge_cases PROTO_MAX_PAYLOAD
              (proto_get_u16 (drop 4 (payload req)))) as [Hbig|Hfit].
  { apply (answers_error _ _ STATUS_ERR_PAYLOAD);
      [apply handle_read_short; now right|status_u8]. }
  destruct (read_words_total
              (Z.to_nat (read_count (proto_get_u32 (payload req))
                           (proto_get_u16 (drop 4 (payload req)))))
              (set_lvp_active true w))
    as (ws & w1 & t1 & Hwords & Hws & _ & Hin).
  pose proof (handle_read_run req w ws w1 t1 Hlen Hfit Hwords) as Hrun.
  destruct (read_words_frame _ _ _ _ _ Hwords) as (_ & Ht1 & _).
  assert (Hpos : 0 <= proto_get_u16 (drop 4 (payload req)))
    by apply to_u16_range.
  eapply (answers_intro _ _ _
            (enter_lvp_events w
               ++ [sent ICSP_COMMAND_LOAD_PC
                     (to_int (proto_get_u32 (payload req)))] ++ t1)
            STATUS_OK);
    [rewrite Hrun; rewrite <- !app_assoc; reflexivity| |exact Hin|status_u8
    |apply read_response_u8|].
  - target_only_solve.
  - rewrite (read_response_length _ _ ws Hpos Hws). lia.
Qed.

Lemma handle_reset_target_answers req w :
  answers_once (handle_reset_target req) w.
Proof.
  pose proof (handle_reset_target_run req w) as Hrun.
  eapply answers_intro;
    [rewrite Hrun; rewrite app_assoc; reflexivity| |reflexivity|status_u8
    |constructor|cbn; unfold PROTO_MAX_PAYLOAD; lia].
  target_only_solve.
Qed.

Lemma handle_test_eeprom_answers req w :
  answers_once (handle_test_eeprom req) w.
Proof.
  destruct (read_words_total 4 (set_lvp_active true (read_data_world w)))
    as (ws & w1 & t1 & Hwords & _ & _ & Hin).
  pose proof (handle_test_eeprom_run req w ws w1 t1 Hwords) as Hrun.
  destruct (read_words_frame _ _ _ _ _ Hwords) as (_ & Ht1 & _).
  cbn [stdin set_lvp_active] in Hin. rewrite read_data_world_stdin in Hin.
  destruct (target_absent (read_data_value w)).
  - eapply (answers_intro _ _ _
              (enter_lvp_events w ++ id_read_events 0x3FFFFE w
                 ++ leave_events w) STATUS_ERR_TARGET []);
      [rewrite Hrun; now rewrite <- !app_assoc |
      |cbn [stdin set_lvp_active]; apply read_data_world_stdin|status_u8
      |constructor|cbn; unfold PROTO_MAX_PAYLOAD; lia].
    target_only_solve.
  - eapply (answers_intro _ _ _
             (enter_lvp_events w ++ id_read_events 0x3FFFFE w
                ++ erase_region EEPROM ++ leave_events w ++ [Ev_sleep_ms 10]
                ++ key_events w ++ [load_pc 0x310000]
                ++ flat_map pattern_write test_pattern
                ++ leave_events w ++ [Ev_sleep_ms 10]
                ++ key_events w ++ [load_pc 0x310000]
                ++ t1 ++ leave_events w) STATUS_OK);
      [rewrite Hrun; rewrite <- !app_assoc; reflexivity|
      |exact Hin|status_u8| |cbn; unfold PROTO_MAX_PAYLOAD; lia].
    + target_only_solve.
    + constructor; [|constructor].
      match goal with |- is_u8 (if ?c then _ else _) => destruct c end;
        unfold is_u8; lia.
Qed.

Lemma handle_version_answers req w : answers_once (handle_version req) w.
Proof.
  eapply (answers_intro _ _ w [] STATUS_OK (string_bytes VERSION_STRING));
    [apply handle_version_run|constructor|reflexivity|status_u8
    |apply string_bytes_u8|apply Z.leb_le; reflexivity].
Qed.

(** Every request is answered, with one frame. *)
Lemma dispatch_answers req w : answers_once (dispatch req) w.
Proof.
  unfold dispatch.
  destruct (cmd req =? CMD_DIAG); [apply handle_diag_answers|].
  destruct (cmd req =? CMD_ERASE); [apply handle_erase_answers|].
  destruct (cmd req =? CMD_WRITE_PAGE); [apply handle_write_page_answers|].
  destruct (cmd req =? CMD_WRITE_CONFIG); [apply handle_write_config_answers|].
  destruct (cmd req =? CMD_WRITE_EEPROM); [apply handle_write_eeprom_answers|].
  destruct (cmd req =? CMD_READ); [apply handle_read_answers|].
  destruct (cmd req =? CMD_RESET_TARGET); [apply handle_reset_target_answers|].
  destruct (cmd req =? CMD_TEST_EEPROM); [apply handle_test_eeprom_answers|].
  destruct (cmd req =? CMD_VERSION); [apply handle_version_answers|].
  apply (answers_error _ _ STATUS_ERR_CMD); [apply error_run|status_u8].
Qed.

(** ** What the commands do *)

(** X7: a command byte outside the table (1 to 9) is answered with the
    frame of [STATUS_ERR_CMD], with an empty payload; nothing is sent to
    the target and the session is as it was. *)
Theorem unknown_command_answered (req : proto_request_t) (w : World) :
  ~ (CMD_DIAG <= cmd req <= CMD_VERSION) ->
  dispatch req w = Some (tt, w, response_events STATUS_ERR_CMD [])
  /\ response_events STATUS_ERR_CMD []
     = (Ev_putchar <$> [0x01; 0; 0; proto_crc8 [0x01; 0; 0] 3])
         ++ [Ev_stdio_flush].
Proof.
  intros Hcmd. split; [now apply dispatch_unknown|reflexivity].
Qed.

(** X8: a request whose payload is too short for its command, or whose
    declared data length does not fit the payload, or a READ of more
    than 256 bytes, is answered with [STATUS_ERR_PAYLOAD] before
    anything is sent to the target: the session is not entered and the
    world stays as it was. *)
Theorem malformed_payload_rejected (req : proto_request_t) (w : World) :
  (len req < 4 + FLASH_ROW_BYTES ->
   handle_write_page req w
     = Some (tt, w, response_events STATUS_ERR_PAYLOAD []))
  /\ (len req < 6 \/ len req < 6 + proto_get_u16 (drop 4 (payload req)) ->
      handle_write_config req w
        = Some (tt, w, response_events STATUS_ERR_PAYLOAD [])
      /\ handle_write_eeprom req w
        = Some (tt, w, response_events STATUS_ERR_PAYLOAD []))
  /\ (len req < 6 \/ PROTO_MAX_PAYLOAD < proto_get_u16 (drop 4 (payload req)) ->
      handle_read req w
        = Some (tt, w, response_events STATUS_ERR_PAYLOAD [])).
Proof.
  split; [|split].
  - intros H. now apply handle_write_page_short.
  - intros H. split;
      [now apply handle_write_config_short
      |now apply handle_write_eeprom_short].
  - intros H. now apply handle_read_short.
Qed.

(** X9: ERASE enters LVP and reads the device ID at 0x3FFFFE.  When the
    ID is 0xFFFF or 0 it leaves LVP and answers [STATUS_ERR_TARGET], and
    no erase opcode has been sent; otherwise it erases the four regions
    in the order CONFIG, FLASH, EEPROM, USER_ID, leaves LVP and answers
    [STATUS_OK].  The session is inactive afterwards in both cases. *)
Theorem erase_probes_then_erases (req : proto_request_t) (w : World) :
  (read_data_value w = 0xFFFF \/ read_data_value w = 0 ->
   handle_erase req w
     = Some (tt, set_lvp_active false (read_data_world w),
             enter_lvp_events w ++ id_read_events 0x3FFFFE w
               ++ leave_events w
               ++ response_events STATUS_ERR_TARGET []))
  /\ (read_data_value w <> 0xFFFF -> read_data_value w <> 0 ->
      handle_erase req w
        = Some (tt, set_lvp_active false (read_data_world w),
                enter_lvp_events w ++ id_read_events 0x3FFFFE w
                  ++ erase_region CONFIG ++ erase_region FLASH
                  ++ erase_region EEPROM ++ erase_region USER_ID
                  ++ leave_events w
                  ++ response_events STATUS_OK [])).
Proof.
  split.
  - intros Hid. rewrite handle_erase_run.
    replace (target_absent (read_data_value w)) with true; [reflexivity|].
    symmetry. unfold target_absent. apply orb_true_iff.
    destruct Hid as [Hid|Hid]; [left|right]; now apply Z.eqb_eq.
  - intros H1 H2. rewrite handle_erase_run.
    replace (target_absent (read_data_value w)) with false; [reflexivity|].
    symmetry. unfold target_absent. apply orb_false_iff.
    split; now apply Z.eqb_neq.
Qed.

Lemma get_u16_low_high x rest :
  is_u16 x -> proto_get_u16 (low_byte x :: high_byte x :: rest) = x.
Proof.
  intros Hx. rewrite get_u16_bytes by (apply low_byte_range || apply high_byte_range).
  unfold low_byte, high_byte, is_u16 in *.
  rewrite (Z.mod_small (x / 256)).
  - pose proof (Z.div_mod x 256 ltac:(lia)). lia.
  - split; [apply Z.div_pos; lia|apply Z.div_lt_upper_bound; lia].
Qed.

(** X10: DIAG reads the device ID and the revision ID and leaves LVP.
    For an ID other than 0xFFFF and 0 the payload of its answer is the
    device ID and the revision ID, two bytes each, low byte first, and
    then the name from the device table, at most 15 bytes in all:
    [proto_get_u16] gives both IDs back from it.  For 0xFFFF and 0 the
    answer is [STATUS_ERR_TARGET]. *)
Theorem diag_reports_ids_and_name (req : proto_request_t) (w : World) :
  handle_diag req w
    = Some (tt, set_lvp_active false (read_data_world (read_data_world w)),
            enter_lvp_events w ++ id_read_events 0x3FFFFE w
              ++ id_read_events 0x3FFFFC (read_data_world w)
              ++ leave_events w
              ++ (if (read_data_value w =? 0xFFFF) || (read_data_value w =? 0)
                  then response_events STATUS_ERR_TARGET []
                  else
                    response_events STATUS_OK
                      (diag_answer (read_data_value w)
                         (read_data_value (read_data_world w)))))
  /\ (forall dev_id rev_id, is_u16 dev_id -> is_u16 rev_id ->
        proto_get_u16 (diag_answer dev_id rev_id) = dev_id
        /\ proto_get_u16 (drop 2 (diag_answer dev_id rev_id)) = rev_id
        /\ drop 4 (diag_answer dev_id rev_id)
           = string_bytes (target_identify dev_id)
        /\ (length (diag_answer dev_id rev_id) <= 15)%nat)
  /\ is_u16 (read_data_value w)
  /\ is_u16 (read_data_value (read_data_world w)).
Proof.
  split; [apply handle_diag_run|].
  split; [|split; apply read_data_value_range].
  intros dev_id rev_id Hdev Hrev. unfold diag_answer.
  split; [now apply get_u16_low_high|].
  split; [now apply get_u16_low_high|].
  split; [reflexivity|].
  pose proof (target_name_length dev_id).
  rewrite length_app. cbn [length]. lia.
Qed.

(** X11: DIAG, ERASE, RESET_TARGET and TEST_EEPROM return with the LVP
    session inactive, whatever the session was before and whatever the
    target answers; the input is left alone. *)
Theorem session_ends_inactive (req : proto_request_t) (w : World) :
  cmd req = CMD_DIAG \/ cmd req = CMD_ERASE \/ cmd req = CMD_RESET_TARGET
    \/ cmd req = CMD_TEST_EEPROM ->
  exists w' t,
    dispatch req w = Some (tt, w', t)
    /\ lvp_active w' = false
    /\ stdin w' = stdin w
    /\ icsp_exit_lvp w' = Some (tt, w', []).
Proof.
  intros Hcmd.
  assert (Hgoal : exists w0 t, dispatch req w
                               = Some (tt, set_lvp_active false w0, t)
                               /\ stdin w0 = stdin w).
  { unfold dispatch.
    destruct Hcmd as [H|[H|[H|H]]]; rewrite H; cbn [Z.eqb Pos.eqb].
    - eexists _, _. split; [apply handle_diag_run|].
      now rewrite !read_data_world_stdin.
    - eexists _, _. split; [apply handle_erase_run|].
      now rewrite !read_data_world_stdin.
    - eexists _, _. split; [apply handle_reset_target_run|reflexivity].
    - destruct (read_words_total 4 (set_lvp_active true (read_data_world w)))
        as (ws & w1 & t1 & Hwords & _ & _ & Hin).
      eexists _, _. split; [apply (handle_test_eeprom_run _ _ _ _ _ Hwords)|].
      cbn [stdin set_lvp_active] in Hin. rewrite read_data_world_stdin in Hin.
      destruct (target_absent (read_data_value w));
        [apply read_data_world_stdin|exact Hin]. }
  destruct Hgoal as (w0 & t & Hrun & Hin).
  exists (set_lvp_active false w0), t.
  split; [exact Hrun|]. split; [reflexivity|]. split; [exact Hin|].
  now rewrite exit_lvp_run.
Qed.

Lemma pattern_check (l : list Z) :
  length l = 4%nat ->
  forallb (fun i => (test_pattern !!! i) =? (l !!! i)) (seq 0 4) = true
  <-> l = test_pattern.
Proof.
  intros Hlen.
  destruct l as [|a [|b [|c [|d [|]]]]]; try discriminate Hlen.
  unfold test_pattern.
  cbn [forallb seq lookup_total list_lookup_total].
  rewrite !andb_true_iff, !Z.eqb_eq. split.
  - intros (<- & <- & <- & <- & _). reflexivity.
  - intros H. inversion H. auto.
Qed.

(** X12: TEST_EEPROM on a target that is there (device ID neither
    0xFFFF nor 0) erases the EEPROM, writes the bytes BB CC DD EE from
    0x310000 on, reads four words back from there, each step in a
    session of its own, and answers [STATUS_OK] with one byte: 1 when
    the low bytes of the four words are BB CC DD EE, and 0 otherwise. *)
Theorem eeprom_test_verdict (req : proto_request_t) (w : World) :
  read_data_value w <> 0xFFFF ->
  read_data_value w <> 0 ->
  exists ws w1 t1 verdict,
    read_words 4 (set_lvp_active true (read_data_world w))
      = Some (ws, w1, t1)
    /\ handle_test_eeprom req w
       = Some (tt, set_lvp_active false w1,
               enter_lvp_events w ++ id_read_events 0x3FFFFE w
                 ++ erase_region EEPROM ++ leave_events w ++ [Ev_sleep_ms 10]
                 ++ key_events w ++ [load_pc 0x310000]
                 ++ flat_map pattern_write test_pattern
                 ++ leave_events w ++ [Ev_sleep_ms 10]
                 ++ key_events w ++ [load_pc 0x310000]
                 ++ t1 ++ leave_events w
                 ++ response_events STATUS_OK [verdict])
    /\ (low_byte <$> ws = test_pattern -> verdict = 1)
    /\ (low_byte <$> ws <> test_pattern -> verdict = 0).
Proof.
  intros H1 H2.
  destruct (read_words_total 4 (set_lvp_active true (read_data_world w)))
    as (ws & w1 & t1 & Hwords & Hlen & _).
  pose proof (handle_test_eeprom_run req w ws w1 t1 Hwords) as Hrun.
  replace (target_absent (read_data_value w)) with false in Hrun.
  2:{ symmetry. unfold target_absent. apply orb_false_iff.
      split; now apply Z.eqb_neq. }
  pose proof (pattern_check (low_byte <$> ws)
                ltac:(now rewrite length_fmap)) as Hcheck.
  eexists ws, w1, t1, _. split; [exact Hwords|]. split; [exact Hrun|].
  destruct (forallb _ _).
  - split; [reflexivity|]. intros Hne. destruct Hne. now apply Hcheck.
  - split; [|reflexivity]. intros Heq. apply Hcheck in Heq. discriminate.
Qed.

(** ** Writing any flash row, word by word *)

Lemma program_page_words addr (ws : list Z) erase :
  (1 <= length ws)%nat ->
  Z.of_nat (length ws) < 2 ^ 32 ->
  Forall (fun x => 0 <= x) ws ->
  emits (icsp_program_page addr ws (Z.of_nat (length ws)) erase)
    (Z.of_nat (length ws)) (row_write_events addr ws erase).
Proof.
  intros Hlen Hmax Hws w.
  rewrite (program_page_run addr ws _ erase) by lia.
  unfold row_write_events.
  replace (Z.to_nat (Z.of_nat (length ws) - 1)) with (length ws - 1)%nat by lia.
  pose proof (sent_words ICSP_COMMAND_LOAD_DATA_INCPC ws (length ws - 1) 0
                ltac:(lia) ltac:(simpl; lia) Hws) as Hinc.
  change (Z.to_nat 0) with 0%nat in Hinc. rewrite drop_0 in Hinc.
  rewrite Hinc.
  destruct (lookup_lt_is_Some_2 ws (length ws - 1) ltac:(lia)) as [x Hx].
  rewrite (drop_S _ _ _ Hx).
  rewrite (list_lookup_total_correct _ _ _ Hx).
  rewrite drop_ge by lia.
  assert (Hpos : 0 <= x) by (rewrite Forall_lookup in Hws; eauto).
  unfold sent at 2. apply Z.leb_le in Hpos. rewrite Hpos.
  reflexivity.
Qed.

(** X13: [icsp_program_page] on a row of [n >= 1] words sends a load-PC
    of the address, the page-erase opcode with its wait of 11 ms when
    asked to erase, the first [n - 1] words by load-data with increment
    of the PC and the last word by load-data without increment, then
    the begin-programming opcode and a wait of 3 ms; it returns [n]. *)
Theorem program_page_increments_all_but_last (addr : Z) (ws : list Z)
    (erase : bool) (w : World) :
  (1 <= length ws)%nat ->
  Z.of_nat (length ws) < 2 ^ 32 ->
  Forall is_u16 ws ->
  icsp_program_page addr ws (Z.of_nat (length ws)) erase w
    = Some (Z.of_nat (length ws), w,
            sent ICSP_COMMAND_LOAD_PC addr
              :: (if erase
                  then [opcode_only ICSP_COMMAND_PAGE_ERASE; Ev_sleep_ms 11]
                  else [])
              ++ (load_data ICSP_COMMAND_LOAD_DATA_INCPC
                    <$> take (length ws - 1) ws)
              ++ (load_data ICSP_COMMAND_LOAD_DATA
                    <$> drop (length ws - 1) ws)
              ++ [opcode_only ICSP_COMMAND_BEGIN_PROG_INT; Ev_sleep_ms 3])
  /\ length (take (length ws - 1) ws) = (length ws - 1)%nat
  /\ length (drop (length ws - 1) ws) = 1%nat.
Proof.
  intros Hlen Hmax Hws. split; [|split].
  - apply program_page_words; [exact Hlen|exact Hmax|].
    eapply Forall_impl; [exact Hws|]. unfold is_u16. intros x Hx. lia.
  - rewrite length_take. lia.
  - rewrite length_drop. lia.
Qed.

(** X14: WRITE_PAGE with at least 132 payload bytes takes the address
    from the first four bytes, low byte first, pairs the 128 bytes after
    them into 64 words, low byte first, enters LVP and programs the row
    with a page erase: 63 words with increment of the PC, the last one
    without.  It answers [STATUS_OK] and leaves the session active; the
    bytes of the payload after the first 132 are not used. *)
Theorem write_page_programs_row (req : proto_request_t) (w : World) :
  4 + FLASH_ROW_BYTES <= len req ->
  length (payload req) = Z.to_nat PROTO_MAX_PAYLOAD ->
  Forall is_u8 (payload req) ->
  handle_write_page req w
    = Some (tt, set_lvp_active true w,
            enter_lvp_events w
              ++ row_write_events (to_int (proto_get_u32 (payload req)))
                   (config_words (take 128 (drop 4 (payload req)))) true
              ++ response_events STATUS_OK [])
  /\ length (config_words (take 128 (drop 4 (payload req)))) = 64%nat.
Proof.
  intros Hlen Hreq Hbytes.
  change (Z.to_nat PROTO_MAX_PAYLOAD) with 256%nat in Hreq.
  set (ws := config_words (take 128 (drop 4 (payload req)))).
  assert (Hws : length ws = 64%nat).
  { apply Nat2Z.inj. unfold ws. rewrite config_words_length.
    rewrite length_take, length_drop, Hreq. reflexivity. }
  split; [|exact Hws].
  unfold handle_write_page.
  replace (len req <? 4 + FLASH_ROW_BYTES) with false
    by (symmetry; apply Z.ltb_ge; lia).
  change (Z.to_nat FLASH_ROW_WORDS) with 64%nat.
  rewrite (row_words (drop 4 (payload req)) 64 0)
    by (first [now apply Forall_drop | rewrite length_drop, Hreq; lia]).
  change (2 * 64)%nat with 128%nat. change (2 * 0)%nat with 0%nat.
  rewrite drop_0. fold ws.
  change FLASH_ROW_WORDS with (Z.of_nat 64). rewrite <- Hws.
  rewrite (bind_run _ _ _ _ _ _ (enter_lvp_run w)).
  assert (Hpos : Forall (fun x => 0 <= x) ws).
  { eapply Forall_impl; [apply config_words_range|].
    - now apply Forall_take, Forall_drop.
    - unfold is_u16. intros x Hx. lia. }
  rewrite (bind_emits _ _ _ _ _
             (program_page_words _ ws true ltac:(lia) ltac:(lia) Hpos)).
  unfold proto_send_ok. rewrite send_response_empty.
  reflexivity.
Qed.

(** ** A programmer without an input pin *)

Lemma read_data_no_pin w :
  dataInPin w = -1 ->
  read_data_value w = 0xFFFF
  /\ read_data_world w = w
  /\ forall b, read_data_events b w = [].
Proof.
  intros Hpin. unfold read_data_value, read_data_world, read_data_events.
  rewrite Hpin. auto.
Qed.

Lemma read_words_no_pin n w :
  dataInPin w = -1 -> read_words n w = Some (repeat 0xFFFF n, w, []).
Proof.
  intros Hpin. destruct (read_data_no_pin w Hpin) as (Hv & Hw & Ht).
  induction n as [|n IH]; [reflexivity|].
  cbn [read_words repeat].
  rewrite (bind_run _ _ _ _ _ _ (read_data_run true w)).
  rewrite Hv, Hw, Ht.
  rewrite (bind_run _ _ _ _ _ _ IH). reflexivity.
Qed.

Lemma take_repeat_le {A} (x : A) n m :
  (n <= m)%nat -> take n (repeat x m) = repeat x n.
Proof.
  revert m. induction n as [|n IH]; intros m Hle; [now rewrite take_0|].
  destruct m as [|m]; [lia|]. cbn [repeat take]. f_equal. apply IH. lia.
Qed.

Lemma read_response_ones addr n :
  0 <= n ->
  read_response addr n (repeat 0xFFFF (Z.to_nat (read_count addr n)))
    = repeat 0xFF (Z.to_nat n).
Proof.
  intros Hn. unfold read_response, read_count.
  destruct (0x310000 <=? addr).
  - induction (Z.to_nat n) as [|k IH]; [reflexivity|].
    cbn [repeat fmap list_fmap]. now rewrite IH.
  - assert (Hflat : forall k, flat_map unpack_word (repeat 0xFFFF k)
                              = repeat 0xFF (2 * k)).
    { induction k as [|k IH]; [reflexivity|].
      replace (2 * S k)%nat with (S (S (2 * k))) by lia.
      cbn [repeat flat_map app]. now rewrite IH. }
    rewrite Hflat. apply take_repeat_le.
    pose proof (Z.div_mod (n + 1) 2 ltac:(lia)).
    pose proof (Z.mod_pos_bound (n + 1) 2 ltac:(lia)). lia.
Qed.

(** X15: with no input pin ([icsp_init] called with -1 for it) the
    programmer cannot read the target: [icsp_cmd_read_data] returns
    0xFFFF without any bus traffic, so that the device ID reads 0xFFFF,
    ERASE answers [STATUS_ERR_TARGET] whatever target is connected, and
    a READ of [n] bytes answers with [n] bytes 0xFF. *)
Theorem no_input_pin_reads_ones (req : proto_request_t) (w : World) :
  dataInPin w = -1 ->
  (forall increment_pc,
     icsp_cmd_read_data increment_pc w = Some (0xFFFF, w, []))
  /\ icsp_get_device_id w
     = Some (0xFFFF, w, [load_pc 0x3FFFFE; Ev_sleep_us 1])
  /\ handle_erase req w
     = Some (tt, set_lvp_active false w,
             enter_lvp_events w ++ [load_pc 0x3FFFFE; Ev_sleep_us 1]
               ++ leave_events w ++ response_events STATUS_ERR_TARGET [])
  /\ (6 <= len req ->
      proto_get_u16 (drop 4 (payload req)) <= PROTO_MAX_PAYLOAD ->
      handle_read req w
        = Some (tt, set_lvp_active true w,
                enter_lvp_events w
                  ++ [sent ICSP_COMMAND_LOAD_PC
                        (to_int (proto_get_u32 (payload req)))]
                  ++ response_events STATUS_OK
                       (repeat 0xFF
                          (Z.to_nat (proto_get_u16 (drop 4 (payload req)))))))
  /\ (forall pin_mclr pin_dat pin_clk w0 increment_pc,
        (icsp_init pin_mclr pin_dat pin_clk (-1) ;;
         icsp_cmd_read_data increment_pc) w0
          = Some (0xFFFF, set_pins pin_dat (-1) pin_clk pin_mclr w0,
                  init_events_no_input pin_mclr pin_dat pin_clk)).
Proof.
  intros Hpin. destruct (read_data_no_pin w Hpin) as (Hv & Hw & Ht).
  split; [|split; [|split; [|split]]].
  - intros b. now rewrite read_data_run, Hv, Hw, Ht.
  - rewrite get_device_id_run. unfold id_read_events.
    now rewrite Hv, Hw, Ht.
  - rewrite handle_erase_run. unfold id_read_events.
    rewrite Hv, Hw, Ht. reflexivity.
  - intros Hlen Hmax.
    assert (Hpos : 0 <= proto_get_u16 (drop 4 (payload req)))
      by apply to_u16_range.
    rewrite (handle_read_run req w _ _ _ Hlen Hmax
               (read_words_no_pin _ (set_lvp_active true w) Hpin)).
    now rewrite read_response_ones.
  - intros pin_mclr pin_dat pin_clk w0 b. reflexivity.
Qed.

(** ** Erase opcodes *)






(** ** Requests and answers in the main loop *)

Lemma request_of_length tag pl req :
  (length pl <= length (payload req))%nat ->
  length (payload (request_of tag pl req)) = length (payload req).
Proof.
  intros Hlen. unfold request_of. cbn [payload].
  rewrite length_app, length_drop. lia.
Qed.

(** One turn of the main loop on a well formed frame. *)
Lemma main_iteration_run req w tag pl rest :
  is_u8 tag ->
  Forall is_u8 pl ->
  Z.of_nat (length pl) <= PROTO_MAX_PAYLOAD ->
  length (payload req) = Z.to_nat PROTO_MAX_PAYLOAD ->
  exists w' t status answer,
    main_iteration req (set_stdin (frame tag pl ++ rest) w)
      = Some (request_of tag pl req, w',
              [Ev_gpio_put PICO_DEFAULT_LED_PIN true] ++ t
                ++ response_events status answer
                ++ [Ev_gpio_put PICO_DEFAULT_LED_PIN false])
    /\ stdin w' = rest
    /\ target_only t
    /\ is_u8 status
    /\ Forall is_u8 answer
    /\ Z.of_nat (length answer) <= PROTO_MAX_PAYLOAD.
Proof.
  intros Htag Hpl Hmax Hreq.
  assert (Hread :
    proto_read_request req (set_stdin (frame tag pl ++ rest) w)
      = Some ((true, request_of tag pl req), set_stdin rest w, [])).
  { rewrite (read_request_ok req _ tag pl rest Htag Hpl Hmax);
      [reflexivity|unfold PROTO_MAX_PAYLOAD in *; lia|reflexivity]. }
  destruct (dispatch_answers (request_of tag pl req) (set_stdin rest w))
    as (w' & t & status & answer & Hrun & Ht & Hin & Hs & Ha & Hlen).
  exists w', t, status, answer.
  split; [|auto].
  unfold main_iteration. rewrite (bind_run _ _ _ _ _ _ Hread).
  cbn [fst snd negb].
  rewrite (bind_emits (gpio_put PICO_DEFAULT_LED_PIN true) _ tt
             [Ev_gpio_put PICO_DEFAULT_LED_PIN true] _ (emits_emit _)).
  rewrite (bind_run _ _ _ _ _ _ Hrun).
  rewrite (bind_emits (gpio_put PICO_DEFAULT_LED_PIN false) _ tt
             [Ev_gpio_put PICO_DEFAULT_LED_PIN false] _ (emits_emit _)).
  cbn [prepend ret app]. rewrite <- app_assoc. reflexivity.
Qed.

(** X17: one turn of the main loop on a well formed request frame, for
    any command byte and any payload of at most 256 bytes, returns: it
    uses up exactly the bytes of the frame, stores the request, switches
    the LED on, acts on the target without writing to the host, writes
    exactly one response frame with a payload of at most 256 bytes, and
    switches the LED off. *)
Theorem every_request_gets_one_answer (req : proto_request_t) (w : World)
    (tag : Z) (pl rest : list Z) :
  is_u8 tag ->
  Forall is_u8 pl ->
  Z.of_nat (length pl) <= PROTO_MAX_PAYLOAD ->
  length (payload req) = Z.to_nat PROTO_MAX_PAYLOAD ->
  exists w' t status answer,
    main_iteration req (set_stdin (frame tag pl ++ rest) w)
      = Some (request_of tag pl req, w',
              [Ev_gpio_put PICO_DEFAULT_LED_PIN true] ++ t
                ++ response_events status answer
                ++ [Ev_gpio_put PICO_DEFAULT_LED_PIN false])
    /\ stdin w' = rest
    /\ target_only t
    /\ is_u8 status
    /\ Forall is_u8 answer
    /\ Z.of_nat (length answer) <= PROTO_MAX_PAYLOAD.
Proof. apply main_iteration_run. Qed.

(** X18: when the input holds the frames of [k] well formed requests one
    after the other, [k] turns of the main loop return, use up exactly
    these frames, and what they write to the host is [k] response frames
    one after the other, each with a status byte and a payload of at
    most 256 bytes. *)
Theorem requests_answered_in_turn (rs : list (Z * list Z)) (rest : list Z) :
  Forall well_formed rs ->
  forall (req : proto_request_t) (w : World),
    length (payload req) = Z.to_nat PROTO_MAX_PAYLOAD ->
    exists req' w' t answers,
      main_loop (length rs) req (set_stdin (request_frames rs ++ rest) w)
        = Some (req', w', t)
      /\ stdin w' = rest
      /\ host_output t = answer_events answers
      /\ length answers = length rs
      /\ Forall well_formed answers.
Proof.
  induction 1 as [|[tag pl] rs (Htag & Hpl & Hmax) _ IH]; intros req w Hreq.
  - exists req, (set_stdin rest w), [], []. repeat split; constructor.
  - cbn [fst snd] in Htag, Hpl, Hmax.
    cbn [length main_loop request_frames flat_map fst snd].
    fold (request_frames rs). rewrite <- app_assoc.
    destruct (main_iteration_run req w tag pl (request_frames rs ++ rest)
                Htag Hpl Hmax Hreq)
      as (w1 & t1 & status & answer & Hrun & Hin & Ht1 & Hs & Ha & Hlen).
    rewrite (bind_run _ _ _ _ _ _ Hrun).
    destruct (IH (request_of tag pl req) w1) as (req' & w' & t & answers & Hloop & Hrest & Hout & Hn & Hall).
    { rewrite request_of_length; [exact Hreq|].
      unfold PROTO_MAX_PAYLOAD in *. lia. }
    rewrite <- Hin, set_stdin_same in Hloop. rewrite Hloop.
    exists req', w', 
      (([Ev_gpio_put PICO_DEFAULT_LED_PIN true] ++ t1
          ++ response_events status answer
          ++ [Ev_gpio_put PICO_DEFAULT_LED_PIN false]) ++ t),
      ((status, answer) :: answers).
    split; [reflexivity|]. split; [exact Hrest|].
    split; [|split; [cbn [length]; now rewrite Hn|]].
    + rewrite !host_output_app, Hout, host_output_response.
      rewrite (host_output_target_only t1 Ht1).
      cbn [answer_events flat_map fst snd app host_output List.filter
           is_host_output].
      now rewrite app_nil_r.
    + constructor; [|exact Hall]. unfold well_formed. cbn [fst snd]. auto.
Qed.

(** ** Oversized requests that are skipped *)

(** X19: a header that declares a length [n] with [256 < n < 65535]
    makes the parser read and drop the next [n + 1] results of
    [getchar], whatever they are, send nothing, set the length of the
    request to 0 and return [false] with the payload buffer untouched;
    a well formed frame that follows is then read as usual. *)
Theorem oversized_request_skipped (req : proto_request_t) (w : World)
    (c n : Z) (junk : list Z) (tag : Z) (pl rest : list Z) :
  is_u8 c ->
  PROTO_MAX_PAYLOAD < n < 65535 ->
  Z.of_nat (length junk) = n + 1 ->
  is_u8 tag ->
  Forall is_u8 pl ->
  Z.of_nat (length pl) <= PROTO_MAX_PAYLOAD ->
  length (payload req) = Z.to_nat PROTO_MAX_PAYLOAD ->
  proto_read_request req
    (set_stdin ([c; n mod 256; n / 256] ++ junk ++ frame tag pl ++ rest) w)
    = Some ((false, mk_request c 0 (payload req)),
            set_stdin (frame tag pl ++ rest) w, [])
  /\ (r <- proto_read_request req ;; proto_read_request (snd r))
       (set_stdin ([c; n mod 256; n / 256] ++ junk ++ frame tag pl ++ rest) w)
     = Some ((true, request_of tag pl req), set_stdin rest w, []).
Proof.
  intros Hc Hn Hjunk Htag Hpl Hmax Hreq. split.
  - now apply oversized_request_dropped.
  - apply oversized_then_next_request; try assumption.
    unfold PROTO_MAX_PAYLOAD in *. lia.
Qed.

(** ** What WRITE_CONFIG and WRITE_EEPROM write *)

Lemma program_config_events_words addr data n :
  - 2 ^ 31 <= addr ->
  addr + n <= 2 ^ 31 ->
  0 <= n <= Z.of_nat (length data) ->
  Forall is_u8 data ->
  program_config_events addr data n
    = config_writes addr (config_words (take (Z.to_nat n) data)).
Proof.
  intros Haddr Hmax Hlen Hbytes. unfold program_config_events.
  set (k := Z.to_nat (n / 2)).
  pose proof (Z.div_mod n 2 ltac:(lia)) as Hdm.
  pose proof (Zmod_odd n) as Hodd.
  assert (Hk : n = 2 * Z.of_nat k + Z.b2z (Z.odd n)).
  { unfold k. rewrite Z2Nat.id by (apply Z.div_pos; lia).
    destruct (Z.odd n); simpl; lia. }
  pose proof (config_writes_by_index addr data k 0 (Z.odd n)
                ltac:(lia) Haddr ltac:(lia) ltac:(lia) Hbytes) as Hpure.
  change (Z.to_nat 0) with 0%nat in Hpure. rewrite drop_0 in Hpure.
  replace (2 * k + Nat.b2n (Z.odd n))%nat with (Z.to_nat n) in Hpure
    by (destruct (Z.odd n); simpl in *; lia).
  rewrite Z.add_0_r in Hpure. rewrite <- Hpure.
  replace (0 + 2 * Z.of_nat k) with (n - Z.b2z (Z.odd n)) by lia.
  destruct (Z.odd n); reflexivity.
Qed.

Lemma byte_writes_of_bytes (data : list Z) : forall k i,
  0 <= i ->
  (Z.to_nat i + k <= length data)%nat ->
  Forall is_u8 data ->
  flat_map (fun i => byte_write (to_u16 (data !!! Z.to_nat i))) (zseq i k)
    = flat_map byte_write (take k (drop (Z.to_nat i) data)).
Proof.
  induction k as [|k IH]; intros i Hi Hlen Hdata.
  - now rewrite take_0.
  - destruct (lookup_lt_is_Some_2 data (Z.to_nat i) ltac:(lia)) as [x Hx].
    rewrite (drop_S _ _ _ Hx). cbn [zseq flat_map take].
    rewrite (list_lookup_total_correct _ _ _ Hx).
    rewrite IH by (assumption || lia).
    replace (Z.to_nat (i + 1)) with (S (Z.to_nat i)) by lia.
    f_equal. f_equal. apply to_u16_id.
    assert (Hx8 : is_u8 x) by (rewrite Forall_lookup in Hdata; eauto).
    unfold is_u8, is_u16 in *. lia.
Qed.

(** X20: WRITE_CONFIG with a data length that fits the payload takes
    the address from the first four payload bytes and the data length
    from the next two, low byte first, and programs the data bytes that
    follow as 16 bit words, low byte first, an odd last byte with 0xFF
    above it, at the address, the address plus 2 and so on, each word
    with a load-PC of its own; then it answers [STATUS_OK]. *)
Theorem write_config_programs_words (req : proto_request_t) (w : World) :
  6 <= len req ->
  6 + proto_get_u16 (drop 4 (payload req)) <= len req ->
  len req <= PROTO_MAX_PAYLOAD ->
  length (payload req) = Z.to_nat PROTO_MAX_PAYLOAD ->
  Forall is_u8 (payload req) ->
  proto_get_u32 (payload req) + proto_get_u16 (drop 4 (payload req))
    < 2 ^ 31 ->
  handle_write_config req w
    = Some (tt, set_lvp_active true w,
            enter_lvp_events w
              ++ config_writes (proto_get_u32 (payload req))
                   (config_words
                      (take (Z.to_nat (proto_get_u16 (drop 4 (payload req))))
                         (drop 6 (payload req))))
              ++ response_events STATUS_OK []).
Proof.
  intros Hlen Hfit Hmax Hreq Hbytes Haddr.
  rewrite (handle_write_config_run req w Hlen Hfit).
  assert (H16 : is_u16 (proto_get_u16 (drop 4 (payload req))))
    by apply to_u16_range.
  assert (H32 : 0 <= proto_get_u32 (payload req) < 2 ^ 32).
  { unfold proto_get_u32, to_u32. apply Z.mod_pos_bound. lia. }
  unfold is_u16, PROTO_MAX_PAYLOAD in *.
  rewrite to_int_id by lia.
  rewrite program_config_events_words;
    [reflexivity|lia|lia|rewrite length_drop, Hreq; lia
    |now apply Forall_drop].
Qed.

(** X21: WRITE_EEPROM with a data length that fits the payload loads
    the PC once with the address from the first four payload bytes and
    writes the data bytes that follow the six byte header one by one,
    in their order: each by a load-data with increment of the PC that
    carries the byte, the begin-programming opcode, a wait of 75 us and
    a wait of 11 ms; then it answers [STATUS_OK]. *)
Theorem write_eeprom_writes_each_byte (req : proto_request_t) (w : World) :
  6 <= len req ->
  6 + proto_get_u16 (drop 4 (payload req)) <= len req ->
  len req <= PROTO_MAX_PAYLOAD ->
  length (payload req) = Z.to_nat PROTO_MAX_PAYLOAD ->
  Forall is_u8 (payload req) ->
  handle_write_eeprom req w
    = Some (tt, set_lvp_active true w,
            enter_lvp_events w
              ++ (sent ICSP_COMMAND_LOAD_PC
                    (to_int (proto_get_u32 (payload req)))
                    :: flat_map byte_write
                         (take
                            (Z.to_nat (proto_get_u16 (drop 4 (payload req))))
                            (drop 6 (payload req))))
              ++ response_events STATUS_OK []).
Proof.
  intros Hlen Hfit Hmax Hreq Hbytes.
  rewrite (handle_write_eeprom_run req w Hlen Hfit).
  assert (H16 : is_u16 (proto_get_u16 (drop 4 (payload req))))
    by apply to_u16_range.
  unfold is_u16, PROTO_MAX_PAYLOAD in *.
  rewrite (byte_writes_of_bytes (drop 6 (payload req)) _ 0);
    [|lia|rewrite length_drop, Hreq; simpl; lia|now apply Forall_drop].
  change (Z.to_nat 0) with 0%nat. now rewrite drop_0.
Qed.

(** ** The operand of a command *)

Lemma payload_bytes_low_bits a :
  0 <= a -> payload_bytes a = payload_bytes (a mod 2 ^ 23).
Proof.
  intros Ha. unfold payload_bytes.
  assert (Hbits : forall i, 0 <= i < 23 ->
            Z.testbit (a mod 2 ^ 23) i = Z.testbit a i)
    by (intros i Hi; apply Z.mod_pow2_bits_low; lia).
  assert (Hland : forall x y,
            (forall i, 0 <= i < 8 -> Z.testbit x i = Z.testbit y i) ->
            Z.land x 255 = Z.land y 255).
  { intros x y Hxy. apply Z.bits_inj'. intros i Hi.
    rewrite !Z.land_spec. change 255 with (Z.ones 8).
    rewrite (testbit_ones_nonneg 8) by lia.
    destruct (Z.ltb_spec i 8); [|now rewrite !andb_false_r].
    rewrite Hxy by lia. reflexivity. }
  f_equal; [|f_equal; [|f_equal]]; f_equal; apply Hland; intros i Hi.
  - rewrite !Z.shiftr_spec by lia. symmetry. apply Hbits. lia.
  - rewrite !Z.shiftr_spec by lia. symmetry. apply Hbits. lia.
  - rewrite !Z.shiftl_spec by lia.
    destruct (Z.eq_dec i 0) as [->|Hne];
      [now rewrite !Z.testbit_neg_r by lia|].
    symmetry. apply Hbits. lia.
Qed.

(** X22: [icsp_send_command] puts the low 23 bits of a payload that is
    not negative on the bus, so that payloads that agree in these bits
    give the same command, and sends the opcode alone for a negative
    payload.  An address of [2^31] or more, the handlers pass as
    [(int)addr], is negative there: [icsp_cmd_loadpc] then sends the
    load-PC opcode without an address. *)
Theorem load_pc_operand_limits (opcode a : Z) (w : World) :
  (0 <= a ->
   icsp_send_command opcode a w
     = Some (tt, w, [Ev_spi_write (to_u8 opcode :: payload_bytes (a mod 2 ^ 23))]))
  /\ (a < 0 ->
      icsp_send_command opcode a w = Some (tt, w, [Ev_spi_write [to_u8 opcode]]))
  /\ (2 ^ 31 <= a < 2 ^ 32 ->
      icsp_cmd_loadpc (to_int a) w
        = Some (tt, w, [opcode_only ICSP_COMMAND_LOAD_PC])).
Proof.
  split; [|split].
  - intros Ha. rewrite emits_send_command. unfold sent.
    rewrite <- payload_bytes_low_bits by exact Ha.
    apply Z.leb_le in Ha. now rewrite Ha.
  - intros Ha. rewrite emits_send_command. unfold sent.
    replace (0 <=? a) with false by (symmetry; apply Z.leb_gt; lia).
    reflexivity.
  - intros Ha. rewrite emits_loadpc. unfold sent, to_int.
    replace ((a + 2 ^ 31) mod 2 ^ 32) with (a - 2 ^ 31).
    2:{ apply (Z.mod_unique_pos _ _ 1); lia. }
    replace (0 <=? a - 2 ^ 31 - 2 ^ 31) with false
      by (symmetry; apply Z.leb_gt; lia).
    reflexivity.
Qed.

End Firmware.

(** ** The theorems at concrete inputs *)

Lemma erase_selected_regions_in_order_witness :
  selected 0x0B CONFIG = true
  /\ selected 0x0B FLASH = true
  /\ exists rest,
      icsp_cmd_erase 0x0B (pico_world [])
        = Some (tt, pico_world [],
                [load_pc 0x300000; opcode_only ICSP_COMMAND_BULK_ERASE;
                 Ev_sleep_ms 26;
                 load_pc 0x000000; opcode_only ICSP_COMMAND_BULK_ERASE;
                 Ev_sleep_ms 26] ++ rest).
Proof.
  split; [reflexivity|]. split; [reflexivity|].
  apply (proj2 (erase_selected_regions_in_order 0x0B (pico_world [])));
    reflexivity.
Defined.

Lemma encode_decode_inverse_witness :
  is_u16 0xAAAA
  /\ dataInPin (pico_world [0x01; 0x55; 0x54]) <> -1
  /\ spi_next (pico_world [0x01; 0x55; 0x54]) 3 = payload_bytes 0xAAAA
  /\ data_word (payload_bytes 0xAAAA) = 0xAAAA.
Proof.
  assert (H1 : is_u16 0xAAAA) by (unfold is_u16; lia).
  assert (H2 : dataInPin (pico_world [0x01; 0x55; 0x54]) <> -1)
    by (simpl; lia).
  assert (H3 : spi_next (pico_world [0x01; 0x55; 0x54]) 3
               = payload_bytes 0xAAAA) by reflexivity.
  split; [exact H1|]. split; [exact H2|]. split; [exact H3|].
  apply (encode_decode_inverse ICSP_COMMAND_LOAD_DATA 0xAAAA true
           (pico_world [0x01; 0x55; 0x54]) H1 H2 H3).
Defined.

Lemma frame_round_trip_witness :
  is_u8 STATUS_OK
  /\ Forall is_u8 [1; 2; 3]
  /\ 0 <= 3 <= PROTO_MAX_PAYLOAD
  /\ 3 <= Z.of_nat (length [1; 2; 3])
  /\ length (payload idle_request) = Z.to_nat PROTO_MAX_PAYLOAD
  /\ proto_send_response (fun _ => 0) STATUS_OK (Some [1; 2; 3]) 3
       (pico_world [])
     = Some (tt, pico_world [],
             (Ev_putchar <$> frame STATUS_OK [1; 2; 3]) ++ [Ev_stdio_flush]).
Proof.
  assert (H1 : is_u8 STATUS_OK) by (unfold is_u8, STATUS_OK; lia).
  assert (H2 : Forall is_u8 [1; 2; 3])
    by (repeat constructor; unfold is_u8; lia).
  assert (H3 : 0 <= 3 <= PROTO_MAX_PAYLOAD)
    by (unfold PROTO_MAX_PAYLOAD; lia).
  assert (H4 : 3 <= Z.of_nat (length [1; 2; 3])) by (simpl; lia).
  assert (H5 : length (payload idle_request) = Z.to_nat PROTO_MAX_PAYLOAD)
    by reflexivity.
  split; [exact H1|]. split; [exact H2|]. split; [exact H3|].
  split; [exact H4|]. split; [exact H5|].
  apply (frame_round_trip (-1) ltac:(lia) (fun _ => 0) STATUS_OK [1; 2; 3] 3
           idle_request (pico_world []) [] H1 H2 H3 H4 H5).
Defined.

Lemma write_page_end_to_end_witness :
  length (payload idle_request) = Z.to_nat PROTO_MAX_PAYLOAD
  /\ exists out,
      main_iteration (-1) 25 (fun _ => 0) idle_request
        (set_stdin
           (frame CMD_WRITE_PAGE ([0; 0; 0; 0] ++ repeat 0xAA 128) ++ [])
           (pico_world []))
        = Some out
      /\ lvp_active (snd (fst out)) = true.
Proof.
  split; [reflexivity|]. eexists. split.
  - apply (proj2 (write_page_end_to_end (-1) ltac:(lia) 25 (fun _ => 0)
                    idle_request (pico_world []) [] eq_refl)).
  - reflexivity.
Defined.

Lemma program_config_writes_every_word_witness :
  - 2 ^ 31 <= 0x300000
  /\ 0x300000 + 3 <= 2 ^ 31
  /\ 0 <= 3 <= Z.of_nat (length [0xFF; 0xFF; 0xFF])
  /\ Forall is_u8 [0xFF; 0xFF; 0xFF]
  /\ icsp_program_config 0x300000 [0xFF; 0xFF; 0xFF] 3 (pico_world [])
     = Some (tt, pico_world [],
             word_write 0x300000 0xFFFF ++ word_write 0x300002 0xFFFF).
Proof.
  assert (H1 : - 2 ^ 31 <= 0x300000) by lia.
  assert (H2 : 0x300000 + 3 <= 2 ^ 31) by lia.
  assert (H3 : 0 <= 3 <= Z.of_nat (length [0xFF; 0xFF; 0xFF]))
    by (simpl; lia).
  assert (H4 : Forall is_u8 [0xFF; 0xFF; 0xFF])
    by (repeat constructor; unfold is_u8; lia).
  split; [exact H1|]. split; [exact H2|]. split; [exact H3|].
  split; [exact H4|].
  apply (proj1 (program_config_writes_every_word 0x300000
                  [0xFF; 0xFF; 0xFF] 3 (pico_world []) H1 H2 H3 H4)).
Defined.

Lemma oversized_length_65535_never_returns_witness :
  is_u8 CMD_VERSION
  /\ proto_read_request (-1) (fun _ => 0) idle_request
       (set_stdin (CMD_VERSION :: 0xFF :: 0xFF :: repeat 0 1000)
          (pico_world []))
     = None.
Proof.
  assert (H1 : is_u8 CMD_VERSION) by (unfold is_u8, CMD_VERSION; lia).
  split; [exact H1|].
  apply (oversized_length_65535_never_returns (-1) ltac:(lia) (fun _ => 0)
           idle_request (pico_world []) CMD_VERSION (repeat 0 1000) H1).
Defined.

Lemma crc8_poly07_msb_first_witness :
  Forall is_u8 [0x03; 0x84; 0x00]
  /\ gf2_multiple CRC8_POLY
       (Z.lxor (Z.shiftl (message_value [0x03; 0x84; 0x00]) 8)
          (proto_crc8 [0x03; 0x84; 0x00] 3))
  /\ proto_crc8 [0x03; 0x84; 0x00] 3 = crc8_reference [0x03; 0x84; 0x00].
Proof.
  assert (H1 : Forall is_u8 [0x03; 0x84; 0x00])
    by (repeat constructor; unfold is_u8; lia).
  split; [exact H1|]. split.
  - apply (proj1 crc8_poly07_msb_first [0x03; 0x84; 0x00] H1).
  - apply (proj1 (proj2 (proj2 crc8_poly07_msb_first))
             [0x03; 0x84; 0x00] H1).
Defined.

Lemma read_unpacks_words_witness :
  6 <= len (mk_request CMD_READ 6 ([0; 0; 0; 0; 3; 0] ++ repeat 0 250))
  /\ proto_get_u16
       (drop 4 (payload (mk_request CMD_READ 6
                           ([0; 0; 0; 0; 3; 0] ++ repeat 0 250))))
     <= PROTO_MAX_PAYLOAD
  /\ exists out,
      handle_read (fun _ => 0)
        (mk_request CMD_READ 6 ([0; 0; 0; 0; 3; 0] ++ repeat 0 250))
        (pico_world [0x00; 0x91; 0x1A; 0x00; 0x2B; 0x3C]) = Some out.
Proof.
  assert (H1 : 6 <= len (mk_request CMD_READ 6
                           ([0; 0; 0; 0; 3; 0] ++ repeat 0 250)))
    by (simpl; lia).
  assert (H2 : proto_get_u16
                 (drop 4 (payload (mk_request CMD_READ 6
                                     ([0; 0; 0; 0; 3; 0] ++ repeat 0 250))))
               <= PROTO_MAX_PAYLOAD)
    by (vm_compute; discriminate).
  split; [exact H1|]. split; [exact H2|].
  destruct (read_unpacks_words (fun _ => 0) _
              (pico_world [0x00; 0x91; 0x1A; 0x00; 0x2B; 0x3C]) H1 H2)
    as (ws & w1 & t1 & _ & _ & Hrun & _).
  eexists. exact Hrun.
Defined.

Lemma session_stays_active_witness :
  proto_read_request (-1) (fun _ => 0) idle_request
    (set_stdin (frame CMD_READ [0; 0; 0; 0; 2; 0]) (pico_world []))
    = Some ((true,
             mk_request CMD_READ 6 ([0; 0; 0; 0; 2; 0] ++ repeat 0 250)),
            pico_world [], [])
  /\ exists w',
      (exists t answer,
         main_iteration (-1) 25 (fun _ => 0) idle_request
           (set_stdin (frame CMD_READ [0; 0; 0; 0; 2; 0]) (pico_world []))
         = Some (mk_request CMD_READ 6 ([0; 0; 0; 0; 2; 0] ++ repeat 0 250),
                 w',
                 [] ++ [Ev_gpio_put 25 true]
                    ++ enter_lvp_events (pico_world []) ++ t
                    ++ response_events STATUS_OK answer
                    ++ [Ev_gpio_put 25 false]))
      /\ lvp_active w' = true.
Proof.
  assert (H1 : proto_read_request (-1) (fun _ => 0) idle_request
                 (set_stdin (frame CMD_READ [0; 0; 0; 0; 2; 0])
                    (pico_world []))
               = Some ((true,
                        mk_request CMD_READ 6
                          ([0; 0; 0; 0; 2; 0] ++ repeat 0 250)),
                       pico_world [], [])) by reflexivity.
  split; [exact H1|].
  destruct (session_stays_active (-1) 25 (fun _ => 0) idle_request _ _ _ _
              H1 ltac:(simpl; lia)
              ltac:(right; split; [reflexivity|vm_compute; discriminate]))
    as (w' & t & answer & Hrun & Hact & _).
  exists w'. split; [|exact Hact]. exists t, answer. exact Hrun.
Defined.

Lemma k42_first_entry_wins_witness :
  0x6C00 / 256 = 0x6C
  /\ target_identify 0x6C00 = "PIC18F27K42"%string
  /\ target_flash_size 0x6C00 = 131072.
Proof.
  assert (H1 : 0x6C00 / 256 = 0x6C) by reflexivity.
  split; [exact H1|].
  apply (proj1 (k42_first_entry_wins 0x6C00) H1).
Defined.

Lemma target_lookup_consistent_witness :
  Z.land 0x74FF 0xFFE0 = Z.land 0x74E0 0xFFE0
  /\ target_identify 0x74FF = target_identify 0x74E0
  /\ target_flash_size 0x74FF = target_flash_size 0x74E0.
Proof.
  assert (H1 : Z.land 0x74FF 0xFFE0 = Z.land 0x74E0 0xFFE0) by reflexivity.
  split; [exact H1|].
  apply (proj1 (target_lookup_consistent 0x74FF 0x74E0) H1).
Defined.

Lemma payload_fields_little_endian_witness :
  is_u8 0x78 /\ is_u8 0x56 /\ is_u8 0x34 /\ is_u8 0x12
  /\ proto_get_u32 [0x78; 0x56; 0x34; 0x12] = 0x12345678
  /\ proto_get_u16 [0x78; 0x56] = 0x5678.
Proof.
  assert (H0 : is_u8 0x78) by (unfold is_u8; lia).
  assert (H1 : is_u8 0x56) by (unfold is_u8; lia).
  assert (H2 : is_u8 0x34) by (unfold is_u8; lia).
  assert (H3 : is_u8 0x12) by (unfold is_u8; lia).
  split; [exact H0|]. split; [exact H1|]. split; [exact H2|].
  split; [exact H3|].
  destruct (payload_fields_little_endian 0x78 0x56 0x34 0x12 [] H0 H1 H2 H3)
    as (H32 & _).
  split; [exact H32|reflexivity].
Defined.

Lemma wrong_checksum_rejected_witness :
  is_u8 CMD_VERSION
  /\ Forall is_u8 []
  /\ Z.of_nat (length (@nil Z)) <= PROTO_MAX_PAYLOAD
  /\ length (payload idle_request) = Z.to_nat PROTO_MAX_PAYLOAD
  /\ is_u8 0
  /\ 0 <> proto_crc8 (frame_body CMD_VERSION [])
            (Z.of_nat (length (frame_body CMD_VERSION [])))
  /\ main_iteration (-1) 25 (fun _ => 0) idle_request
       (set_stdin (frame_body CMD_VERSION [] ++ 0 :: [0x55]) (pico_world []))
     = Some (request_of CMD_VERSION [] idle_request,
             set_stdin [0x55] (pico_world []),
             response_events STATUS_ERR_CRC []).
Proof.
  assert (H1 : is_u8 CMD_VERSION) by (unfold is_u8, CMD_VERSION; lia).
  assert (H2 : Forall is_u8 []) by constructor.
  assert (H3 : Z.of_nat (length (@nil Z)) <= PROTO_MAX_PAYLOAD)
    by (unfold PROTO_MAX_PAYLOAD; simpl; lia).
  assert (H4 : length (payload idle_request) = Z.to_nat PROTO_MAX_PAYLOAD)
    by reflexivity.
  assert (H5 : is_u8 0) by (unfold is_u8; lia).
  assert (H6 : 0 <> proto_crc8 (frame_body CMD_VERSION [])
                      (Z.of_nat (length (frame_body CMD_VERSION []))))
    by (vm_compute; discriminate).
  split; [exact H1|]. split; [exact H2|]. split; [exact H3|].
  split; [exact H4|]. split; [exact H5|]. split; [exact H6|].
  apply (proj2 (wrong_checksum_rejected (-1) ltac:(lia) 25 (fun _ => 0)
                  idle_request (pico_world []) CMD_VERSION [] 0 [0x55]
                  H1 H2 H3 H4 H5 H6)).
Defined.

Lemma read_error_aborts_silently_witness :
  -1 < 0
  /\ proto_read_request (-1) (fun _ => 0) idle_request
       (set_stdin (-1 :: [0x09; 0; 0; 0x3A]) (pico_world []))
     = Some ((false, idle_request),
             set_stdin [0x09; 0; 0; 0x3A] (pico_world []), []).
Proof.
  assert (H1 : -1 < 0) by lia.
  split; [exact H1|].
  apply (proj1 (read_error_aborts_silently (-1) ltac:(lia) (fun _ => 0)
                  idle_request (pico_world []) (-1) [0x09; 0; 0; 0x3A] H1)).
Defined.

Lemma accepted_input_is_a_frame_witness :
  length (payload idle_request) = Z.to_nat PROTO_MAX_PAYLOAD
  /\ Forall getchar_result [0x09; 0; 0; 0x3A; 0x07]
  /\ proto_read_request (-1) (fun _ => 0) idle_request
       (set_stdin [0x09; 0; 0; 0x3A; 0x07] (pico_world []))
     = Some ((true, mk_request 0x09 0 (repeat 0 256)),
             set_stdin [0x07] (pico_world []), [])
  /\ exists tag pl,
      is_u8 tag /\ Forall is_u8 pl
      /\ Z.of_nat (length pl) <= PROTO_MAX_PAYLOAD
      /\ [0x09; 0; 0; 0x3A; 0x07] = frame tag pl ++ [0x07].
Proof.
  assert (H1 : length (payload idle_request) = Z.to_nat PROTO_MAX_PAYLOAD)
    by reflexivity.
  assert (H2 : Forall getchar_result [0x09; 0; 0; 0x3A; 0x07])
    by (repeat constructor; unfold getchar_result; lia).
  assert (H3 : proto_read_request (-1) (fun _ => 0) idle_request
                 (set_stdin [0x09; 0; 0; 0x3A; 0x07] (pico_world []))
               = Some ((true, mk_request 0x09 0 (repeat 0 256)),
                       set_stdin [0x07] (pico_world []), []))
    by (vm_compute; reflexivity).
  split; [exact H1|]. split; [exact H2|]. split; [exact H3|].
  destruct (accepted_input_is_a_frame (-1) ltac:(lia) (fun _ => 0)
              idle_request (mk_request 0x09 0 (repeat 0 256))
              (set_stdin [0x09; 0; 0; 0x3A; 0x07] (pico_world []))
              (set_stdin [0x07] (pico_world [])) [] H1 H2 H3)
    as (tag & pl & Htag & Hpl & Hmax & Hin & _).
  exists tag, pl. auto.
Defined.

Lemma unknown_command_answered_witness :
  ~ (CMD_DIAG <= cmd (mk_request 0x7F 0 (repeat 0 256)) <= CMD_VERSION)
  /\ dispatch (fun _ => 0) (mk_request 0x7F 0 (repeat 0 256)) (pico_world [])
     = Some (tt, pico_world [], response_events STATUS_ERR_CMD []).
Proof.
  assert (H1 : ~ (CMD_DIAG <= cmd (mk_request 0x7F 0 (repeat 0 256))
                  <= CMD_VERSION))
    by (unfold CMD_DIAG, CMD_VERSION; simpl; lia).
  split; [exact H1|].
  apply (proj1 (unknown_command_answered (fun _ => 0)
                  (mk_request 0x7F 0 (repeat 0 256)) (pico_world []) H1)).
Defined.

Lemma malformed_payload_rejected_witness :
  len (mk_request CMD_WRITE_PAGE 131 (repeat 0 256)) < 4 + FLASH_ROW_BYTES
  /\ handle_write_page (fun _ => 0)
       (mk_request CMD_WRITE_PAGE 131 (repeat 0 256)) (pico_world [])
     = Some (tt, pico_world [], response_events STATUS_ERR_PAYLOAD []).
Proof.
  assert (H1 : len (mk_request CMD_WRITE_PAGE 131 (repeat 0 256))
               < 4 + FLASH_ROW_BYTES)
    by (unfold FLASH_ROW_BYTES; simpl; lia).
  split; [exact H1|].
  apply (proj1 (malformed_payload_rejected (fun _ => 0)
                  (mk_request CMD_WRITE_PAGE 131 (repeat 0 256))
                  (pico_world [])) H1).
Defined.

Lemma erase_probes_then_erases_witness :
  read_data_value (pico_world [0x00; 0xD8; 0x40]) <> 0xFFFF
  /\ read_data_value (pico_world [0x00; 0xD8; 0x40]) <> 0
  /\ exists out,
      handle_erase (fun _ => 0) (mk_request CMD_ERASE 0 (repeat 0 256))
        (pico_world [0x00; 0xD8; 0x40]) = Some out
      /\ lvp_active (snd (fst out)) = false.
Proof.
  assert (H1 : read_data_value (pico_world [0x00; 0xD8; 0x40]) <> 0xFFFF)
    by (vm_compute; discriminate).
  assert (H2 : read_data_value (pico_world [0x00; 0xD8; 0x40]) <> 0)
    by (vm_compute; discriminate).
  split; [exact H1|]. split; [exact H2|].
  eexists. split.
  - apply (proj2 (erase_probes_then_erases (fun _ => 0)
                    (mk_request CMD_ERASE 0 (repeat 0 256))
                    (pico_world [0x00; 0xD8; 0x40])) H1 H2).
  - reflexivity.
Defined.

Lemma diag_reports_ids_and_name_witness :
  is_u16 0x6C20 /\ is_u16 0xA001
  /\ proto_get_u16 (diag_answer 0x6C20 0xA001) = 0x6C20
  /\ proto_get_u16 (drop 2 (diag_answer 0x6C20 0xA001)) = 0xA001.
Proof.
  assert (H1 : is_u16 0x6C20) by (unfold is_u16; lia).
  assert (H2 : is_u16 0xA001) by (unfold is_u16; lia).
  split; [exact H1|]. split; [exact H2|].
  destruct (proj1 (proj2 (diag_reports_ids_and_name (fun _ => 0)
                            (mk_request CMD_DIAG 0 (repeat 0 256))
                            (pico_world [])))
              0x6C20 0xA001 H1 H2) as (Hdev & Hrev & _).
  split; [exact Hdev|exact Hrev].
Defined.

Lemma session_ends_inactive_witness :
  cmd (mk_request CMD_RESET_TARGET 0 (repeat 0 256)) = CMD_RESET_TARGET
  /\ exists w' t,
      dispatch (fun _ => 0) (mk_request CMD_RESET_TARGET 0 (repeat 0 256))
        (set_lvp_active true (pico_world [])) = Some (tt, w', t)
      /\ lvp_active w' = false.
Proof.
  assert (H1 : cmd (mk_request CMD_RESET_TARGET 0 (repeat 0 256))
               = CMD_RESET_TARGET) by reflexivity.
  split; [exact H1|].
  destruct (session_ends_inactive (fun _ => 0)
              (mk_request CMD_RESET_TARGET 0 (repeat 0 256))
              (set_lvp_active true (pico_world []))
              (or_intror (or_intror (or_introl H1))))
    as (w' & t & Hrun & Hact & _).
  exists w', t. split; [exact Hrun|exact Hact].
Defined.

Lemma eeprom_test_verdict_witness :
  read_data_value (pico_world [0x00; 0xD8; 0x40]) <> 0xFFFF
  /\ read_data_value (pico_world [0x00; 0xD8; 0x40]) <> 0
  /\ exists out,
      handle_test_eeprom (fun _ => 0)
        (mk_request CMD_TEST_EEPROM 0 (repeat 0 256))
        (pico_world [0x00; 0xD8; 0x40]) = Some out.
Proof.
  assert (H1 : read_data_value (pico_world [0x00; 0xD8; 0x40]) <> 0xFFFF)
    by (vm_compute; discriminate).
  assert (H2 : read_data_value (pico_world [0x00; 0xD8; 0x40]) <> 0)
    by (vm_compute; discriminate).
  split; [exact H1|]. split; [exact H2|].
  destruct (eeprom_test_verdict (fun _ => 0)
              (mk_request CMD_TEST_EEPROM 0 (repeat 0 256))
              (pico_world [0x00; 0xD8; 0x40]) H1 H2)
    as (ws & w1 & t1 & verdict & _ & Hrun & _).
  eexists. exact Hrun.
Defined.

Lemma program_page_increments_all_but_last_witness :
  (1 <= length [0x1111; 0x2222; 0x3333])%nat
  /\ Z.of_nat (length [0x1111; 0x2222; 0x3333]) < 2 ^ 32
  /\ Forall is_u16 [0x1111; 0x2222; 0x3333]
  /\ icsp_program_page 0x100 [0x1111; 0x2222; 0x3333] 3 false (pico_world [])
     = Some (3, pico_world [],
             [load_pc 0x100;
              load_data ICSP_COMMAND_LOAD_DATA_INCPC 0x1111;
              load_data ICSP_COMMAND_LOAD_DATA_INCPC 0x2222;
              load_data ICSP_COMMAND_LOAD_DATA 0x3333;
              opcode_only ICSP_COMMAND_BEGIN_PROG_INT; Ev_sleep_ms 3]).
Proof.
  assert (H1 : (1 <= length [0x1111; 0x2222; 0x3333])%nat) by (simpl; lia).
  assert (H2 : Z.of_nat (length [0x1111; 0x2222; 0x3333]) < 2 ^ 32)
    by (simpl; lia).
  assert (H3 : Forall is_u16 [0x1111; 0x2222; 0x3333])
    by (repeat constructor; unfold is_u16; lia).
  split; [exact H1|]. split; [exact H2|]. split; [exact H3|].
  apply (proj1 (program_page_increments_all_but_last 0x100
                  [0x1111; 0x2222; 0x3333] false (pico_world []) H1 H2 H3)).
Defined.

Lemma write_page_programs_row_witness :
  4 + FLASH_ROW_BYTES <= len (mk_request CMD_WRITE_PAGE 132 (repeat 0x5A 256))
  /\ length (payload (mk_request CMD_WRITE_PAGE 132 (repeat 0x5A 256)))
     = Z.to_nat PROTO_MAX_PAYLOAD
  /\ Forall is_u8 (payload (mk_request CMD_WRITE_PAGE 132 (repeat 0x5A 256)))
  /\ exists out,
      handle_write_page (fun _ => 0)
        (mk_request CMD_WRITE_PAGE 132 (repeat 0x5A 256)) (pico_world [])
        = Some out
      /\ lvp_active (snd (fst out)) = true.
Proof.
  assert (H1 : 4 + FLASH_ROW_BYTES
               <= len (mk_request CMD_WRITE_PAGE 132 (repeat 0x5A 256)))
    by (unfold FLASH_ROW_BYTES; simpl; lia).
  assert (H2 : length (payload (mk_request CMD_WRITE_PAGE 132
                                  (repeat 0x5A 256)))
               = Z.to_nat PROTO_MAX_PAYLOAD) by reflexivity.
  assert (H3 : Forall is_u8
                 (payload (mk_request CMD_WRITE_PAGE 132 (repeat 0x5A 256)))).
  { cbn [payload]. apply List.Forall_forall. intros x Hx.
    apply repeat_spec in Hx. subst x. unfold is_u8. lia. }
  split; [exact H1|]. split; [exact H2|]. split; [exact H3|].
  eexists. split.
  - apply (proj1 (write_page_programs_row (fun _ => 0)
                    (mk_request CMD_WRITE_PAGE 132 (repeat 0x5A 256))
                    (pico_world []) H1 H2 H3)).
  - reflexivity.
Defined.

Lemma no_input_pin_reads_ones_witness :
  dataInPin (mk_world false 7 (-1) 6 29 [] (fun _ => 0) 0) = -1
  /\ icsp_get_device_id (mk_world false 7 (-1) 6 29 [] (fun _ => 0) 0)
     = Some (0xFFFF, mk_world false 7 (-1) 6 29 [] (fun _ => 0) 0,
             [load_pc 0x3FFFFE; Ev_sleep_us 1]).
Proof.
  assert (H1 : dataInPin (mk_world false 7 (-1) 6 29 [] (fun _ => 0) 0) = -1)
    by reflexivity.
  split; [exact H1|].
  apply (proj1 (proj2 (no_input_pin_reads_ones (fun _ => 0) idle_request
                         (mk_world false 7 (-1) 6 29 [] (fun _ => 0) 0)
                         H1))).
Defined.

Lemma every_request_gets_one_answer_witness :
  is_u8 CMD_VERSION
  /\ Forall is_u8 []
  /\ Z.of_nat (length (@nil Z)) <= PROTO_MAX_PAYLOAD
  /\ length (payload idle_request) = Z.to_nat PROTO_MAX_PAYLOAD
  /\ exists w' t status answer,
      main_iteration (-1) 25 (fun _ => 0) idle_request
        (set_stdin (frame CMD_VERSION [] ++ []) (pico_world []))
        = Some (request_of CMD_VERSION [] idle_request, w',
                [Ev_gpio_put 25 true] ++ t ++ response_events status answer
                  ++ [Ev_gpio_put 25 false])
      /\ stdin w' = [].
Proof.
  assert (H1 : is_u8 CMD_VERSION) by (unfold is_u8, CMD_VERSION; lia).
  assert (H2 : Forall is_u8 []) by constructor.
  assert (H3 : Z.of_nat (length (@nil Z)) <= PROTO_MAX_PAYLOAD)
    by (unfold PROTO_MAX_PAYLOAD; simpl; lia).
  assert (H4 : length (payload idle_request) = Z.to_nat PROTO_MAX_PAYLOAD)
    by reflexivity.
  split; [exact H1|]. split; [exact H2|]. split; [exact H3|].
  split; [exact H4|].
  destruct (every_request_gets_one_answer (-1) ltac:(lia) 25 (fun _ => 0)
              idle_request (pico_world []) CMD_VERSION [] [] H1 H2 H3 H4)
    as (w' & t & status & answer & Hrun & Hin & _).
  exists w', t, status, answer. split; [exact Hrun|exact Hin].
Defined.

Lemma requests_answered_in_turn_witness :
  Forall well_formed [(CMD_VERSION, []); (0x7F, [0x01; 0x02])]
  /\ length (payload idle_request) = Z.to_nat PROTO_MAX_PAYLOAD
  /\ exists req' w' t answers,
      main_loop (-1) 25 (fun _ => 0) 2 idle_request
        (set_stdin
           (request_frames [(CMD_VERSION, []); (0x7F, [0x01; 0x02])] ++ [])
           (pico_world []))
        = Some (req', w', t)
      /\ stdin w' = []
      /\ host_output t = answer_events answers
      /\ length answers = 2%nat.
Proof.
  assert (H1 : Forall well_formed [(CMD_VERSION, []); (0x7F, [0x01; 0x02])]).
  { repeat constructor; unfold is_u8, CMD_VERSION, PROTO_MAX_PAYLOAD;
      simpl; lia. }
  assert (H2 : length (payload idle_request) = Z.to_nat PROTO_MAX_PAYLOAD)
    by reflexivity.
  split; [exact H1|]. split; [exact H2|].
  destruct (requests_answered_in_turn (-1) ltac:(lia) 25 (fun _ => 0)
              [(CMD_VERSION, []); (0x7F, [0x01; 0x02])] [] H1
              idle_request (pico_world []) H2)
    as (req' & w' & t & answers & Hrun & Hin & Hout & Hn & _).
  exists req', w', t, answers. auto.
Defined.

Lemma oversized_request_skipped_witness :
  is_u8 CMD_READ
  /\ PROTO_MAX_PAYLOAD < 300 < 65535
  /\ Z.of_nat (length (repeat 0xEE 301)) = 300 + 1
  /\ is_u8 CMD_VERSION
  /\ Forall is_u8 []
  /\ Z.of_nat (length (@nil Z)) <= PROTO_MAX_PAYLOAD
  /\ length (payload idle_request) = Z.to_nat PROTO_MAX_PAYLOAD
  /\ proto_read_request (-1) (fun _ => 0) idle_request
       (set_stdin
          ([CMD_READ; 300 mod 256; 300 / 256] ++ repeat 0xEE 301
             ++ frame CMD_VERSION [] ++ [])
          (pico_world []))
     = Some ((false, mk_request CMD_READ 0 (payload idle_request)),
             set_stdin (frame CMD_VERSION [] ++ []) (pico_world []), []).
Proof.
  assert (H1 : is_u8 CMD_READ) by (unfold is_u8, CMD_READ; lia).
  assert (H2 : PROTO_MAX_PAYLOAD < 300 < 65535)
    by (unfold PROTO_MAX_PAYLOAD; lia).
  assert (H3 : Z.of_nat (length (repeat 0xEE 301)) = 300 + 1)
    by (vm_compute; reflexivity).
  assert (H4 : is_u8 CMD_VERSION) by (unfold is_u8, CMD_VERSION; lia).
  assert (H5 : Forall is_u8 []) by constructor.
  assert (H6 : Z.of_nat (length (@nil Z)) <= PROTO_MAX_PAYLOAD)
    by (unfold PROTO_MAX_PAYLOAD; simpl; lia).
  assert (H7 : length (payload idle_request) = Z.to_nat PROTO_MAX_PAYLOAD)
    by reflexivity.
  split; [exact H1|]. split; [exact H2|]. split; [exact H3|].
  split; [exact H4|]. split; [exact H5|]. split; [exact H6|].
  split; [exact H7|].
  apply (proj1 (oversized_request_skipped (-1) ltac:(lia) (fun _ => 0)
                  idle_request (pico_world []) CMD_READ 300 (repeat 0xEE 301)
                  CMD_VERSION [] [] H1 H2 H3 H4 H5 H6 H7)).
Defined.

Lemma write_config_programs_words_witness :
  6 <= len (mk_request CMD_WRITE_CONFIG 9
              ([0; 0; 0x30; 0; 3; 0; 0x11; 0x22; 0x33] ++ repeat 0 247))
  /\ exists out,
      handle_write_config (fun _ => 0)
        (mk_request CMD_WRITE_CONFIG 9
           ([0; 0; 0x30; 0; 3; 0; 0x11; 0x22; 0x33] ++ repeat 0 247))
        (pico_world [])
        = Some (tt, out,
                enter_lvp_events (pico_world [])
                  ++ config_writes 0x300000 [0x2211; 0xFF33]
                  ++ response_events STATUS_OK []).
Proof.
  set (req := mk_request CMD_WRITE_CONFIG 9
                ([0; 0; 0x30; 0; 3; 0; 0x11; 0x22; 0x33] ++ repeat 0 247)).
  assert (H1 : 6 <= len req) by (simpl; lia).
  assert (H2 : 6 + proto_get_u16 (drop 4 (payload req)) <= len req)
    by (vm_compute; discriminate).
  assert (H3 : len req <= PROTO_MAX_PAYLOAD)
    by (unfold PROTO_MAX_PAYLOAD; simpl; lia).
  assert (H4 : length (payload req) = Z.to_nat PROTO_MAX_PAYLOAD)
    by reflexivity.
  assert (H5 : Forall is_u8 (payload req)).
  { cbn [payload req]. apply Forall_app. split.
    - repeat constructor; unfold is_u8; lia.
    - apply List.Forall_forall. intros x Hx.
      apply repeat_spec in Hx. subst x. unfold is_u8. lia. }
  assert (H6 : proto_get_u32 (payload req)
               + proto_get_u16 (drop 4 (payload req)) < 2 ^ 31)
    by (vm_compute; reflexivity).
  split; [exact H1|]. eexists.
  apply (write_config_programs_words (fun _ => 0) req (pico_world [])
           H1 H2 H3 H4 H5 H6).
Defined.

Lemma write_eeprom_writes_each_byte_witness :
  6 <= len (mk_request CMD_WRITE_EEPROM 8
              ([0; 0; 0x31; 0; 2; 0; 0xBB; 0xCC] ++ repeat 0 248))
  /\ exists out,
      handle_write_eeprom (fun _ => 0)
        (mk_request CMD_WRITE_EEPROM 8
           ([0; 0; 0x31; 0; 2; 0; 0xBB; 0xCC] ++ repeat 0 248))
        (pico_world [])
        = Some (tt, out,
                enter_lvp_events (pico_world [])
                  ++ (load_pc 0x310000 :: byte_write 0xBB ++ byte_write 0xCC)
                  ++ response_events STATUS_OK []).
Proof.
  set (req := mk_request CMD_WRITE_EEPROM 8
                ([0; 0; 0x31; 0; 2; 0; 0xBB; 0xCC] ++ repeat 0 248)).
  assert (H1 : 6 <= len req) by (simpl; lia).
  assert (H2 : 6 + proto_get_u16 (drop 4 (payload req)) <= len req)
    by (vm_compute; discriminate).
  assert (H3 : len req <= PROTO_MAX_PAYLOAD)
    by (unfold PROTO_MAX_PAYLOAD; simpl; lia).
  assert (H4 : length (payload req) = Z.to_nat PROTO_MAX_PAYLOAD)
    by reflexivity.
  assert (H5 : Forall is_u8 (payload req)).
  { cbn [payload req]. apply Forall_app. split.
    - repeat constructor; unfold is_u8; lia.
    - apply List.Forall_forall. intros x Hx.
      apply repeat_spec in Hx. subst x. unfold is_u8. lia. }
  split; [exact H1|]. eexists.
  apply (write_eeprom_writes_each_byte (fun _ => 0) req (pico_world [])
           H1 H2 H3 H4 H5).
Defined.

Lemma load_pc_operand_limits_witness :
  2 ^ 31 <= 0x80000000 < 2 ^ 32
  /\ icsp_cmd_loadpc (to_int 0x80000000) (pico_world [])
     = Some (tt, pico_world [], [opcode_only ICSP_COMMAND_LOAD_PC]).
Proof.
  assert (H1 : 2 ^ 31 <= 0x80000000 < 2 ^ 32) by lia.
  split; [exact H1|].
  apply (proj2 (proj2 (load_pc_operand_limits ICSP_COMMAND_LOAD_PC
                         0x80000000 (pico_world []))) H1).
Defined.

(** ** Runs of the main loop *)

(** VERSION: the request [09 00 00 3A] is answered with the version
    string, without touching the target. *)
Example version_request :
  main_iteration (-1) 25 (fun _ => 0) idle_request
    (set_stdin [0x09; 0x00; 0x00; 0x3A] (pico_world []))
  = Some (mk_request CMD_VERSION 0 (repeat 0 256), pico_world [],
          [Ev_gpio_put 25 true]
            ++ response_events STATUS_OK (string_bytes "picokit 1.0")
            ++ [Ev_gpio_put 25 false]).
Proof. reflexivity. Qed.

(** A command byte that is not in the table is answered with
    [STATUS_ERR_CMD] and an empty payload. *)
Example unknown_command :
  main_iteration (-1) 25 (fun _ => 0) idle_request
    (set_stdin (frame 0x7F []) (pico_world []))
  = Some (mk_request 0x7F 0 (repeat 0 256), pico_world [],
          [Ev_gpio_put 25 true]
            ++ response_events STATUS_ERR_CMD []
            ++ [Ev_gpio_put 25 false]).
Proof. reflexivity. Qed.

(** A wrong checksum is answered with [STATUS_ERR_CRC] by the parser, and
    the command is not run. *)
Example wrong_checksum :
  main_iteration (-1) 25 (fun _ => 0) idle_request
    (set_stdin [0x09; 0x00; 0x00; 0x00] (pico_world []))
  = Some (mk_request CMD_VERSION 0 (repeat 0 256), pico_world [],
          response_events STATUS_ERR_CRC []).
Proof. reflexivity. Qed.

(** A request with length 300 and its 301 bytes is dropped without an
    answer, and the VERSION request after it is served. *)
Example oversized_then_version :
  main_loop (-1) 25 (fun _ => 0) 2 idle_request
    (set_stdin ([0x03; 0x2C; 0x01] ++ repeat 0xAA 301
                  ++ [0x09; 0x00; 0x00; 0x3A]) (pico_world []))
  = Some (mk_request CMD_VERSION 0 (repeat 0 256), pico_world [],
          [Ev_gpio_put 25 true]
            ++ response_events STATUS_OK (string_bytes "picokit 1.0")
            ++ [Ev_gpio_put 25 false]).
Proof. reflexivity. Qed.
